(** * CPALMS data collector (scraper.py): a shallow embedding and its properties

    The Python module collects Florida curriculum standards from the CPALMS
    search page (class [CPALMSDataCollector]) or from a CASE API (class
    [CPALMSAPICollector]) and stores them in an SQLite database together
    with a log of collection attempts.

    Python text is a sequence of Unicode code points; the network, the
    database and the interpreter's Unicode tables and set ordering are the
    environment of the program and appear here as explicit records of
    oracles.  Side effects are threaded through a state-and-exception
    monad. *)

From Stdlib Require Import String Ascii.
From Stdlib Require Import List ZArith NArith Lia Bool Arith PeanoNat.
Import ListNotations.

Local Open Scope string_scope.
Local Open Scope list_scope.

(* ================================================================== *)
(** ** Python strings *)

(** A Python [str]: the list of its code points. *)
Definition str := list N.

(** The code points of an ASCII literal of the source. *)
Definition lit (s : string) : str :=
  map N_of_ascii (list_ascii_of_string s).

Definition str_eqb (a b : str) : bool :=
  if list_eq_dec N.eq_dec a b then true else false.

Definition str_in (w : str) (l : list str) : bool := existsb (str_eqb w) l.

Definition is_upper (c : N) : bool := (65 <=? c)%N && (c <=? 90)%N.
Definition is_lower (c : N) : bool := (97 <=? c)%N && (c <=? 122)%N.
Definition is_digit (c : N) : bool := (48 <=? c)%N && (c <=? 57)%N.

(** The regular expression class [[a-zA-Z]]. *)
Definition is_alpha (c : N) : bool := is_lower c || is_upper c.

(** What the program takes from the Python runtime and its libraries and
    what is not in the repository: the Unicode tables behind [str.lower],
    [\b] and [str.strip] for code points outside ASCII, the order in which
    a [set] of strings is iterated (it follows the string hashes, which
    CPython seeds per process), and [urllib.parse.urljoin]. *)
Record Runtime := mkRuntime {
  (** full lower-casing of a non-ASCII code point, given the text before
      and after it (the final-sigma rule looks at both) *)
  u_lower : str -> N -> str -> str;
  (** [str.isalnum] of a non-ASCII code point *)
  u_isalnum : N -> bool;
  (** [str.isspace] of a non-ASCII code point *)
  u_isspace : N -> bool;
  (** [list(set(l))] *)
  set_list : list str -> list str;
  (** [urljoin(base, url)]: the joined URL, or the message of the
      [ValueError] it raises *)
  urljoin : str -> str -> str + str
}.

(** [list(set(l))] enumerates the distinct members of [l] once each. *)
Definition set_list_ok (rt : Runtime) : Prop :=
  forall l, NoDup (set_list rt l) /\ (forall x, In x (set_list rt l) <-> In x l).

Section Text.

Variable rt : Runtime.

(** [\w] of a [str] pattern: alphanumeric or underscore. *)
Definition is_word (c : N) : bool :=
  if (c <? 128)%N then is_alpha c || is_digit c || (c =? 95)%N
  else u_isalnum rt c.

Definition is_space (c : N) : bool :=
  if (c <? 128)%N
  then ((9 <=? c)%N && (c <=? 13)%N) || ((28 <=? c)%N && (c <=? 32)%N)
  else u_isspace rt c.

Definition lower_char (before : str) (c : N) (after : str) : str :=
  if (c <? 128)%N then [if is_upper c then (c + 32)%N else c]
  else u_lower rt before c after.

Fixpoint lower_from (before s : str) : str :=
  match s with
  | [] => []
  | c :: rest => lower_char before c rest ++ lower_from (before ++ [c]) rest
  end.

(** [text.lower()] *)
Definition lower (text : str) : str := lower_from [] text.

Fixpoint lstrip (s : str) : str :=
  match s with
  | [] => []
  | c :: rest => if is_space c then lstrip rest else s
  end.

(** [s.strip()] *)
Definition strip (s : str) : str := rev (lstrip (rev (lstrip s))).

(* ------------------------------------------------------------------ *)
(** *** [re.findall(r'\b[a-zA-Z]{3,}\b', s)] *)

Definition is_word_opt (c : option N) : bool :=
  match c with Some c => is_word c | None => false end.

(** [\b] between the character before and the character after a position. *)
Definition word_boundary (prev next : option N) : bool :=
  xorb (is_word_opt prev) (is_word_opt next).

Fixpoint take_while (p : N -> bool) (s : str) : str :=
  match s with
  | [] => []
  | c :: rest => if p c then c :: take_while p rest else []
  end.

Definition last_opt (prev : option N) (s : str) : option N :=
  match rev s with [] => prev | c :: _ => Some c end.

(** The greedy [{3,}] followed by [\b]: the longest run first, then one
    letter less, never fewer than three. *)
Fixpoint match_end (k : nat) (prev : option N) (s : str) : option (str * str) :=
  match k with
  | 0 => None
  | S k' =>
      if (k <? 3)%nat then None
      else if word_boundary (last_opt prev (firstn k s)) (hd_error (skipn k s))
           then Some (firstn k s, skipn k s)
           else match_end k' prev s
  end.

(** One attempt of the pattern at the start of [s], [prev] being the
    character before it. *)
Definition match_at (prev : option N) (s : str) : option (str * str) :=
  if word_boundary prev (hd_error s)
  then match_end (length (take_while is_alpha s)) prev s
  else None.

(** The scan of [findall]: after a match the search resumes behind it,
    otherwise one character further.  Every step consumes at least one
    character, so [length s] steps are enough. *)
Fixpoint findall_from (fuel : nat) (prev : option N) (s : str) : list str :=
  match fuel with
  | 0 => []
  | S fuel' =>
      match s with
      | [] => []
      | c :: rest =>
          match match_at prev s with
          | Some (tok, s') => tok :: findall_from fuel' (last_opt prev tok) s'
          | None => findall_from fuel' (Some c) rest
          end
      end
  end.

Definition findall (s : str) : list str := findall_from (length s) None s.

(* ------------------------------------------------------------------ *)
(** *** [extract_keywords] *)

Definition stop_words : list str :=
  map lit ["the"; "and"; "or"; "but"; "in"; "on"; "at"; "to"; "for"; "of";
           "with"; "by"; "a"; "an"].

Definition extract_keywords (text : str) : list str :=
  let words := findall (lower text) in
  let keywords := filter (fun word => negb (str_in word stop_words)) words in
  firstn 20 (set_list rt keywords).

End Text.

(** A runtime for ASCII text whose sets are listed in order of first
    insertion. *)
Fixpoint dedup (l : list str) : list str :=
  match l with
  | [] => []
  | x :: rest => x :: filter (fun y => negb (str_eqb x y)) (dedup rest)
  end.

Definition ascii_runtime : Runtime :=
  mkRuntime (fun _ c _ => [c]) (fun _ => false) (fun _ => false) dedup
            (fun base url => inl (base ++ url)).

(* ================================================================== *)
(** ** Exceptions, the environment and the program state *)

Inductive exn :=
| RequestException (msg : str)      (* requests.RequestException, HTTPError, ... *)
| ParserRejectedMarkup (msg : str)  (* raised by BeautifulSoup *)
| Sqlite3Error (msg : str)          (* sqlite3.Error *)
| KeyError (msg : str)
| ValueError (msg : str)
| AttributeError (msg : str).

(** [str(e)] *)
Definition exn_str (e : exn) : str :=
  match e with
  | RequestException m | ParserRejectedMarkup m | Sqlite3Error m
  | KeyError m | ValueError m | AttributeError m => m
  end.

(** [except requests.RequestException] *)
Definition is_request_exception (e : exn) : bool :=
  match e with RequestException _ => true | _ => false end.

(** [except Exception] *)
Definition is_exception (e : exn) : bool := true.

(** An [<a>] tag and its [href] attribute, if it has one. *)
Record Anchor := mkAnchor { href : option str }.

(** A [div.standard-item] as [extract_standard_data] looks at it: the
    result of each [find] ([None] when there is no such descendant, else
    the text of the tag) and the first [<a>]. *)
Record Element := mkElement {
  find_standard_id : option str;   (* element.find('span', class_='standard-id') *)
  find_title : option str;         (* element.find('h3', class_='standard-title') *)
  find_description : option str;   (* element.find('div', class_='standard-description') *)
  find_a : option Anchor           (* element.find('a') *)
}.

(** What [BeautifulSoup(content, 'html.parser')] makes of a body: a soup,
    of which the program reads [find_all('div', class_='standard-item')],
    or an exception of the parser. *)
Inductive Markup :=
| Soup (standard_items : list Element)
| Rejected (msg : str).

(** A CASE document and item as [response.json()] returns them; a missing
    key is [None]. *)
Record CFDocument := mkCFDocument {
  doc_title : option str;
  doc_identifier : option str
}.

Record CFItem := mkCFItem {
  humanCodingScheme : option str;
  abbreviatedStatement : option str;
  fullStatement : option str;
  CFDocumentURI_title : option (option str);  (* item['CFDocumentURI'], its 'title' *)
  educationLevel : option (list str)
}.

Record Json := mkJson {
  CFDocuments : option (list CFDocument);
  CFItems : option (list CFItem)
}.

(** A response body, as the HTML parser and as [response.json()] read it. *)
Record Body := mkBody { as_html : Markup; as_json : Json }.

Record Request := mkRequest { req_url : str; req_params : list (str * str) }.

(** [session.get] followed by [raise_for_status]: a body, or the message
    of the [RequestException] raised. *)
Inductive Response :=
| HttpOk (body : Body)
| HttpError (msg : str).

(** The database calls of the program, one per call site. *)
Inductive DbOp :=
| SetupConnect | SetupCreateStandards | SetupCreateLog | SetupCommit
| SaveConnect | SaveUpsert | SaveCommit
| LogConnect | LogInsert | LogCommit.

Definition is_log_op (op : DbOp) : bool :=
  match op with LogConnect | LogInsert | LogCommit => true | _ => false end.

Definition is_save_op (op : DbOp) : bool :=
  match op with SaveConnect | SaveUpsert | SaveCommit => true | _ => false end.

Definition is_setup_op (op : DbOp) : bool :=
  match op with
  | SetupConnect | SetupCreateStandards | SetupCreateLog | SetupCommit => true
  | _ => false
  end.

(** The world outside the program.  The [n]-th request of a run (counted
    from 0) is answered by [http n]; the [n]-th database call fails with
    message [m] when [db_fault n op = Some m], and [CURRENT_TIMESTAMP]
    evaluates to [current_timestamp n] in it. *)
Record Env := mkEnv {
  http : nat -> Request -> Response;
  db_fault : nat -> DbOp -> option str;
  current_timestamp : nat -> Z
}.

(** Table [standards]; every column but the key may hold NULL. *)
Record StandardRow := mkStandardRow {
  row_id : Z;
  row_standard_id : option str;
  row_state : option str;
  row_subject : option str;
  row_grade : option str;
  row_domain : option str;
  row_cluster : option str;
  row_title : option str;
  row_description : option str;
  row_clarifications : option str;
  row_keywords : option str;
  row_url : option str;
  row_created_at : option Z
}.

(** Table [scraping_log]. *)
Record LogRow := mkLogRow {
  log_id : Z;
  log_subject : str;
  log_grade : str;
  log_status : str;
  log_records_collected : nat;
  log_timestamp : Z;
  log_notes : str
}.

(** The committed content of florida_standards.db; the [_seq] fields are
    the AUTOINCREMENT counters of sqlite_sequence. *)
Record Database := mkDatabase {
  standards : list StandardRow;
  standards_seq : Z;
  scraping_log : list LogRow;
  scraping_log_seq : Z
}.

(** The lines the program prints, one constructor per [print]. *)
Inductive Msg :=
| MsgSettingUp
| MsgGettingAvailable
| MsgPlanning (subjects grades : nat)
| MsgScraping (subject grade : str)
| MsgCollected (n : nat)
| MsgNoStandards
| MsgUnitError (e : str)
| MsgComplete (total : nat)
| MsgSubjectsError (e : str)
| MsgScrapeError (subject grade e : str)
| MsgExtractError (e : str)
| MsgSaveError (standard_id e : str)
| MsgApiError (e : str).

(** The state a run acts on.  [total_collected] is the local variable of
    [collect_all_standards]: it lives here because an increment made inside
    a [try] block is still there when the handler runs. *)
Record State := mkState {
  db : Database;
  db_calls : nat;            (* database calls made so far *)
  requests : list Request;   (* requests sent so far, oldest first *)
  sleeps : list Z;           (* arguments of the [time.sleep] calls so far *)
  stdout : list Msg;         (* lines printed so far *)
  total_collected : nat
}.

Definition empty_db : Database := mkDatabase [] 0 [] 0.
Definition initial_state : State := mkState empty_db 0 [] [] [] 0.

(* ------------------------------------------------------------------ *)
(** *** The monad of effects *)

Inductive outcome (A : Type) :=
| Return (a : A)
| Raise (e : exn).
Arguments Return {A} a.
Arguments Raise {A} e.

Definition M (A : Type) : Type := State -> outcome A * State.

Definition ret {A} (a : A) : M A := fun st => (Return a, st).
Definition raise {A} (e : exn) : M A := fun st => (Raise e, st).

Definition bind {A B} (m : M A) (k : A -> M B) : M B :=
  fun st =>
    match m st with
    | (Return a, st') => k a st'
    | (Raise e, st') => (Raise e, st')
    end.

(** [try: body / except <class> as e: handler e] *)
Definition try_except {A} (body : M A) (class : exn -> bool)
                      (handler : exn -> M A) : M A :=
  fun st =>
    match body st with
    | (Return a, st') => (Return a, st')
    | (Raise e, st') => if class e then handler e st' else (Raise e, st')
    end.

Declare Scope py_scope.
Delimit Scope py_scope with py.
Notation "x <- m ;; k" := (bind m (fun x => k))
  (at level 61, m at next level, right associativity) : py_scope.
Notation "m ;; k" := (bind m (fun _ => k))
  (at level 61, right associativity) : py_scope.
Local Open Scope py_scope.

(** [for x in l: body x] *)
Fixpoint for_each {X} (l : list X) (body : X -> M unit) : M unit :=
  match l with
  | [] => ret tt
  | x :: rest => body x ;; for_each rest body
  end.

Definition get {A} (f : State -> A) : M A := fun st => (Return (f st), st).

Definition print (m : Msg) : M unit :=
  fun st => (Return tt,
             mkState (db st) (db_calls st) (requests st) (sleeps st)
                     (stdout st ++ [m]) (total_collected st)).

(** [time.sleep(d)] *)
Definition sleep (d : Z) : M unit :=
  fun st => (Return tt,
             mkState (db st) (db_calls st) (requests st) (sleeps st ++ [d])
                     (stdout st) (total_collected st)).

Definition set_db (d : Database) : M unit :=
  fun st => (Return tt,
             mkState d (db_calls st) (requests st) (sleeps st)
                     (stdout st) (total_collected st)).

Definition set_total (n : nat) : M unit :=
  fun st => (Return tt,
             mkState (db st) (db_calls st) (requests st) (sleeps st)
                     (stdout st) n).

Section Program.

Variable rt : Runtime.
Variable env : Env.

(** [response = self.session.get(url, params=params)] and
    [response.raise_for_status()] *)
Definition session_get (r : Request) : M Body :=
  fun st =>
    let st' := mkState (db st) (db_calls st) (requests st ++ [r]) (sleeps st)
                       (stdout st) (total_collected st) in
    match http env (length (requests st)) r with
    | HttpOk body => (Return body, st')
    | HttpError msg => (Raise (RequestException msg), st')
    end.

(** [BeautifulSoup(response.content, 'html.parser')], then the items that
    [soup.find_all('div', class_='standard-item')] would list. *)
Definition BeautifulSoup (body : Body) : M (list Element) :=
  match as_html body with
  | Soup items => ret items
  | Rejected msg => raise (ParserRejectedMarkup msg)
  end.

(** One call of the sqlite3 module; returns its number in the run. *)
Definition db_call (op : DbOp) : M nat :=
  fun st =>
    let n := db_calls st in
    let st' := mkState (db st) (S n) (requests st) (sleeps st)
                       (stdout st) (total_collected st) in
    match db_fault env n op with
    | Some msg => (Raise (Sqlite3Error msg), st')
    | None => (Return n, st')
    end.

(* ------------------------------------------------------------------ *)
(** *** class CPALMSDataCollector *)

(** The attributes [__init__] sets (the session and its headers belong to
    the transport). *)
Record CPALMSDataCollector := mkCollector {
  api_key : option str;
  base_url : str;
  search_url : str;
  request_delay : Z
}.

Definition new_collector (api_key : option str) : CPALMSDataCollector :=
  mkCollector api_key
              (lit "https://www.cpalms.org")
              (lit "https://www.cpalms.org/search/Standard")
              2.

(** The dictionary built for one standard. *)
Record Standard := mkStandard {
  standard_id : str;
  subject : str;
  grade : str;
  title : str;
  description : str;
  keywords : str;      (* JSON text *)
  url : option str
}.

(** [json.dumps] of a list of strings; keywords are ASCII letters, so
    nothing in them is escaped. *)
Definition json_quote (x : str) : str := 34%N :: x ++ [34%N].

Fixpoint json_join (l : list str) : str :=
  match l with
  | [] => []
  | [x] => json_quote x
  | x :: rest => json_quote x ++ lit ", " ++ json_join rest
  end.

Definition json_dumps (l : list str) : str := lit "[" ++ json_join l ++ lit "]".

Definition setup_database : M unit :=
  db_call SetupConnect ;;
  db_call SetupCreateStandards ;;   (* CREATE TABLE IF NOT EXISTS standards *)
  db_call SetupCreateLog ;;         (* CREATE TABLE IF NOT EXISTS scraping_log *)
  db_call SetupCommit ;;
  ret tt.

Definition known_subjects : list str :=
  map lit ["English Language Arts (B.E.S.T.)"; "Mathematics (B.E.S.T.)";
           "Science"; "Social Studies"; "Health Education";
           "Physical Education"; "Visual Art"; "Music"; "Theatre"; "Dance";
           "World Languages"; "Computer Science (Starting 2025-2026)"].

Definition known_grades : list str :=
  map lit ["K"; "1"; "2"; "3"; "4"; "5"; "6"; "7"; "8"; "9"; "10"; "11"; "12"].

Definition get_subjects_and_grades (self : CPALMSDataCollector)
  : M (list str * list str) :=
  try_except
    (response <- session_get (mkRequest (search_url self) []) ;;
     soup <- BeautifulSoup response ;;
     ret (known_subjects, known_grades))
    is_request_exception
    (fun e => print (MsgSubjectsError (exn_str e)) ;; ret ([], [])).

Definition extract_standard_data (self : CPALMSDataCollector)
    (element : Element) (subject grade : str) : M (option Standard) :=
  try_except
    (match find_standard_id element, find_title element,
           find_description element with
     | Some standard_id, Some title, Some description =>
         let keywords := extract_keywords rt description in
         url <- match find_a element with
                | Some a =>
                    match href a with
                    | Some h =>
                        match urljoin rt (base_url self) h with
                        | inl u => ret (Some u)
                        | inr msg => raise (ValueError msg)
                        end
                    | None => raise (KeyError (lit "'href'"))
                    end
                | None => ret None
                end ;;
         ret (Some (mkStandard (strip rt standard_id) subject grade
                               (strip rt title) (strip rt description)
                               (json_dumps keywords) url))
     | _, _, _ => ret None   (* if not all([...]): return None *)
     end)
    is_exception
    (fun e => print (MsgExtractError (exn_str e)) ;; ret None).

(** The loop over [standard_elements]; [standards] is the list built so
    far. *)
Fixpoint scrape_elements (self : CPALMSDataCollector)
    (standard_elements : list Element) (subject grade : str)
    (standards : list Standard) : M (list Standard) :=
  match standard_elements with
  | [] => ret standards
  | element :: rest =>
      standards' <-
        try_except
          (standard_data <- extract_standard_data self element subject grade ;;
           match standard_data with
           | Some d => ret (standards ++ [d])
           | None => ret standards
           end)
          is_exception
          (fun e => print (MsgExtractError (exn_str e)) ;; ret standards) ;;
      scrape_elements self rest subject grade standards'
  end.

(** A [RequestException] can only come from the request itself, when
    [standards] is still empty: that is what the handler returns. *)
Definition scrape_standards_by_subject_grade (self : CPALMSDataCollector)
    (subject grade : str) : M (list Standard) :=
  try_except
    (response <- session_get
                   (mkRequest (search_url self)
                              [(lit "subject", subject); (lit "grade", grade)]) ;;
     standard_elements <- BeautifulSoup response ;;
     standards <- scrape_elements self standard_elements subject grade [] ;;
     sleep (request_delay self) ;;
     ret standards)
    is_request_exception
    (fun e => print (MsgScrapeError subject grade (exn_str e)) ;; ret []).

(* ------------------------------------------------------------------ *)
(** *** The two tables *)

Definition max_row_id (rows : list StandardRow) : Z :=
  fold_right (fun r m => Z.max (row_id r) m) 0%Z rows.

Definition max_log_id (rows : list LogRow) : Z :=
  fold_right (fun r m => Z.max (log_id r) m) 0%Z rows.

(** A row that holds the key [sid] (NULL keys never collide). *)
Definition has_key (sid : str) (row : StandardRow) : bool :=
  match row_standard_id row with
  | Some k => str_eqb k sid
  | None => false
  end.

(** [INSERT OR REPLACE INTO standards (standard_id, subject, grade, title,
    description, keywords, url) VALUES (...)] at time [now]: the rows that
    collide on the UNIQUE key go, the new row gets a fresh AUTOINCREMENT
    id, the values given and the column defaults elsewhere. *)
Definition insert_or_replace (now : Z) (standard : Standard) (d : Database)
  : Database :=
  let id := (Z.max (standards_seq d) (max_row_id (standards d)) + 1)%Z in
  let row := mkStandardRow id
               (Some (standard_id standard))
               (Some (lit "FL"))
               (Some (subject standard))
               (Some (grade standard))
               None
               None
               (Some (title standard))
               (Some (description standard))
               None
               (Some (keywords standard))
               (url standard)
               (Some now) in
  mkDatabase
    (filter (fun r => negb (has_key (standard_id standard) r)) (standards d)
     ++ [row])
    id (scraping_log d) (scraping_log_seq d).

(** [INSERT INTO scraping_log (subject, grade, status, records_collected,
    notes) VALUES (...)] at time [now]. *)
Definition insert_log (now : Z) (subject grade status : str)
    (records_collected : nat) (notes : str) (d : Database) : Database :=
  let id := (Z.max (scraping_log_seq d) (max_log_id (scraping_log d)) + 1)%Z in
  mkDatabase (standards d) (standards_seq d)
    (scraping_log d
     ++ [mkLogRow id subject grade status records_collected now notes])
    id.

(** The loop of [save_standards_to_db] inside its transaction; [work] is
    the content the connection sees. *)
Fixpoint upsert_all (standards : list Standard) (work : Database) : M Database :=
  match standards with
  | [] => ret work
  | standard :: rest =>
      work' <-
        try_except
          (n <- db_call SaveUpsert ;;
           ret (insert_or_replace (current_timestamp env n) standard work))
          is_exception
          (fun e => print (MsgSaveError (standard_id standard) (exn_str e)) ;;
                    ret work) ;;
      upsert_all rest work'
  end.

(** What is not committed is lost with the connection. *)
Definition save_standards_to_db (standards : list Standard) : M unit :=
  match standards with
  | [] => ret tt
  | _ :: _ =>
      db_call SaveConnect ;;
      d <- get db ;;
      work <- upsert_all standards d ;;
      db_call SaveCommit ;;
      set_db work
  end.

Definition log_scraping_activity (subject grade status : str)
    (records_collected : nat) (notes : str) : M unit :=
  db_call LogConnect ;;
  n <- db_call LogInsert ;;
  db_call LogCommit ;;
  d <- get db ;;
  set_db (insert_log (current_timestamp env n) subject grade status
                     records_collected notes d).

(** [x or y] for a list argument that defaults to [None]. *)
Definition py_or (x : option (list str)) (y : list str) : list str :=
  match x with
  | Some (a :: l) => a :: l
  | _ => y
  end.

(** The [try] block of the inner loop of [collect_all_standards]. *)
Definition collect_unit_try (self : CPALMSDataCollector) (subject grade : str)
  : M unit :=
  standards <- scrape_standards_by_subject_grade self subject grade ;;
  match standards with
  | _ :: _ =>
      save_standards_to_db standards ;;
      total <- get total_collected ;;
      set_total (total + length standards) ;;
      print (MsgCollected (length standards)) ;;
      log_scraping_activity subject grade (lit "success")
                            (length standards) (lit "")
  | [] =>
      print MsgNoStandards ;;
      log_scraping_activity subject grade (lit "no_data") 0
                            (lit "No standards found")
  end.

(** Its [except Exception as e] block. *)
Definition collect_unit_except (subject grade : str) (e : exn) : M unit :=
  print (MsgUnitError (exn_str e)) ;;
  log_scraping_activity subject grade (lit "error") 0 (exn_str e).

(** The body of the inner loop. *)
Definition collect_unit (self : CPALMSDataCollector) (subject grade : str)
  : M unit :=
  print (MsgScraping subject grade) ;;
  try_except (collect_unit_try self subject grade)
             is_exception
             (collect_unit_except subject grade).

Definition collect_units (self : CPALMSDataCollector)
    (subjects_to_scrape grades_to_scrape : list str) : M unit :=
  for_each subjects_to_scrape (fun subject =>
    for_each grades_to_scrape (fun grade =>
      collect_unit self subject grade)).

Definition collect_all_standards (self : CPALMSDataCollector)
    (focus_subjects focus_grades : option (list str)) : M nat :=
  print MsgSettingUp ;;
  setup_database ;;
  print MsgGettingAvailable ;;
  available <- get_subjects_and_grades self ;;
  let subjects_to_scrape := py_or focus_subjects (fst available) in
  let grades_to_scrape := py_or focus_grades (snd available) in
  print (MsgPlanning (length subjects_to_scrape) (length grades_to_scrape)) ;;
  set_total 0 ;;
  collect_units self subjects_to_scrape grades_to_scrape ;;
  total <- get total_collected ;;
  print (MsgComplete total) ;;
  ret total.

(* ------------------------------------------------------------------ *)
(** *** class CPALMSAPICollector *)

Record CPALMSAPICollector := mkApiCollector {
  api_collector_key : str;
  case_api_url : str
}.

Definition new_api_collector (api_key : str) : CPALMSAPICollector :=
  mkApiCollector api_key (lit "https://api.cpalms.org/case/v1p0").

Definition or_empty (x : option str) : str :=
  match x with Some s => s | None => [] end.

(** [item.get('CFDocumentURI', {}).get('title', '').split(' ')[0]] *)
Definition extract_subject (item : CFItem) : str :=
  take_while (fun c => negb (c =? 32)%N)
    match CFDocumentURI_title item with
    | Some t => or_empty t
    | None => []
    end.

Definition extract_grade (item : CFItem) : str :=
  match educationLevel item with
  | Some (level :: _) => level
  | Some [] => []
  | None => []
  end.

(** The class has no method [extract_keywords] (only the other class
    has): looking it up on [self] raises. *)
Definition extract_keywords_from_case (item : CFItem) : M (list str) :=
  raise (AttributeError
    (lit "'CPALMSAPICollector' object has no attribute 'extract_keywords'")).

(** The loop of [parse_case_competencies]; the dictionary has no ['url']. *)
Fixpoint parse_items (items : list CFItem) (standards : list Standard)
  : M (list Standard) :=
  match items with
  | [] => ret standards
  | item :: rest =>
      kw <- extract_keywords_from_case item ;;
      parse_items rest
        (standards ++
         [mkStandard (or_empty (humanCodingScheme item))
                     (extract_subject item)
                     (extract_grade item)
                     (or_empty (abbreviatedStatement item))
                     (or_empty (fullStatement item))
                     (json_dumps kw)
                     None])
  end.

Definition parse_case_competencies (competencies : Json) : M (list Standard) :=
  parse_items match CFItems competencies with Some l => l | None => [] end [].

Fixpoint is_prefix (p s : str) : bool :=
  match p, s with
  | [], _ => true
  | _ :: _, [] => false
  | a :: p', b :: s' => (a =? b)%N && is_prefix p' s'
  end.

(** [p in s] *)
Fixpoint contains (p s : str) : bool :=
  is_prefix p s || match s with [] => false | _ :: s' => contains p s' end.

Definition items_url (self : CPALMSAPICollector) (identifier : str) : str :=
  case_api_url self ++ lit "/CFDocuments/" ++ identifier ++ lit "/CFItems".

(** The loop over the documents; [standards] is the list built so far. *)
Fixpoint fetch_documents (self : CPALMSAPICollector) (docs : list CFDocument)
    (standards : list Standard) : M (list Standard) :=
  match docs with
  | [] => ret standards
  | doc :: rest =>
      if contains (lit "Florida") (or_empty (doc_title doc)) then
        identifier <- match doc_identifier doc with
                      | Some i => ret i
                      | None => raise (KeyError (lit "'identifier'"))
                      end ;;
        comp_response <- session_get (mkRequest (items_url self identifier) []) ;;
        parsed <- parse_case_competencies (as_json comp_response) ;;
        fetch_documents self rest (standards ++ parsed)
      else fetch_documents self rest standards
  end.

Definition get_standards_via_api (self : CPALMSAPICollector)
  : M (list Standard) :=
  try_except
    (response <- session_get
                   (mkRequest (case_api_url self ++ lit "/CFDocuments") []) ;;
     fetch_documents self
       match CFDocuments (as_json response) with Some l => l | None => [] end
       [])
    is_request_exception
    (fun e => print (MsgApiError (exn_str e)) ;; ret []).

End Program.

(* ================================================================== *)
(** ** Vocabulary of the statements *)

(** Nothing but the printed lines differs between two states. *)
Definition quiet (st st' : State) : Prop :=
  db st' = db st /\ db_calls st' = db_calls st /\ requests st' = requests st /\
  sleeps st' = sleeps st /\ total_collected st' = total_collected st.

(** An element is complete when the three finds succeed. *)
Definition complete (element : Element) : bool :=
  match find_standard_id element, find_title element, find_description element with
  | Some _, Some _, Some _ => true
  | _, _, _ => false
  end.

(** The request that [scrape_standards_by_subject_grade] sends. *)
Definition unit_request (self : CPALMSDataCollector) (subject grade : str) : Request :=
  mkRequest (search_url self) [(lit "subject", subject); (lit "grade", grade)].

(** The link of an element does not make the extraction fail: there is no
    [<a>], or it has an [href] that [urljoin] accepts. *)
Definition link_ok (rt : Runtime) (self : CPALMSDataCollector) (element : Element) : bool :=
  match find_a element with
  | None => true
  | Some a =>
      match href a with
      | Some h => match urljoin rt (base_url self) h with
                  | inl _ => true
                  | inr _ => false
                  end
      | None => false
      end
  end.

(** The elements that yield a record. *)
Definition valid (rt : Runtime) (self : CPALMSDataCollector) (element : Element) : bool :=
  complete element && link_ok rt self element.

(** No call that appends to the log fails. *)
Definition log_sound (env : Env) : Prop :=
  forall n op, is_log_op op = true -> db_fault env n op = None.

(** No call of [setup_database] fails. *)
Definition setup_sound (env : Env) : Prop :=
  forall n op, is_setup_op op = true -> db_fault env n op = None.

(** The unit a log entry is about. *)
Definition log_unit (e : LogRow) : str * str := (log_subject e, log_grade e).

(** No call of [save_standards_to_db] fails. *)
Definition save_sound (env : Env) : Prop :=
  forall n op, is_save_op op = true -> db_fault env n op = None.

(** The rows of the table [standards] stored under a key. *)
Definition rows_with_key (sid : str) (d : Database) : list StandardRow :=
  filter (has_key sid) (standards d).

(** Every row of [after] was already in [before] or has state 'FL'. *)
Definition fl_or_old (before after : Database) : Prop :=
  forall row, In row (standards after) ->
              In row (standards before) \/ row_state row = Some (lit "FL").

(** What [get_subjects_and_grades] returns when its request is the
    [n]-th of the run (and the page is parsed). *)
Definition available (env : Env) (self : CPALMSDataCollector) (n : nat)
  : list str * list str :=
  match http env n (mkRequest (search_url self) []) with
  | HttpOk _ => (known_subjects, known_grades)
  | HttpError _ => ([], [])
  end.

(** The units of a run, in the order of the loops. *)
Definition units_to_scrape (env : Env) (self : CPALMSDataCollector) (n : nat)
    (focus_subjects focus_grades : option (list str)) : list (str * str) :=
  list_prod (py_or focus_subjects (fst (available env self n)))
            (py_or focus_grades (snd (available env self n))).

(** The search page that opens a run is not rejected by the parser. *)
Definition search_page_parses (env : Env) (self : CPALMSDataCollector) (n : nat) : Prop :=
  forall body, http env n (mkRequest (search_url self) []) = HttpOk body ->
               exists items, as_html body = Soup items.

(** The log entry of a unit whose request is the [n]-th of the run, when
    the log itself works. *)
Definition entry_for (rt : Runtime) (env : Env) (self : CPALMSDataCollector)
    (n : nat) (unit : str * str) (e : LogRow) : Prop :=
  log_unit e = unit /\
  match http env n (unit_request self (fst unit) (snd unit)) with
  | HttpError _ =>
      log_status e = lit "no_data" /\ log_records_collected e = 0 /\
      log_notes e = lit "No standards found"
  | HttpOk body =>
      match as_html body with
      | Rejected msg =>
          log_status e = lit "error" /\ log_records_collected e = 0 /\
          log_notes e = msg
      | Soup items =>
          match filter (valid rt self) items with
          | [] =>
              log_status e = lit "no_data" /\ log_records_collected e = 0 /\
              log_notes e = lit "No standards found"
          | found =>
              (log_status e = lit "success" /\
               log_records_collected e = length found /\ log_notes e = [])
              \/
              (* saving raised *)
              (log_status e = lit "error" /\ log_records_collected e = 0 /\
               exists k op, is_save_op op = true /\
                            db_fault env k op = Some (log_notes e))
          end
      end
  end.

(** The entries of consecutive units, the first of which sends the
    [n]-th request. *)
Fixpoint entries_for (rt : Runtime) (env : Env) (self : CPALMSDataCollector)
    (n : nat) (units : list (str * str)) (es : list LogRow) : Prop :=
  match units, es with
  | [], [] => True
  | unit :: units', e :: es' =>
      entry_for rt env self n unit e /\ entries_for rt env self (S n) units' es'
  | _, _ => False
  end.

(** The delays of a unit whose request is the [n]-th of the run. *)
Definition unit_delays (env : Env) (self : CPALMSDataCollector) (n : nat)
    (unit : str * str) : list Z :=
  match http env n (unit_request self (fst unit) (snd unit)) with
  | HttpOk body =>
      match as_html body with
      | Soup _ => [request_delay self]
      | Rejected _ => []
      end
  | HttpError _ => []
  end.

Fixpoint delays_for (env : Env) (self : CPALMSDataCollector) (n : nat)
    (units : list (str * str)) : list Z :=
  match units with
  | [] => []
  | unit :: units' => unit_delays env self n unit ++ delays_for env self (S n) units'
  end.

Definition unit_eq_dec (p q : str * str) : {p = q} + {p <> q}.
Proof. repeat decide equality. Defined.

(** A computation takes the database to a database related by [R],
    however it ends. *)
Definition keeps (R : Database -> Database -> Prop) {A} (m : M A) : Prop :=
  forall st, R (db st) (db (snd (m st))).

(** The log of [d'] is the log of [d]. *)
Definition same_log (d d' : Database) : Prop :=
  scraping_log d' = scraping_log d.

(** A computation that ends normally has appended exactly one entry,
    about the unit [u]; one that raises has appended none. *)
Definition logs_one (u : str * str) (m : M unit) : Prop :=
  forall st,
    match fst (m st) with
    | Return _ =>
        exists e, scraping_log (db (snd (m st))) = scraping_log (db st) ++ [e]
                  /\ log_unit e = u
    | Raise _ => scraping_log (db (snd (m st))) = scraping_log (db st)
    end.

(** The failure of an append to the log that starts as database call
    [n]: the first of its three calls that fails, if any. *)
Definition append_fault (env : Env) (n : nat) : option str :=
  match db_fault env n LogConnect with
  | Some m => Some m
  | None =>
      match db_fault env (S n) LogInsert with
      | Some m => Some m
      | None => db_fault env (S (S n)) LogCommit
      end
  end.

(** The number of database calls that append makes. *)
Definition append_calls (env : Env) (n : nat) : nat :=
  match db_fault env n LogConnect with
  | Some _ => 1
  | None =>
      match db_fault env (S n) LogInsert with
      | Some _ => 2
      | None => 3
      end
  end.



(* ================================================================== *)
(** ** Scenarios

    Concrete runtimes, environments and inputs on which the program is
    evaluated below. *)

(** The same runtime with another iteration order of sets. *)
Definition with_set_list (order : list str -> list str) (rt : Runtime) : Runtime :=
  mkRuntime (u_lower rt) (u_isalnum rt) (u_isspace rt) order (urljoin rt).

(** A runtime whose sets come out in the opposite order, as they may
    under another hash seed. *)
Definition reversed_runtime : Runtime :=
  with_set_list (fun l => rev (dedup l)) ascii_runtime.

(** Twenty-one different words. *)
Definition text21 : str :=
  lit "alpha bravo charlie delta echo foxtrot golf hotel india juliett kilo lima mike november oscar papa quebec romeo sierra tango uniform".

(** A search page without items. *)
Definition empty_page : Body := mkBody (Soup []) (mkJson None None).

(** The search page loads, then every request fails; the database works. *)
Definition failing_env : Env :=
  mkEnv (fun n _ => match n with
                    | 0 => HttpOk empty_page
                    | S _ => HttpError (lit "503 Server Error")
                    end)
        (fun _ _ => None)
        (fun n => Z.of_nat n).

(** Every request is answered by a page without items; the database
    works. *)
Definition quiet_env : Env :=
  mkEnv (fun _ _ => HttpOk empty_page) (fun _ _ => None) (fun n => Z.of_nat n).

(** The run of the testable properties: Mathematics, grade 3. *)
Definition run_mathematics_3 (env : Env) : outcome nat * State :=
  collect_all_standards ascii_runtime env (new_collector None)
    (Some [lit "Mathematics"]) (Some [lit "3"]) initial_state.

(** A complete element without a link, and an element without a title. *)
Definition good_element : Element :=
  mkElement (Some (lit "MA.3.NSO.1.1")) (Some (lit "Read and write numbers"))
            (Some (lit "Read and write numbers from 0 to 10,000")) None.

Definition untitled_element : Element :=
  mkElement (Some (lit "MA.3.NSO.1.2")) None
            (Some (lit "Compose and decompose four-digit numbers")) None.

(** Every request is answered by a page with these two items. *)
Definition two_item_env : Env :=
  mkEnv (fun _ _ => HttpOk (mkBody (Soup [good_element; untitled_element])
                                   (mkJson None None)))
        (fun _ _ => None) (fun n => Z.of_nat n).

(** Two records under one key, and a store that already holds that key
    with every column filled by hand. *)
Definition first_record : Standard :=
  mkStandard (lit "MA.3.NSO.1.1") (lit "Mathematics") (lit "3")
             (lit "old title") (lit "old description") (lit "[]")
             (Some (lit "https://www.cpalms.org/old")).

Definition second_record : Standard :=
  mkStandard (lit "MA.3.NSO.1.1") (lit "Math") (lit "4")
             (lit "new title") (lit "new description") (lit "[]") None.

Definition curated_row : StandardRow :=
  mkStandardRow 7 (Some (lit "MA.3.NSO.1.1")) (Some (lit "TX"))
                (Some (lit "Mathematics")) (Some (lit "3"))
                (Some (lit "Number Sense")) (Some (lit "NSO.1"))
                (Some (lit "old title")) (Some (lit "old description"))
                (Some (lit "Within 10,000")) (Some (lit "[]")) None (Some 1%Z).

Definition curated_db : Database := mkDatabase [curated_row] 7 [] 0.


(** No append can connect. *)
Definition locked_env : Env :=
  mkEnv (fun _ _ => HttpOk empty_page)
        (fun n op => match op with
                     | LogConnect => Some (lit "database is locked")
                     | _ => None
                     end)
        (fun n => Z.of_nat n).

(** Two documents of the jurisdiction without items.  The list of
    documents loads; the items of the first fail to load. *)
Definition florida_documents : Json :=
  mkJson (Some [mkCFDocument (Some (lit "Florida Mathematics")) (Some (lit "d1"));
                mkCFDocument (Some (lit "Florida Science")) (Some (lit "d2"))])
         None.

Definition api_env : Env :=
  mkEnv (fun n _ => match n with
                    | 0 => HttpOk (mkBody (Soup []) florida_documents)
                    | 1 => HttpError (lit "503 Server Error")
                    | _ => HttpOk (mkBody (Soup []) (mkJson None (Some [])))
                    end)
        (fun _ _ => None) (fun n => Z.of_nat n).

(** The same, with every item list loading (and empty). *)
Definition api_ok_env : Env :=
  mkEnv (fun n _ => match n with
                    | 0 => HttpOk (mkBody (Soup []) florida_documents)
                    | _ => HttpOk (mkBody (Soup []) (mkJson None (Some [])))
                    end)
        (fun _ _ => None) (fun n => Z.of_nat n).

Definition api_run (env : Env) : outcome (list Standard) * State :=
  get_standards_via_api env (new_api_collector (lit "key")) initial_state.

(** The character class of [str.isspace], on an optional character. *)
Definition is_space_opt (rt : Runtime) (c : option N) : bool :=
  match c with Some c => is_space rt c | None => false end.

(** A text that neither starts nor ends with white space. *)
Definition trimmed (rt : Runtime) (s : str) : Prop :=
  is_space_opt rt (hd_error s) = false /\ is_space_opt rt (hd_error (rev s)) = false.

(** A text of ASCII characters. *)
Definition ascii_text (s : str) : Prop := Forall (fun c => (c < 128)%N) s.

(** At most one row under every key: the UNIQUE constraint. *)
Definition unique_keys (d : Database) : Prop :=
  forall sid, length (rows_with_key sid d) <= 1.

(** No two rows with the same id: the PRIMARY KEY constraint. *)
Definition unique_ids (d : Database) : Prop :=
  NoDup (map row_id (standards d)).

(** Every key of [d] is still a key of [d']. *)
Definition keys_kept (d d' : Database) : Prop :=
  forall sid, rows_with_key sid d <> [] -> rows_with_key sid d' <> [].

(** The log of [d'] is the log of [d] with entries added behind it. *)
Definition log_extended (d d' : Database) : Prop :=
  exists es, scraping_log d' = scraping_log d ++ es.

(** Every commit of a save fails. *)
Definition commit_fails_env : Env :=
  mkEnv (fun _ _ => HttpOk empty_page)
        (fun n op => match op with
                     | SaveCommit => Some (lit "disk I/O error")
                     | _ => None
                     end)
        (fun n => Z.of_nat n).

(** The failure of [setup_database] when it starts as database call [n]:
    the first of its four calls that fails, if any. *)
Definition setup_fault (env : Env) (n : nat) : option str :=
  match db_fault env n SetupConnect with
  | Some m => Some m
  | None =>
      match db_fault env (S n) SetupCreateStandards with
      | Some m => Some m
      | None =>
          match db_fault env (S (S n)) SetupCreateLog with
          | Some m => Some m
          | None => db_fault env (S (S (S n))) SetupCommit
          end
      end
  end.

(** The request for the search page that opens a run. *)
Definition search_request (self : CPALMSDataCollector) : Request :=
  mkRequest (search_url self) [].

(** The parser rejects every page. *)
Definition rejecting_env : Env :=
  mkEnv (fun _ _ => HttpOk (mkBody (Rejected (lit "expected name token"))
                                   (mkJson None None)))
        (fun _ _ => None) (fun n => Z.of_nat n).

(** The documents of a list of documents that the API collector asks
    the items of: those with 'Florida' in the title. *)
Definition matches_florida (doc : CFDocument) : bool :=
  contains (lit "Florida") (or_empty (doc_title doc)).

(** The request for the list of documents. *)
Definition documents_request (self : CPALMSAPICollector) : Request :=
  mkRequest (case_api_url self ++ lit "/CFDocuments") [].

(** The documents that a response lists. *)
Definition documents_of (body : Body) : list CFDocument :=
  match CFDocuments (as_json body) with Some l => l | None => [] end.

(** The list of documents loads, and so do the items of its first
    document, which has one item. *)
Definition api_item_env : Env :=
  mkEnv (fun n _ => match n with
                    | 0 => HttpOk (mkBody (Soup []) florida_documents)
                    | _ => HttpOk (mkBody (Soup [])
                             (mkJson None
                                (Some [mkCFItem (Some (lit "MA.3.NSO.1.1"))
                                                (Some (lit "Read numbers"))
                                                (Some (lit "Read and write numbers"))
                                                (Some (Some (lit "Mathematics Florida")))
                                                (Some [lit "03"])])))
                    end)
        (fun _ _ => None) (fun n => Z.of_nat n).

(** A step that sends exactly the requests [rs], whatever its outcome. *)
Definition sends {A} (rs : list Request) (m : M A) : Prop :=
  forall st, requests (snd (m st)) = requests st ++ rs.

(** The requests a run can send: the search page, then one request for
    each unit, in the order of the loops. *)
Definition planned_requests (env : Env) (self : CPALMSDataCollector) (n : nat)
    (focus_subjects focus_grades : option (list str)) : list Request :=
  search_request self
  :: map (fun p => unit_request self (fst p) (snd p))
         (units_to_scrape env self n focus_subjects focus_grades).

(** A row as the upsert leaves it in the columns it does not name: the
    default of [state], and NULL in [domain], [cluster] and
    [clarifications]. *)
Definition reset_row (row : StandardRow) : Prop :=
  row_state row = Some (lit "FL") /\ row_domain row = None
  /\ row_cluster row = None /\ row_clarifications row = None.

(** Every row of [after] was already in [before] or is such a row. *)
Definition reset_or_old (before after : Database) : Prop :=
  forall row, In row (standards after) -> In row (standards before) \/ reset_row row.

(** The stores the program builds: a new database has no standard, and
    runs and saves work on what they find. *)
Inductive program_store : State -> Prop :=
| store_new st :
    standards (db st) = [] -> program_store st
| store_run rt env self focus_subjects focus_grades st :
    program_store st ->
    program_store
      (snd (collect_all_standards rt env self focus_subjects focus_grades st))
| store_save env batch st :
    program_store st ->
    program_store (snd (save_standards_to_db env batch st)).

(** The highest id the table [standards] has given out. *)
Definition top_id (d : Database) : Z :=
  Z.max (standards_seq d) (max_row_id (standards d)).

Definition top_id_grows (d d' : Database) : Prop := (top_id d <= top_id d')%Z.

(** Exactly one row under [sid]: a reset row with an id above [m]. *)
Definition replaced_above (sid : str) (m : Z) (d : Database) : Prop :=
  exists row, rows_with_key sid d = [row] /\ reset_row row /\ (m < row_id row)%Z.

Definition stays_replaced (sid : str) (m : Z) (d d' : Database) : Prop :=
  replaced_above sid m d -> replaced_above sid m d'.

(** A store with a hand-made row, as a state. *)
Definition curated_state : State := mkState curated_db 0 [] [] [] 0.

(** A store with a hand-made row under a key that no page shows. *)
Definition foreign_row : StandardRow :=
  mkStandardRow 3 (Some (lit "TX.3.1")) (Some (lit "TX"))
                (Some (lit "Mathematics")) (Some (lit "3"))
                (Some (lit "Number Sense")) None
                (Some (lit "a title")) (Some (lit "a description"))
                None (Some (lit "[]")) None (Some 1%Z).

Definition foreign_state : State :=
  mkState (mkDatabase [foreign_row] 3 [] 0) 0 [] [] [] 0.

(* ================================================================== *)
(** * Properties *)

(** ** Strings and the keyword extractor *)

Lemma str_eqb_eq (a b : str) : str_eqb a b = true <-> a = b.
Proof.
  unfold str_eqb. destruct (list_eq_dec N.eq_dec a b); split; congruence.
Qed.

Lemma str_eqb_refl (a : str) : str_eqb a a = true.
Proof. now apply str_eqb_eq. Qed.

Lemma str_in_In (w : str) (l : list str) : str_in w l = true <-> In w l.
Proof.
  unfold str_in. rewrite existsb_exists. split.
  - intros [x [Hx He]]. apply str_eqb_eq in He. now subst.
  - intros H. exists w. split; [assumption | now apply str_eqb_eq].
Qed.

Lemma In_firstn {A} (n : nat) (l : list A) (x : A) :
  In x (firstn n l) -> In x l.
Proof.
  intros H. rewrite <- (firstn_skipn n l). apply in_or_app. now left.
Qed.

Lemma NoDup_firstn {A} (n : nat) (l : list A) : NoDup l -> NoDup (firstn n l).
Proof.
  intros H. rewrite <- (firstn_skipn n l) in H.
  now apply NoDup_app_remove_r in H.
Qed.

Section TextFacts.

Variable rt : Runtime.

Lemma take_while_split (p : N -> bool) (s : str) :
  exists rest, s = take_while p s ++ rest.
Proof.
  induction s as [|c s IH]; simpl.
  - now exists [].
  - destruct (p c).
    + destruct IH as [rest IH]. exists rest. simpl. now rewrite <- IH.
    + now exists (c :: s).
Qed.

Lemma take_while_all (p : N -> bool) (s : str) :
  Forall (fun c => p c = true) (take_while p s).
Proof.
  induction s as [|c s IH]; simpl; [constructor|].
  destruct (p c) eqn:E; [now constructor | constructor].
Qed.

Lemma Forall_firstn {A} (P : A -> Prop) (n : nat) (l : list A) :
  Forall P l -> Forall P (firstn n l).
Proof.
  rewrite !Forall_forall. intros H x Hx. apply H. eapply In_firstn, Hx.
Qed.

(** A prefix no longer than the leading run of letters is made of letters. *)
Lemma firstn_letters (j : nat) (s : str) :
  j <= length (take_while is_alpha s) ->
  Forall (fun c => is_alpha c = true) (firstn j s) /\ length (firstn j s) = j.
Proof.
  intros Hj. destruct (take_while_split is_alpha s) as [rest Hs].
  assert (Hf : firstn j s = firstn j (take_while is_alpha s)).
  { rewrite Hs at 1. rewrite firstn_app.
    replace (j - length (take_while is_alpha s)) with 0 by lia.
    simpl. now rewrite app_nil_r. }
  rewrite Hf. split.
  - apply Forall_firstn, take_while_all.
  - rewrite length_firstn. lia.
Qed.

Lemma match_end_some (k : nat) (prev : option N) (s tok rest : str) :
  match_end rt k prev s = Some (tok, rest) ->
  exists j, 3 <= j <= k /\ tok = firstn j s /\ rest = skipn j s.
Proof.
  induction k as [|k IH]; simpl; [discriminate|].
  destruct k as [|[|k]]; try discriminate.
  change (Nat.ltb (S (S (S k))) 3) with false. cbv iota.
  destruct (word_boundary _ _ _).
  - intros H. injection H as <- <-. exists (S (S (S k))). repeat split; lia.
  - intros H. destruct (IH H) as [j [Hj Hr]]. exists j. split; [lia | exact Hr].
Qed.

(** A match is a prefix of at least three letters. *)
Lemma match_at_some (prev : option N) (s tok rest : str) :
  match_at rt prev s = Some (tok, rest) ->
  s = tok ++ rest /\ Forall (fun c => is_alpha c = true) tok /\ 3 <= length tok.
Proof.
  unfold match_at. destruct (word_boundary _ _ _); [|discriminate].
  intros H. apply match_end_some in H. destruct H as [j [Hj [-> ->]]].
  destruct (firstn_letters j s) as [Hall Hlen]; [lia|].
  split; [now rewrite firstn_skipn | split; [assumption | lia]].
Qed.

(** Every word that [findall] lists is a run of at least three letters
    of the text. *)
Lemma findall_from_tokens (fuel : nat) :
  forall prev s w, In w (findall_from rt fuel prev s) ->
    (exists pre post, s = pre ++ w ++ post) /\
    Forall (fun c => is_alpha c = true) w /\ 3 <= length w.
Proof.
  induction fuel as [|fuel IH]; intros prev s w; simpl; [contradiction|].
  destruct s as [|c s]; [contradiction|].
  destruct (match_at rt prev (c :: s)) as [[tok s']|] eqn:E.
  - apply match_at_some in E. destruct E as [Hs [Hall Hlen]].
    intros [<- | Hin].
    + split; [|now split]. exists [], s'. simpl. exact Hs.
    + destruct (IH _ _ _ Hin) as [[pre [post Hp]] Hw]. split; [|exact Hw].
      exists (tok ++ pre), post. rewrite Hs, Hp. now rewrite <- app_assoc.
  - intros Hin. destruct (IH _ _ _ Hin) as [[pre [post Hp]] Hw].
    split; [|exact Hw]. exists (c :: pre), post. simpl. now rewrite Hp.
Qed.

(** The scan is over after [length s] steps: more fuel changes nothing. *)
Lemma findall_from_fuel (f1 : nat) :
  forall f2 prev s, length s <= f1 -> length s <= f2 ->
    findall_from rt f1 prev s = findall_from rt f2 prev s.
Proof.
  induction f1 as [|f1 IH]; intros f2 prev s H1 H2.
  - destruct s; [|simpl in H1; lia]. now destruct f2.
  - destruct f2 as [|f2].
    + destruct s; [reflexivity | simpl in H2; lia].
    + simpl. destruct s as [|c s]; [reflexivity|].
      destruct (match_at rt prev (c :: s)) as [[tok s']|] eqn:E.
      * apply match_at_some in E. destruct E as [Hs [_ Hlen]].
        assert (length (c :: s) = length tok + length s')
          by (rewrite Hs; apply length_app).
        f_equal. apply IH; lia.
      * simpl in H1, H2. apply IH; lia.
Qed.

End TextFacts.

Lemma dedup_In (l : list str) (x : str) : In x (dedup l) <-> In x l.
Proof.
  induction l as [|a l IH]; simpl; [tauto|].
  rewrite filter_In, IH. destruct (str_eqb a x) eqn:E.
  - apply str_eqb_eq in E. subst. simpl. intuition discriminate.
  - simpl. intuition.
Qed.

Lemma dedup_NoDup (l : list str) : NoDup (dedup l).
Proof.
  induction l as [|a l IH]; simpl; constructor.
  - rewrite filter_In. intros [_ H]. now rewrite str_eqb_refl in H.
  - now apply NoDup_filter.
Qed.

Lemma ascii_runtime_sets : set_list_ok ascii_runtime.
Proof. intros l. split; [apply dedup_NoDup | intros x; apply dedup_In]. Qed.

Lemma reversed_runtime_sets : set_list_ok reversed_runtime.
Proof.
  intros l. simpl. split.
  - apply NoDup_rev, dedup_NoDup.
  - intros x. rewrite <- in_rev. apply dedup_In.
Qed.

(** C5.  For every text, [extract_keywords] returns at most 20 strings,
    all different, each a run of at least three ASCII letters that occurs
    in the lower-cased text and is no stop word; on the empty text it
    returns the empty list.  The function has a result on every text: it
    raises nothing, and the scan behind it is complete (more steps than
    the length of the text find the same words). *)
Theorem extract_keywords_spec (rt : Runtime) (text : str) :
  set_list_ok rt ->
  length (extract_keywords rt text) <= 20 /\
  NoDup (extract_keywords rt text) /\
  (forall w, In w (extract_keywords rt text) ->
     Forall (fun c => is_alpha c = true) w /\
     3 <= length w /\
     (exists pre post, lower rt text = pre ++ w ++ post) /\
     ~ In w stop_words) /\
  extract_keywords rt [] = [] /\
  (forall fuel, length (lower rt text) <= fuel ->
     findall_from rt fuel None (lower rt text) = findall rt (lower rt text)).
Proof.
  intros Hset.
  assert (Hfuel : forall fuel, length (lower rt text) <= fuel ->
            findall_from rt fuel None (lower rt text) = findall rt (lower rt text)).
  { intros fuel Hf. unfold findall. apply findall_from_fuel; lia. }
  unfold extract_keywords. repeat split; try exact Hfuel.
  - apply firstn_le_length.
  - apply NoDup_firstn, Hset.
  - apply In_firstn, Hset, filter_In in H. destruct H as [H _].
    now apply findall_from_tokens in H.
  - apply In_firstn, Hset, filter_In in H. destruct H as [H _].
    apply findall_from_tokens in H. tauto.
  - apply In_firstn, Hset, filter_In in H. destruct H as [H _].
    apply findall_from_tokens in H. tauto.
  - apply In_firstn, Hset, filter_In in H. destruct H as [_ H].
    intros Hstop. apply str_in_In in Hstop. now rewrite Hstop in H.
  - simpl. destruct (set_list rt []) as [|x l] eqn:E; [reflexivity|].
    exfalso. apply (proj2 (Hset []) x). rewrite E. now left.
Qed.

Lemma extract_keywords_spec_witness :
  set_list_ok ascii_runtime /\
  length (extract_keywords ascii_runtime text21) <= 20.
Proof.
  split; [exact ascii_runtime_sets|].
  exact (proj1 (extract_keywords_spec ascii_runtime text21 ascii_runtime_sets)).
Defined.

(** With at most 20 different keywords nothing is cut off: whatever the
    order of sets, the same keywords are returned. *)
Lemma extract_keywords_small (rt : Runtime) (order : list str -> list str)
    (text : str) :
  set_list_ok rt -> set_list_ok (with_set_list order rt) ->
  length (set_list rt
            (filter (fun word => negb (str_in word stop_words))
                    (findall rt (lower rt text)))) <= 20 ->
  forall w, In w (extract_keywords (with_set_list order rt) text) <->
            In w (extract_keywords rt text).
Proof.
  intros H1 H2 Hlen w. unfold extract_keywords.
  change (findall (with_set_list order rt) (lower (with_set_list order rt) text))
    with (findall rt (lower rt text)).
  set (ks := filter _ _) in *.
  rewrite (firstn_all2 (set_list rt ks)) by exact Hlen.
  assert (Hlen2 : length (set_list (with_set_list order rt) ks) <= 20).
  { transitivity (length (set_list rt ks)); [|exact Hlen].
    apply NoDup_incl_length; [apply H2|].
    intros x Hx. apply (proj2 (H1 ks)). now apply (proj2 (H2 ks)) in Hx. }
  rewrite (firstn_all2 (set_list (with_set_list order rt) ks)) by exact Hlen2.
  rewrite (proj2 (H1 ks)), (proj2 (H2 ks)). tauto.
Qed.

(** C9.  On a text with 21 different keywords the result depends on the
    order in which the set is iterated: under two admissible orders, which
    differ in nothing else, "alpha" is kept by one and dropped by the
    other.  The code cuts an unranked set, although its comment promises
    the most frequent keywords. *)
Theorem extract_keywords_order_dependent :
  set_list_ok ascii_runtime /\ set_list_ok reversed_runtime /\
  In (lit "alpha") (extract_keywords ascii_runtime text21) /\
  ~ In (lit "alpha") (extract_keywords reversed_runtime text21) /\
  extract_keywords ascii_runtime text21
    <> extract_keywords reversed_runtime text21.
Proof.
  split; [exact ascii_runtime_sets|].
  split; [exact reversed_runtime_sets|].
  set (k1 := extract_keywords ascii_runtime text21).
  set (k2 := extract_keywords reversed_runtime text21).
  assert (E1 : str_in (lit "alpha") k1 = true) by (vm_compute; reflexivity).
  assert (E2 : str_in (lit "alpha") k2 = false) by (vm_compute; reflexivity).
  clearbody k1 k2.
  assert (Hin : In (lit "alpha") k1) by (apply str_in_In, E1).
  assert (Hout : ~ In (lit "alpha") k2).
  { intros H. apply str_in_In in H. congruence. }
  split; [exact Hin|]. split; [exact Hout|].
  intros E. apply Hout. rewrite <- E. exact Hin.
Qed.

(* ================================================================== *)
(** ** Stepping through the monad *)

Lemma bind_return {A B} (m : M A) (k : A -> M B) st a st1 :
  m st = (Return a, st1) -> bind m k st = k a st1.
Proof. unfold bind. now intros ->. Qed.

Lemma bind_raise {A B} (m : M A) (k : A -> M B) st e st1 :
  m st = (Raise e, st1) -> bind m k st = (Raise e, st1).
Proof. unfold bind. now intros ->. Qed.

Lemma try_return {A} (body : M A) class handler st a st1 :
  body st = (Return a, st1) -> try_except body class handler st = (Return a, st1).
Proof. unfold try_except. now intros ->. Qed.

Lemma try_caught {A} (body : M A) class handler st e st1 :
  body st = (Raise e, st1) -> class e = true ->
  try_except body class handler st = handler e st1.
Proof. unfold try_except. now intros -> ->. Qed.

Lemma try_passed {A} (body : M A) class handler st e st1 :
  body st = (Raise e, st1) -> class e = false ->
  try_except body class handler st = (Raise e, st1).
Proof. unfold try_except. now intros -> ->. Qed.

Lemma for_each_app {X} (l1 l2 : list X) (body : X -> M unit) st :
  for_each (l1 ++ l2) body st = bind (for_each l1 body) (fun _ => for_each l2 body) st.
Proof.
  revert st. induction l1 as [|x l1 IH]; intros st; simpl.
  - reflexivity.
  - unfold bind. destruct (body x st) as [[[]|e] st1]; [|reflexivity].
    rewrite IH. reflexivity.
Qed.

(** The nested loops visit the Cartesian product, subjects outermost. *)
Lemma for_each_nested {X Y} (xs : list X) (ys : list Y) (body : X -> Y -> M unit) st :
  for_each xs (fun x => for_each ys (fun y => body x y)) st =
  for_each (list_prod xs ys) (fun p => body (fst p) (snd p)) st.
Proof.
  revert st. induction xs as [|x xs IH]; intros st; simpl; [reflexivity|].
  rewrite for_each_app. unfold bind.
  assert (E : forall st, for_each ys (fun y => body x y) st =
                         for_each (map (fun y => (x, y)) ys)
                                  (fun p => body (fst p) (snd p)) st).
  { clear. induction ys as [|y ys IHy]; intros st; simpl; [reflexivity|].
    unfold bind. destruct (body x y st) as [[[]|e] st1]; [apply IHy | reflexivity]. }
  rewrite E. destruct (for_each (map _ ys) _ st) as [[[]|e] st1]; [apply IH | reflexivity].
Qed.

Lemma quiet_refl st : quiet st st.
Proof. repeat split. Qed.

Lemma quiet_trans st1 st2 st3 : quiet st1 st2 -> quiet st2 st3 -> quiet st1 st3.
Proof. unfold quiet. intuition congruence. Qed.

Section ProgramFacts.

Variable rt : Runtime.
Variable env : Env.

(** [extract_standard_data] never raises; it returns nothing, without a
    word, for an element that is not complete. *)
Lemma extract_standard_data_incomplete self element subject grade st :
  complete element = false ->
  extract_standard_data rt self element subject grade st = (Return None, st).
Proof.
  unfold complete, extract_standard_data, try_except.
  destruct (find_standard_id element), (find_title element),
    (find_description element); try discriminate; reflexivity.
Qed.

Lemma extract_standard_data_returns self element subject grade st :
  exists r st', extract_standard_data rt self element subject grade st = (Return r, st')
                /\ quiet st st' /\ (complete element = false -> r = None).
Proof.
  destruct (complete element) eqn:C.
  2:{ exists None, st. rewrite extract_standard_data_incomplete by assumption.
      repeat split. }
  unfold complete in C. unfold extract_standard_data, try_except, bind.
  destruct (find_standard_id element), (find_title element),
    (find_description element); try discriminate.
  destruct (find_a element) as [a|].
  - destruct (href a) as [h|].
    + destruct (urljoin rt (base_url self) h); simpl;
        eexists; eexists; (split; [reflexivity|]); split;
        try discriminate; repeat split.
    + simpl. eexists; eexists; (split; [reflexivity|]); split;
        try discriminate; repeat split.
  - simpl. eexists; eexists; (split; [reflexivity|]); split;
      try discriminate; repeat split.
Qed.

End ProgramFacts.

Section ScrapeFacts.

Variable rt : Runtime.
Variable env : Env.
Variable self : CPALMSDataCollector.

Lemma extract_standard_data_valid element subject grade st :
  valid rt self element = true ->
  exists d, extract_standard_data rt self element subject grade st = (Return (Some d), st).
Proof.
  unfold valid, complete, link_ok, extract_standard_data, try_except, bind.
  destruct (find_standard_id element), (find_title element),
    (find_description element); try discriminate.
  destruct (find_a element) as [a|]; simpl.
  - destruct (href a) as [h|]; [|discriminate].
    destruct (urljoin rt (base_url self) h); [|discriminate].
    intros _. eexists. reflexivity.
  - intros _. eexists. reflexivity.
Qed.

Lemma extract_standard_data_invalid element subject grade st :
  valid rt self element = false ->
  exists st', extract_standard_data rt self element subject grade st = (Return None, st')
              /\ quiet st st'.
Proof.
  unfold valid. destruct (complete element) eqn:C; simpl.
  2:{ intros _. exists st. rewrite extract_standard_data_incomplete by assumption.
      split; [reflexivity | apply quiet_refl]. }
  unfold complete in C.
  unfold link_ok, extract_standard_data, try_except, bind.
  destruct (find_standard_id element), (find_title element),
    (find_description element); try discriminate.
  destruct (find_a element) as [a|]; simpl; [|discriminate].
  destruct (href a) as [h|].
  - destruct (urljoin rt (base_url self) h); [discriminate|].
    intros _. simpl. eexists. split; [reflexivity | repeat split].
  - intros _. simpl. eexists. split; [reflexivity | repeat split].
Qed.

(** The loop over the elements never raises, touches nothing but the
    output, and adds one record per valid element. *)
Lemma scrape_elements_returns elements subject grade :
  forall standards st,
  exists new st',
    scrape_elements rt self elements subject grade standards st
      = (Return (standards ++ new), st')
    /\ quiet st st'
    /\ length new = length (filter (valid rt self) elements).
Proof.
  induction elements as [|element rest IH]; intros standards st; simpl.
  - exists [], st. rewrite app_nil_r. repeat split.
  - destruct (valid rt self element) eqn:V.
    + destruct (extract_standard_data_valid element subject grade st V) as [d Hd].
      erewrite bind_return.
      2:{ apply try_return. erewrite bind_return by exact Hd. reflexivity. }
      destruct (IH (standards ++ [d]) st) as [new [st' [Hrun [Hq Hlen]]]].
      exists (d :: new), st'. rewrite Hrun, <- app_assoc. simpl.
      repeat split; try apply Hq. now rewrite Hlen.
    + destruct (extract_standard_data_invalid element subject grade st V)
        as [st1 [Hd Hq1]].
      erewrite bind_return.
      2:{ apply try_return. erewrite bind_return by exact Hd. reflexivity. }
      destruct (IH standards st1) as [new [st' [Hrun [Hq Hlen]]]].
      exists new, st'. rewrite Hrun. split; [reflexivity|].
      split; [eapply quiet_trans; eassumption | assumption].
Qed.

(** The three ways a fetch can go. *)
Lemma scrape_transport_error subject grade st msg :
  http env (length (requests st)) (unit_request self subject grade) = HttpError msg ->
  scrape_standards_by_subject_grade rt env self subject grade st =
    (Return [],
     mkState (db st) (db_calls st)
             (requests st ++ [unit_request self subject grade])
             (sleeps st)
             (stdout st ++ [MsgScrapeError subject grade msg])
             (total_collected st)).
Proof.
  intros H. unfold scrape_standards_by_subject_grade, try_except, bind, session_get.
  fold (unit_request self subject grade). rewrite H. reflexivity.
Qed.

Lemma scrape_rejected subject grade st body msg :
  http env (length (requests st)) (unit_request self subject grade) = HttpOk body ->
  as_html body = Rejected msg ->
  scrape_standards_by_subject_grade rt env self subject grade st =
    (Raise (ParserRejectedMarkup msg),
     mkState (db st) (db_calls st)
             (requests st ++ [unit_request self subject grade])
             (sleeps st) (stdout st) (total_collected st)).
Proof.
  intros H Hb.
  unfold scrape_standards_by_subject_grade, try_except, bind, session_get, BeautifulSoup.
  fold (unit_request self subject grade). rewrite H, Hb. reflexivity.
Qed.

Lemma scrape_parsed subject grade st body items :
  http env (length (requests st)) (unit_request self subject grade) = HttpOk body ->
  as_html body = Soup items ->
  exists standards st',
    scrape_standards_by_subject_grade rt env self subject grade st
      = (Return standards, st')
    /\ length standards = length (filter (valid rt self) items)
    /\ db st' = db st /\ db_calls st' = db_calls st
    /\ requests st' = requests st ++ [unit_request self subject grade]
    /\ sleeps st' = sleeps st ++ [request_delay self]
    /\ total_collected st' = total_collected st.
Proof.
  intros H Hb.
  unfold scrape_standards_by_subject_grade, try_except, bind, session_get, BeautifulSoup.
  fold (unit_request self subject grade). rewrite H, Hb. unfold ret at 1.
  match goal with |- context [scrape_elements _ _ _ _ _ _ ?s] =>
    destruct (scrape_elements_returns items subject grade [] s)
      as [new [st1 [Hrun [Hq Hlen]]]] end.
  rewrite Hrun. simpl. do 2 eexists. split; [reflexivity|].
  destruct Hq as [Q1 [Q2 [Q3 [Q4 Q5]]]]. simpl in *.
  repeat split; try assumption. now rewrite Q4.
Qed.

(** Whatever the answer, a fetch sends exactly one request and leaves the
    database and the running total alone. *)
Lemma scrape_frame subject grade st :
  exists r st',
    scrape_standards_by_subject_grade rt env self subject grade st = (r, st')
    /\ db st' = db st /\ db_calls st' = db_calls st
    /\ requests st' = requests st ++ [unit_request self subject grade]
    /\ total_collected st' = total_collected st.
Proof.
  destruct (http env (length (requests st)) (unit_request self subject grade))
    as [body|msg] eqn:H.
  - destruct (as_html body) as [items|msg] eqn:Hb.
    + destruct (scrape_parsed subject grade st body items H Hb)
        as [standards [st' [Hrun [_ [? [? [? [_ ?]]]]]]]].
      exists (Return standards), st'. now repeat split.
    + rewrite (scrape_rejected subject grade st body msg H Hb).
      do 2 eexists. split; [reflexivity|]. now repeat split.
  - rewrite (scrape_transport_error subject grade st msg H).
    do 2 eexists. split; [reflexivity|]. now repeat split.
Qed.

End ScrapeFacts.

(* ================================================================== *)
(** ** The two tables *)

Lemma fl_or_old_refl d : fl_or_old d d.
Proof. intros row H. now left. Qed.

Lemma fl_or_old_trans d1 d2 d3 :
  fl_or_old d1 d2 -> fl_or_old d2 d3 -> fl_or_old d1 d3.
Proof.
  intros H12 H23 row H. destruct (H23 row H) as [H2|]; [|now right].
  exact (H12 row H2).
Qed.

Lemma fl_or_old_same d d' : standards d' = standards d -> fl_or_old d d'.
Proof. intros E row H. left. now rewrite <- E. Qed.

Lemma fl_or_old_insert_log d d' now subject grade status n notes :
  fl_or_old d d' -> fl_or_old d (insert_log now subject grade status n notes d').
Proof. intros H row Hr. apply H. exact Hr. Qed.

Lemma max_row_id_ge rows row : In row rows -> (row_id row <= max_row_id rows)%Z.
Proof.
  induction rows as [|r rows IH]; simpl; [contradiction|].
  intros [<-|H]; [lia | specialize (IH H); lia].
Qed.

Lemma filter_has_key_removed sid rows :
  filter (has_key sid) (filter (fun r => negb (has_key sid r)) rows) = [].
Proof.
  induction rows as [|r rows IH]; simpl; [reflexivity|].
  destruct (has_key sid r) eqn:E; simpl; [assumption | now rewrite E].
Qed.

Lemma has_key_other sid sid' row :
  sid <> sid' -> has_key sid' row = true -> has_key sid row = false.
Proof.
  unfold has_key. destruct (row_standard_id row) as [k|]; [|discriminate].
  intros Hne H. apply str_eqb_eq in H. subst.
  destruct (str_eqb sid' sid) eqn:E; [|reflexivity].
  apply str_eqb_eq in E. congruence.
Qed.

(** After the statement exactly one row holds the key: the new one. *)
Lemma insert_or_replace_key now standard d :
  rows_with_key (standard_id standard) (insert_or_replace now standard d) =
  [mkStandardRow (Z.max (standards_seq d) (max_row_id (standards d)) + 1)
     (Some (standard_id standard)) (Some (lit "FL"))
     (Some (subject standard)) (Some (grade standard)) None None
     (Some (title standard)) (Some (description standard)) None
     (Some (keywords standard)) (url standard) (Some now)].
Proof.
  unfold rows_with_key, insert_or_replace. simpl.
  rewrite filter_app, filter_has_key_removed. simpl.
  unfold has_key at 1. simpl. now rewrite str_eqb_refl.
Qed.

(** The rows under other keys stay as they are. *)
Lemma insert_or_replace_others now standard d sid :
  sid <> standard_id standard ->
  rows_with_key sid (insert_or_replace now standard d) = rows_with_key sid d.
Proof.
  intros Hne. unfold rows_with_key, insert_or_replace. simpl.
  rewrite filter_app. cbn [filter].
  assert (E : forall row, row_standard_id row = Some (standard_id standard) ->
                          has_key sid row = false).
  { intros row Hr. unfold has_key. rewrite Hr.
    destruct (str_eqb (standard_id standard) sid) eqn:E; [|reflexivity].
    apply str_eqb_eq in E. congruence. }
  rewrite E by reflexivity.
  rewrite app_nil_r. induction (standards d) as [|r rows IH]; simpl; [reflexivity|].
  destruct (has_key (standard_id standard) r) eqn:K; simpl.
  - rewrite (has_key_other sid (standard_id standard) r Hne K). exact IH.
  - destruct (has_key sid r); [now rewrite IH | exact IH].
Qed.

Lemma insert_or_replace_fl now standard d :
  fl_or_old d (insert_or_replace now standard d).
Proof.
  intros row. unfold insert_or_replace. simpl. rewrite in_app_iff, filter_In.
  intros [[H _]|[<-|[]]]; [now left | now right].
Qed.

Section StoreFacts.

Variable env : Env.

(** The loop of upserts never raises: a failing statement is reported and
    skipped.  It makes one database call per record and works on the
    connection's copy only. *)
Lemma upsert_all_returns standards :
  forall work st,
  exists work' st',
    upsert_all env standards work st = (Return work', st')
    /\ scraping_log work' = scraping_log work
    /\ scraping_log_seq work' = scraping_log_seq work
    /\ fl_or_old work work'
    /\ db st' = db st
    /\ db_calls st' = db_calls st + length standards
    /\ requests st' = requests st /\ sleeps st' = sleeps st
    /\ total_collected st' = total_collected st.
Proof.
  induction standards as [|standard rest IH]; intros work st; simpl.
  - exists work, st. rewrite Nat.add_0_r. repeat split. apply fl_or_old_refl.
  - unfold bind at 1, try_except, bind at 1, db_call.
    destruct (db_fault env (db_calls st) SaveUpsert) as [msg|]; simpl.
    + match goal with |- context [upsert_all env rest work ?s] =>
        destruct (IH work s) as [w [st' [Hrun H]]] end.
      exists w, st'. rewrite Hrun. simpl in H. split; [reflexivity|].
      repeat split; try apply H. destruct H as [_ [_ [_ [_ [H _]]]]]. lia.
    + match goal with |- context [upsert_all env rest ?wk ?s] =>
        destruct (IH wk s) as [w [st' [Hrun H]]] end.
      exists w, st'. rewrite Hrun. simpl in H. split; [reflexivity|].
      destruct H as [H1 [H2 [H3 [H4 [H5 H6]]]]].
      repeat split; try apply H6; try assumption.
      * eapply fl_or_old_trans; [apply insert_or_replace_fl | exact H3].
      * lia.
Qed.

(** When no statement fails, the last record of the batch is the one
    found under its key. *)
Lemma upsert_all_last standards :
  (forall n, db_fault env n SaveUpsert = None) ->
  forall standard work st,
  exists work' st' id now,
    upsert_all env (standards ++ [standard]) work st = (Return work', st')
    /\ rows_with_key (standard_id standard) work' =
       [mkStandardRow id
          (Some (standard_id standard)) (Some (lit "FL"))
          (Some (subject standard)) (Some (grade standard)) None None
          (Some (title standard)) (Some (description standard)) None
          (Some (keywords standard)) (url standard) (Some now)]
    /\ db st' = db st.
Proof.
  intros Hok. induction standards as [|s0 rest IH]; intros standard work st; simpl.
  - unfold bind, try_except, db_call. rewrite Hok. simpl.
    do 4 eexists. split; [reflexivity|]. split; [apply insert_or_replace_key | reflexivity].
  - unfold bind at 1, try_except, bind at 1, db_call. rewrite Hok. simpl.
    match goal with |- context [upsert_all env _ ?wk ?s] =>
      destruct (IH standard wk s) as [w [st' [id [now [Hrun [Hrows Hdb]]]]]] end.
    exists w, st', id, now. rewrite Hrun. repeat split; assumption.
Qed.

(** Saving leaves the log, the requests, the delays and the running total
    as they were, whatever fails; the rows it leaves are old ones or rows
    with state 'FL'. *)
Lemma save_standards_to_db_frame standards st :
  exists r st',
    save_standards_to_db env standards st = (r, st')
    /\ scraping_log (db st') = scraping_log (db st)
    /\ fl_or_old (db st) (db st')
    /\ requests st' = requests st /\ sleeps st' = sleeps st
    /\ total_collected st' = total_collected st
    /\ (forall e, r = Raise e ->
          exists k op, is_save_op op = true /\ db_fault env k op = Some (exn_str e)).
Proof.
  destruct standards as [|s0 rest].
  { exists (Return tt), st. repeat split; try discriminate. apply fl_or_old_refl. }
  unfold save_standards_to_db. unfold bind at 1, db_call at 1.
  destruct (db_fault env (db_calls st) SaveConnect) as [msg|] eqn:Ec.
  { do 2 eexists. split; [reflexivity|].
    repeat split; [apply fl_or_old_refl|].
    intros e E. injection E as <-. now exists (db_calls st), SaveConnect. }
  unfold bind at 1, get. unfold bind at 1.
  match goal with |- context [upsert_all env _ ?wk ?s] =>
    destruct (upsert_all_returns (s0 :: rest) wk s)
      as [w [st1 [Hrun [H1 [H2 [H3 [H4 [H5 [H6 [H7 H8]]]]]]]]]] end.
  rewrite Hrun. simpl in *. unfold bind, db_call, set_db.
  destruct (db_fault env (db_calls st1) SaveCommit) as [msg|] eqn:Ec2.
  - do 2 eexists. split; [reflexivity|]. simpl. rewrite H4.
    repeat split; try assumption; [apply fl_or_old_refl|].
    intros e E. injection E as <-. now exists (db_calls st1), SaveCommit.
  - do 2 eexists. split; [reflexivity|]. simpl.
    repeat split; try assumption. discriminate.
Qed.

(** A batch whose calls all succeed is committed, and its last record is
    the row under its key. *)
Lemma save_standards_to_db_last standards standard st :
  save_sound env ->
  exists st' id now,
    save_standards_to_db env (standards ++ [standard]) st = (Return tt, st')
    /\ rows_with_key (standard_id standard) (db st') =
       [mkStandardRow id
          (Some (standard_id standard)) (Some (lit "FL"))
          (Some (subject standard)) (Some (grade standard)) None None
          (Some (title standard)) (Some (description standard)) None
          (Some (keywords standard)) (url standard) (Some now)].
Proof.
  intros Hok. unfold save_standards_to_db.
  destruct (standards ++ [standard]) as [|s0 rest] eqn:E.
  { now destruct standards. }
  rewrite <- E. clear E s0 rest.
  unfold bind at 1, db_call at 1. rewrite (Hok _ SaveConnect eq_refl).
  unfold bind at 1, get. unfold bind at 1.
  match goal with |- context [upsert_all env _ ?wk ?s] =>
    destruct (upsert_all_last standards (fun n => Hok n SaveUpsert eq_refl)
                              standard wk s)
      as [w [st1 [id [now [Hrun [Hrows _]]]]]] end.
  rewrite Hrun. unfold bind, db_call, set_db. rewrite (Hok _ SaveCommit eq_refl).
  do 3 eexists. split; [reflexivity|]. exact Hrows.
Qed.

(** An append to the log whose three calls succeed. *)
Lemma log_scraping_activity_ok subject grade status n notes st :
  log_sound env ->
  log_scraping_activity env subject grade status n notes st =
    (Return tt,
     mkState (insert_log (current_timestamp env (S (db_calls st)))
                         subject grade status n notes (db st))
             (S (S (S (db_calls st)))) (requests st) (sleeps st) (stdout st)
             (total_collected st)).
Proof.
  intros Hok. unfold log_scraping_activity, bind, db_call, get, set_db. simpl.
  rewrite (Hok _ LogConnect eq_refl). simpl.
  rewrite (Hok _ LogInsert eq_refl). simpl.
  rewrite (Hok _ LogCommit eq_refl). reflexivity.
Qed.

(** An append either adds its row or raises the failure of one of its
    calls and leaves the database alone: it swallows nothing. *)
Lemma log_scraping_activity_cases subject grade status n notes st :
  (exists now st',
      log_scraping_activity env subject grade status n notes st = (Return tt, st')
      /\ db st' = insert_log now subject grade status n notes (db st)
      /\ requests st' = requests st /\ sleeps st' = sleeps st
      /\ total_collected st' = total_collected st)
  \/
  (exists msg k op st',
      log_scraping_activity env subject grade status n notes st
        = (Raise (Sqlite3Error msg), st')
      /\ is_log_op op = true /\ db_fault env (db_calls st + k) op = Some msg
      /\ db st' = db st
      /\ requests st' = requests st /\ sleeps st' = sleeps st
      /\ total_collected st' = total_collected st).
Proof.
  unfold log_scraping_activity, bind, db_call, get, set_db. simpl.
  destruct (db_fault env (db_calls st) LogConnect) as [m|] eqn:E1.
  { right. exists m, 0, LogConnect. eexists. rewrite Nat.add_0_r.
    split; [reflexivity|]. now repeat split. }
  simpl. destruct (db_fault env (S (db_calls st)) LogInsert) as [m|] eqn:E2.
  { right. exists m, 1, LogInsert. eexists.
    replace (db_calls st + 1) with (S (db_calls st)) by lia.
    split; [reflexivity|]. now repeat split. }
  simpl. destruct (db_fault env (S (S (db_calls st))) LogCommit) as [m|] eqn:E3.
  { right. exists m, 2, LogCommit. eexists.
    replace (db_calls st + 2) with (S (S (db_calls st))) by lia.
    split; [reflexivity|]. now repeat split. }
  left. do 2 eexists. split; [reflexivity|]. now repeat split.
Qed.

End StoreFacts.

(* ================================================================== *)
(** ** One unit, and the loop over the units *)

Section UnitFacts.

Variable rt : Runtime.
Variable env : Env.
Variable self : CPALMSDataCollector.

(** With a working log every unit ends normally, with exactly one new
    entry, one request, and a delay only when the page was fetched and
    parsed. *)
Lemma collect_unit_logs subject grade st :
  log_sound env ->
  exists st' e,
    collect_unit rt env self subject grade st = (Return tt, st')
    /\ scraping_log (db st') = scraping_log (db st) ++ [e]
    /\ entry_for rt env self (length (requests st)) (subject, grade) e
    /\ requests st' = requests st ++ [unit_request self subject grade]
    /\ sleeps st' = sleeps st
                    ++ unit_delays env self (length (requests st)) (subject, grade)
    /\ fl_or_old (db st) (db st').
Proof.
  intros Hlog. unfold collect_unit, entry_for, unit_delays, log_unit.
  unfold bind at 1, print at 1. cbn [fst snd].
  set (st0 := mkState _ _ _ _ _ _).
  assert (Hreq0 : requests st0 = requests st) by reflexivity.
  rewrite <- Hreq0.
  destruct (http env (length (requests st0)) (unit_request self subject grade))
    as [body|msg] eqn:H.
  2:{ (* transport error *)
    erewrite try_return.
    2:{ unfold collect_unit_try. erewrite bind_return
          by (apply scrape_transport_error; exact H).
        unfold bind at 1, print at 1. apply log_scraping_activity_ok, Hlog. }
    do 2 eexists. split; [reflexivity|]. simpl.
    rewrite app_nil_r. repeat split. now apply fl_or_old_same. }
  destruct (as_html body) as [items|msg] eqn:Hb.
  2:{ (* the parser rejects the page *)
    erewrite try_caught; [| | reflexivity].
    2:{ unfold collect_unit_try. erewrite bind_raise
          by (eapply scrape_rejected; eassumption). reflexivity. }
    unfold collect_unit_except. unfold bind at 1, print at 1.
    rewrite log_scraping_activity_ok by exact Hlog.
    do 2 eexists. split; [reflexivity|]. simpl.
    rewrite app_nil_r. repeat split. now apply fl_or_old_same. }
  destruct (scrape_parsed rt env self subject grade st0 body items H Hb)
    as [standards [st1 [Hrun [Hlen [D1 [D2 [D3 [D4 D5]]]]]]]].
  destruct standards as [|s0 rest].
  - (* nothing found *)
    erewrite try_return.
    2:{ unfold collect_unit_try. erewrite bind_return by exact Hrun.
        unfold bind at 1, print at 1. apply log_scraping_activity_ok, Hlog. }
    do 2 eexists. split; [reflexivity|]. simpl.
    destruct (filter (valid rt self) items); [|discriminate].
    rewrite D1, D3, D4. repeat split.
    apply fl_or_old_insert_log. now apply fl_or_old_same.
  - destruct (save_standards_to_db_frame env (s0 :: rest) st1)
      as [r [st2 [Hsave [S1 [S2 [S3 [S4 [S5 S6]]]]]]]].
    destruct (filter (valid rt self) items) as [|v found] eqn:F;
      [discriminate|].
    destruct r as [[]|e].
    + (* saved *)
      erewrite try_return.
      2:{ unfold collect_unit_try. erewrite bind_return by exact Hrun.
          cbv beta iota. erewrite bind_return by exact Hsave.
          unfold bind at 1, get at 1. unfold bind at 1, set_total at 1.
          unfold bind at 1, print at 1. apply log_scraping_activity_ok, Hlog. }
      do 2 eexists. split; [reflexivity|]. simpl.
      rewrite S1, S3, S4, D1, D3, D4. repeat split.
      * left. repeat split. exact Hlen.
      * apply fl_or_old_insert_log. eapply fl_or_old_trans; [|exact S2].
        apply fl_or_old_same. now rewrite D1.
    + (* saving raised *)
      erewrite try_caught; [| | reflexivity].
      2:{ unfold collect_unit_try. erewrite bind_return by exact Hrun.
          cbv beta iota. erewrite bind_raise by exact Hsave. reflexivity. }
      unfold collect_unit_except. unfold bind at 1, print at 1.
      rewrite log_scraping_activity_ok by exact Hlog.
      do 2 eexists. split; [reflexivity|]. simpl.
      rewrite S1, S3, S4, D1, D3, D4. repeat split.
      * right. repeat split. exact (S6 e eq_refl).
      * apply fl_or_old_insert_log. eapply fl_or_old_trans; [|exact S2].
        apply fl_or_old_same. now rewrite D1.
Qed.

End UnitFacts.

Section RunFacts.

Variable rt : Runtime.
Variable env : Env.
Variable self : CPALMSDataCollector.

Lemma collect_loop_logs units :
  log_sound env ->
  forall st,
  exists st' es,
    for_each units (fun p => collect_unit rt env self (fst p) (snd p)) st
      = (Return tt, st')
    /\ scraping_log (db st') = scraping_log (db st) ++ es
    /\ entries_for rt env self (length (requests st)) units es
    /\ requests st' = requests st
                      ++ map (fun p => unit_request self (fst p) (snd p)) units
    /\ sleeps st' = sleeps st ++ delays_for env self (length (requests st)) units
    /\ fl_or_old (db st) (db st').
Proof.
  intros Hlog. induction units as [|[subject grade] units IH]; intros st.
  - exists st, []. simpl. rewrite !app_nil_r. repeat split. apply fl_or_old_refl.
  - destruct (collect_unit_logs rt env self subject grade st Hlog)
      as [st1 [e [Hrun [L1 [L2 [L3 [L4 L5]]]]]]].
    destruct (IH st1) as [st' [es [Hloop [M1 [M2 [M3 [M4 M5]]]]]]].
    exists st', (e :: es). cbn [for_each fst snd].
    erewrite bind_return by exact Hrun. split; [exact Hloop|].
    assert (Hn : length (requests st1) = S (length (requests st))).
    { rewrite L3, length_app. simpl. lia. }
    rewrite Hn in M2, M4.
    split; [rewrite M1, L1, <- app_assoc; reflexivity|].
    split; [split; assumption|].
    split; [rewrite M3, L3, <- app_assoc; reflexivity|].
    split; [simpl; rewrite M4, L4, <- app_assoc; reflexivity|].
    eapply fl_or_old_trans; eassumption.
Qed.

Lemma setup_database_ok st :
  setup_sound env ->
  setup_database env st =
    (Return tt,
     mkState (db st) (S (S (S (S (db_calls st))))) (requests st) (sleeps st)
             (stdout st) (total_collected st)).
Proof.
  intros Hok. unfold setup_database, bind, db_call, ret.
  rewrite (Hok _ SetupConnect eq_refl). simpl.
  rewrite (Hok _ SetupCreateStandards eq_refl). simpl.
  rewrite (Hok _ SetupCreateLog eq_refl). simpl.
  rewrite (Hok _ SetupCommit eq_refl). reflexivity.
Qed.

Lemma get_subjects_and_grades_ok st :
  search_page_parses env self (length (requests st)) ->
  exists st',
    get_subjects_and_grades env self st
      = (Return (available env self (length (requests st))), st')
    /\ db st' = db st /\ sleeps st' = sleeps st
    /\ requests st' = requests st ++ [mkRequest (search_url self) []].
Proof.
  intros Hparse.
  unfold get_subjects_and_grades, available, try_except, bind, session_get, BeautifulSoup.
  destruct (http env (length (requests st)) (mkRequest (search_url self) []))
    as [body|msg] eqn:H.
  - destruct (Hparse body H) as [items Hb]. rewrite Hb.
    eexists. split; [reflexivity|]. now repeat split.
  - eexists. split; [reflexivity|]. now repeat split.
Qed.

(** A whole run whose start-up succeeds and whose log works: it returns,
    and the log grows by the entries of its units, in the order of the
    loops. *)
Lemma collect_all_standards_logs focus_subjects focus_grades st :
  setup_sound env -> log_sound env ->
  search_page_parses env self (length (requests st)) ->
  exists total st' es,
    collect_all_standards rt env self focus_subjects focus_grades st
      = (Return total, st')
    /\ scraping_log (db st') = scraping_log (db st) ++ es
    /\ entries_for rt env self (S (length (requests st)))
         (units_to_scrape env self (length (requests st))
                          focus_subjects focus_grades) es
    /\ sleeps st' = sleeps st
         ++ delays_for env self (S (length (requests st)))
              (units_to_scrape env self (length (requests st))
                               focus_subjects focus_grades)
    /\ fl_or_old (db st) (db st').
Proof.
  intros Hsetup Hlog Hparse. unfold collect_all_standards.
  unfold bind at 1, print at 1.
  erewrite bind_return by (apply setup_database_ok; exact Hsetup).
  unfold bind at 1, print at 1.
  cbn [db db_calls requests sleeps stdout total_collected].
  match goal with |- context [bind (get_subjects_and_grades env self) _ ?s] =>
    destruct (get_subjects_and_grades_ok s Hparse) as [st1 [Hget [G1 [G2 G3]]]] end.
  erewrite bind_return by exact Hget.
  cbn [db db_calls requests sleeps stdout total_collected] in *.
  unfold bind at 1, print at 1. unfold bind at 1, set_total at 1.
  unfold collect_units.
  match goal with |- context [for_each ?xs (fun s => for_each ?ys _)] =>
    set (subjects := xs); set (grades := ys) end.
  match goal with |- context [bind (for_each subjects _) _ ?s] => set (st2 := s) end.
  assert (Hloop := collect_loop_logs (list_prod subjects grades) Hlog st2).
  destruct Hloop as [st' [es [Hloop [M1 [M2 [M3 [M4 M5]]]]]]].
  rewrite <- (for_each_nested subjects grades
                (fun subject grade => collect_unit rt env self subject grade))
    in Hloop.
  erewrite bind_return by exact Hloop.
  unfold bind, get, print, ret. do 3 eexists. split; [reflexivity|].
  subst st2. cbn [db db_calls requests sleeps stdout total_collected] in *.
  assert (Hn : length (requests st1) = S (length (requests st))).
  { rewrite G3, length_app. simpl. lia. }
  rewrite Hn in M2, M4. rewrite G1 in M1, M5. rewrite G2 in M4.
  split; [exact M1|]. split; [exact M2|]. split; [exact M4 | exact M5].
Qed.

End RunFacts.

Lemma entries_for_units rt env self units :
  forall n es, entries_for rt env self n units es -> map log_unit es = units.
Proof.
  induction units as [|u units IH]; intros n [|e es] H; simpl in H;
    try contradiction; [reflexivity|].
  destruct H as [[Hu _] H]. simpl. rewrite Hu. f_equal. eapply IH, H.
Qed.

Lemma entries_for_nth rt env self units :
  forall n es i u, entries_for rt env self n units es ->
    nth_error units i = Some u ->
    exists e, nth_error es i = Some e /\ entry_for rt env self (n + i) u e.
Proof.
  induction units as [|u0 units IH]; intros n [|e es] i u H Hi; simpl in H;
    try contradiction.
  - now destruct i.
  - destruct H as [He H]. destruct i as [|i]; simpl in Hi.
    + injection Hi as <-. exists e. rewrite Nat.add_0_r. now split.
    + destruct (IH (S n) es i u H Hi) as [e' [Hn He']].
      exists e'. split; [exact Hn|]. now rewrite Nat.add_succ_r.
Qed.

Lemma NoDup_map_pair {X Y} (x : X) (ys : list Y) :
  NoDup ys -> NoDup (map (fun y => (x, y)) ys).
Proof.
  induction 1 as [|y ys Hy _ IH]; simpl; constructor; [|assumption].
  rewrite in_map_iff. intros [y' [E Hy']]. injection E as ->. contradiction.
Qed.

Lemma NoDup_list_prod {X Y} (xs : list X) (ys : list Y) :
  NoDup xs -> NoDup ys -> NoDup (list_prod xs ys).
Proof.
  intros Hx Hy. induction Hx as [|x xs Hin _ IH]; simpl; [constructor|].
  apply NoDup_app; [now apply NoDup_map_pair | assumption |].
  intros [a b]. rewrite in_map_iff, in_prod_iff.
  intros [y [E _]] [Hxs _]. injection E as -> _. contradiction.
Qed.

Lemma py_or_given (x : list str) (y : list str) : x <> [] -> py_or (Some x) y = x.
Proof. destruct x; [congruence | reflexivity]. Qed.

Lemma quiet_env_sound :
  setup_sound quiet_env /\ log_sound quiet_env /\
  search_page_parses quiet_env (new_collector None) 0.
Proof.
  split; [intros n op _; reflexivity|]. split; [intros n op _; reflexivity|].
  intros body H. injection H as <-. now exists [].
Qed.

Lemma failing_env_sound :
  setup_sound failing_env /\ log_sound failing_env /\
  search_page_parses failing_env (new_collector None) 0.
Proof.
  split; [intros n op _; reflexivity|]. split; [intros n op _; reflexivity|].
  intros body H. injection H as <-. now exists [].
Qed.




(** C3.  The unit (Mathematics, 3) of this run sends its request, which
    fails, and no delay at all is made in the run, although the request
    delay is 2; on the same unit with a page that loads, one delay of 2
    is made.  The delay sits inside the [try] block, behind the request:
    a failed request skips it. *)
Theorem no_delay_after_failed_fetch :
  request_delay (new_collector None) = 2%Z
  /\ length (requests (snd (run_mathematics_3 failing_env))) = 2
  /\ sleeps (snd (run_mathematics_3 failing_env)) = []
  /\ sleeps (snd (run_mathematics_3 quiet_env)) = [2%Z].
Proof. repeat split; vm_compute; reflexivity. Qed.

Lemma valid_complete rt self element :
  valid rt self element = true -> complete element = true.
Proof. unfold valid. now intros H%andb_prop. Qed.

Lemma filter_valid_le rt self items :
  length (filter (valid rt self) items) <= length (filter complete items).
Proof.
  induction items as [|x items IH]; simpl; [lia|].
  destruct (valid rt self x) eqn:V.
  - rewrite (valid_complete _ _ _ V). simpl. lia.
  - destruct (complete x); simpl; lia.
Qed.

(** C6.  An element that lacks the identifier, the title or the
    description makes [extract_standard_data] return no record, raise
    nothing and print nothing (the state is untouched).  A fetched unit
    returns one record per valid element, never more than it has complete
    elements; a unit with one valid and one incomplete element, in either
    order, returns exactly one record, and with a working database its log
    entry counts 1 record. *)
Theorem incomplete_items_are_skipped (rt : Runtime) (env : Env)
    (self : CPALMSDataCollector) (subject grade : str) (st : State) :
  (forall element,
      complete element = false ->
      extract_standard_data rt self element subject grade st = (Return None, st))
  /\
  (forall body items,
      http env (length (requests st)) (unit_request self subject grade) = HttpOk body ->
      as_html body = Soup items ->
      exists standards st',
        scrape_standards_by_subject_grade rt env self subject grade st
          = (Return standards, st')
        /\ length standards = length (filter (valid rt self) items)
        /\ length standards <= length (filter complete items))
  /\
  (forall body good bad,
      valid rt self good = true -> complete bad = false ->
      http env (length (requests st)) (unit_request self subject grade) = HttpOk body ->
      as_html body = Soup [good; bad] \/ as_html body = Soup [bad; good] ->
      (exists standard st',
          scrape_standards_by_subject_grade rt env self subject grade st
            = (Return [standard], st'))
      /\
      (log_sound env -> save_sound env ->
       exists st' e,
         collect_unit rt env self subject grade st = (Return tt, st')
         /\ scraping_log (db st') = scraping_log (db st) ++ [e]
         /\ log_status e = lit "success" /\ log_records_collected e = 1)).
Proof.
  split; [|split].
  - intros element H. now apply extract_standard_data_incomplete.
  - intros body items H Hb.
    destruct (scrape_parsed rt env self subject grade st body items H Hb)
      as [standards [st' [Hrun [Hlen _]]]].
    exists standards, st'. split; [exact Hrun|]. split; [exact Hlen|].
    rewrite Hlen. apply filter_valid_le.
  - intros body good bad Hgood Hbad H Hitems.
    assert (Hbad' : valid rt self bad = false).
    { unfold valid. now rewrite Hbad. }
    assert (Hone : exists items, as_html body = Soup items
                                 /\ filter (valid rt self) items = [good]).
    { destruct Hitems as [Hb|Hb]; eexists; (split; [exact Hb|]);
        simpl; now rewrite Hgood, Hbad'. }
    destruct Hone as [items [Hb Hf]]. split.
    + destruct (scrape_parsed rt env self subject grade st body items H Hb)
        as [standards [st' [Hrun [Hlen _]]]].
      rewrite Hf in Hlen. destruct standards as [|s0 [|s1 rest]]; try discriminate.
      now exists s0, st'.
    + intros Hlog Hsave.
      destruct (collect_unit_logs rt env self subject grade st Hlog)
        as [st' [e [Hrun [L1 [[_ L2] _]]]]].
      exists st', e. split; [exact Hrun|]. split; [exact L1|].
      cbn [fst snd] in L2. rewrite H, Hb, Hf in L2.
      destruct L2 as [[Hs [Hn _]]|[_ [_ [k [op [Hop Hfault]]]]]]; [now split|].
      rewrite (Hsave k op Hop) in Hfault. discriminate.
Qed.

Lemma incomplete_items_are_skipped_witness :
  complete untitled_element = false
  /\ extract_standard_data ascii_runtime (new_collector None) untitled_element
       (lit "Mathematics") (lit "3") initial_state
     = (Return None, initial_state)
  /\ exists standard st',
       scrape_standards_by_subject_grade ascii_runtime two_item_env
         (new_collector None) (lit "Mathematics") (lit "3") initial_state
       = (Return [standard], st').
Proof.
  pose proof (incomplete_items_are_skipped ascii_runtime two_item_env
                (new_collector None) (lit "Mathematics") (lit "3") initial_state)
    as [Ha [_ Hc]].
  split; [reflexivity|]. split; [exact (Ha untitled_element eq_refl)|].
  exact (proj1 (Hc _ good_element untitled_element eq_refl eq_refl eq_refl
                   (or_introl eq_refl))).
Defined.

(* ================================================================== *)
(** ** The store: last write wins, and what a replacement resets *)

(** C4.  Of two records with the same [standard_id] that are saved one
    after the other, in one batch or in two successive batches, exactly
    one row is left under the key whatever the store held before, and each
    of its columns is the value of the later record or, where the
    statement gives no value, the default of the column: nothing of the
    earlier record is kept.  Both ways of saving return normally. *)
Theorem upsert_last_write_wins (env : Env) (r1 r2 : Standard) (st : State) :
  save_sound env ->
  standard_id r1 = standard_id r2 ->
  forall st',
    st' = snd (save_standards_to_db env [r1; r2] st) \/
    st' = snd (save_standards_to_db env [r2]
                 (snd (save_standards_to_db env [r1] st))) ->
    exists row,
      rows_with_key (standard_id r1) (db st') = [row]
      /\ row_standard_id row = Some (standard_id r2)
      /\ row_subject row = Some (subject r2)
      /\ row_grade row = Some (grade r2)
      /\ row_title row = Some (title r2)
      /\ row_description row = Some (description r2)
      /\ row_keywords row = Some (keywords r2)
      /\ row_url row = url r2
      /\ row_state row = Some (lit "FL")
      /\ row_domain row = None /\ row_cluster row = None
      /\ row_clarifications row = None.
Proof.
  intros Hok Hid st' Hst'. rewrite Hid.
  assert (H : exists id now,
             rows_with_key (standard_id r2) (db st') =
             [mkStandardRow id (Some (standard_id r2)) (Some (lit "FL"))
                (Some (subject r2)) (Some (grade r2)) None None
                (Some (title r2)) (Some (description r2)) None
                (Some (keywords r2)) (url r2) (Some now)]).
  { destruct Hst' as [->| ->].
    - destruct (save_standards_to_db_last env [r1] r2 st Hok)
        as [st1 [id [now [Hrun Hrows]]]].
      exists id, now. cbn [app] in Hrun. rewrite Hrun. exact Hrows.
    - destruct (save_standards_to_db_last env [] r2
                  (snd (save_standards_to_db env [r1] st)) Hok)
        as [st1 [id [now [Hrun Hrows]]]].
      exists id, now. cbn [app] in Hrun. rewrite Hrun. exact Hrows. }
  destruct H as [id [now H]]. eexists. split; [exact H|]. repeat split.
Qed.

Lemma quiet_env_save_sound : save_sound quiet_env.
Proof. intros n op _. reflexivity. Qed.

Lemma upsert_last_write_wins_witness :
  exists row,
    rows_with_key (lit "MA.3.NSO.1.1")
      (db (snd (save_standards_to_db quiet_env [first_record; second_record]
                  (mkState curated_db 0 [] [] [] 0)))) = [row]
    /\ row_title row = Some (lit "new title")
    /\ row_url row = None /\ row_domain row = None.
Proof.
  destruct (upsert_last_write_wins quiet_env first_record second_record
              (mkState curated_db 0 [] [] [] 0) quiet_env_save_sound eq_refl
              _ (or_introl eq_refl))
    as [row [Hrows [_ [_ [_ [Ht [_ [_ [Hu [_ [Hd _]]]]]]]]]]].
  exists row. split; [exact Hrows|]. split; [exact Ht|]. split; [exact Hu | exact Hd].
Defined.

(** Relations between the database before and after that every step of
    a computation respects. *)
Section Keeps.

Variable R : Database -> Database -> Prop.
Hypothesis R_refl : forall d, R d d.
Hypothesis R_trans : forall d1 d2 d3, R d1 d2 -> R d2 d3 -> R d1 d3.

Variable rt : Runtime.
Variable env : Env.

Lemma keeps_same {A} (m : M A) :
  (forall st, db (snd (m st)) = db st) -> keeps R m.
Proof. intros H st. rewrite H. apply R_refl. Qed.

Lemma keeps_bind {A B} (m : M A) (k : A -> M B) :
  keeps R m -> (forall a, keeps R (k a)) -> keeps R (bind m k).
Proof.
  intros Hm Hk st. unfold bind. specialize (Hm st).
  destruct (m st) as [[a|e] st1]; [|exact Hm].
  eapply R_trans; [exact Hm | apply Hk].
Qed.

Lemma keeps_try {A} (body : M A) class handler :
  keeps R body -> (forall e, keeps R (handler e)) ->
  keeps R (try_except body class handler).
Proof.
  intros Hb Hh st. unfold try_except. specialize (Hb st).
  destruct (body st) as [[a|e] st1]; [exact Hb|].
  destruct (class e); [|exact Hb].
  eapply R_trans; [exact Hb | apply Hh].
Qed.

Lemma keeps_for_each {X} (l : list X) (body : X -> M unit) :
  (forall x, keeps R (body x)) -> keeps R (for_each l body).
Proof.
  intros Hb. induction l as [|x l IH]; simpl.
  - intros st. apply R_refl.
  - apply keeps_bind; [apply Hb | intros _; exact IH].
Qed.

Lemma keeps_ret {A} (a : A) : keeps R (ret a).
Proof. now apply keeps_same. Qed.

Lemma keeps_raise {A} (e : exn) : keeps R (@raise A e).
Proof. now apply keeps_same. Qed.

Lemma keeps_print m : keeps R (print m).
Proof. now apply keeps_same. Qed.

Lemma keeps_sleep d : keeps R (sleep d).
Proof. now apply keeps_same. Qed.

Lemma keeps_set_total n : keeps R (set_total n).
Proof. now apply keeps_same. Qed.

Lemma keeps_get {A} (f : State -> A) : keeps R (get f).
Proof. now apply keeps_same. Qed.

Lemma keeps_db_call op : keeps R (db_call env op).
Proof.
  apply keeps_same. intros st. unfold db_call.
  now destruct (db_fault env (db_calls st) op).
Qed.

Lemma keeps_session_get r : keeps R (session_get env r).
Proof.
  apply keeps_same. intros st. unfold session_get.
  now destruct (http env (length (requests st)) r).
Qed.

Lemma keeps_BeautifulSoup body : keeps R (BeautifulSoup body).
Proof.
  unfold BeautifulSoup. destruct (as_html body); [apply keeps_ret | apply keeps_raise].
Qed.

Lemma keeps_setup_database : keeps R (setup_database env).
Proof.
  unfold setup_database.
  repeat (apply keeps_bind; [apply keeps_db_call | intros _]).
  apply keeps_ret.
Qed.

Lemma keeps_get_subjects_and_grades self :
  keeps R (get_subjects_and_grades env self).
Proof.
  unfold get_subjects_and_grades. apply keeps_try.
  - apply keeps_bind; [apply keeps_session_get | intros body].
    apply keeps_bind; [apply keeps_BeautifulSoup | intros _; apply keeps_ret].
  - intros e. apply keeps_bind; [apply keeps_print | intros _; apply keeps_ret].
Qed.

Lemma keeps_scrape self subject grade :
  keeps R (scrape_standards_by_subject_grade rt env self subject grade).
Proof.
  apply keeps_same. intros st.
  destruct (scrape_frame rt env self subject grade st) as [r [st' [Hrun [H _]]]].
  now rewrite Hrun.
Qed.

(** When saving and logging respect [R] as well, so does a whole run. *)
Hypothesis R_save : forall standards, keeps R (save_standards_to_db env standards).
Hypothesis R_log : forall subject grade status n notes,
  keeps R (log_scraping_activity env subject grade status n notes).

Lemma keeps_collect_unit self subject grade :
  keeps R (collect_unit rt env self subject grade).
Proof.
  unfold collect_unit. apply keeps_bind; [apply keeps_print | intros _].
  apply keeps_try.
  - unfold collect_unit_try.
    apply keeps_bind; [apply keeps_scrape | intros [|s0 rest]].
    + apply keeps_bind; [apply keeps_print | intros _; apply R_log].
    + apply keeps_bind; [apply R_save | intros _].
      apply keeps_bind; [apply keeps_get | intros total].
      apply keeps_bind; [apply keeps_set_total | intros _].
      apply keeps_bind; [apply keeps_print | intros _; apply R_log].
  - intros e. unfold collect_unit_except.
    apply keeps_bind; [apply keeps_print | intros _; apply R_log].
Qed.

Lemma keeps_collect_all_standards self focus_subjects focus_grades :
  keeps R (collect_all_standards rt env self focus_subjects focus_grades).
Proof.
  unfold collect_all_standards.
  apply keeps_bind; [apply keeps_print | intros _].
  apply keeps_bind; [apply keeps_setup_database | intros _].
  apply keeps_bind; [apply keeps_print | intros _].
  apply keeps_bind; [apply keeps_get_subjects_and_grades | intros available].
  apply keeps_bind; [apply keeps_print | intros _].
  apply keeps_bind; [apply keeps_set_total | intros _].
  apply keeps_bind.
  { unfold collect_units. apply keeps_for_each. intros subject.
    apply keeps_for_each. intros grade. apply keeps_collect_unit. }
  intros _. apply keeps_bind; [apply keeps_get | intros total].
  apply keeps_bind; [apply keeps_print | intros _; apply keeps_ret].
Qed.

End Keeps.

Lemma keeps_fl_save env standards :
  keeps fl_or_old (save_standards_to_db env standards).
Proof.
  intros st. destruct (save_standards_to_db_frame env standards st)
    as [r [st' [Hrun [_ [H _]]]]].
  now rewrite Hrun.
Qed.

Lemma keeps_fl_log env subject grade status n notes :
  keeps fl_or_old (log_scraping_activity env subject grade status n notes).
Proof.
  intros st.
  destruct (log_scraping_activity_cases env subject grade status n notes st)
    as [[now [st' [Hrun [Hdb _]]]] | [msg [k [op [st' [Hrun [_ [_ [Hdb _]]]]]]]]];
    rewrite Hrun; cbn [snd]; rewrite Hdb.
  - apply fl_or_old_insert_log, fl_or_old_refl.
  - apply fl_or_old_refl.
Qed.

Lemma same_log_refl d : same_log d d.
Proof. reflexivity. Qed.

Lemma same_log_trans d1 d2 d3 : same_log d1 d2 -> same_log d2 d3 -> same_log d1 d3.
Proof. unfold same_log. congruence. Qed.

Lemma keeps_log_save env standards :
  keeps same_log (save_standards_to_db env standards).
Proof.
  intros st. destruct (save_standards_to_db_frame env standards st)
    as [r [st' [Hrun [H _]]]].
  now rewrite Hrun.
Qed.

Lemma rows_with_key_In sid d row :
  In row (rows_with_key sid d) <-> In row (standards d) /\ has_key sid row = true.
Proof. unfold rows_with_key. apply filter_In. Qed.

(* ================================================================== *)
(** ** Failures of the log and of single upserts *)

Section FailureFacts.

Variable rt : Runtime.
Variable env : Env.
Variable self : CPALMSDataCollector.

(** An append in full: it adds its row, or raises the first failure of
    its calls and leaves the database as it was. *)
Lemma log_scraping_activity_run subject grade status n notes st :
  log_scraping_activity env subject grade status n notes st =
  match append_fault env (db_calls st) with
  | None =>
      (Return tt,
       mkState (insert_log (current_timestamp env (S (db_calls st)))
                           subject grade status n notes (db st))
               (S (S (S (db_calls st)))) (requests st) (sleeps st) (stdout st)
               (total_collected st))
  | Some msg =>
      (Raise (Sqlite3Error msg),
       mkState (db st) (db_calls st + append_calls env (db_calls st))
               (requests st) (sleeps st) (stdout st) (total_collected st))
  end.
Proof.
  unfold log_scraping_activity, append_fault, append_calls, bind, db_call, get, set_db.
  cbn [db db_calls requests sleeps stdout total_collected].
  destruct (db_fault env (db_calls st) LogConnect) as [m|].
  { now rewrite Nat.add_1_r. }
  cbn [db db_calls requests sleeps stdout total_collected].
  destruct (db_fault env (S (db_calls st)) LogInsert) as [m|].
  { now replace (db_calls st + 2) with (S (S (db_calls st))) by lia. }
  cbn [db db_calls requests sleeps stdout total_collected].
  destruct (db_fault env (S (S (db_calls st))) LogCommit) as [m|].
  { now replace (db_calls st + 3) with (S (S (S (db_calls st)))) by lia. }
  reflexivity.
Qed.

Lemma insert_or_replace_keeps_key now standard d sid :
  rows_with_key sid d <> [] ->
  rows_with_key sid (insert_or_replace now standard d) <> [].
Proof.
  intros H. destruct (list_eq_dec N.eq_dec sid (standard_id standard)) as [->|Hne].
  - rewrite insert_or_replace_key. discriminate.
  - now rewrite insert_or_replace_others.
Qed.



End FailureFacts.

Section LogFailure.

Variable rt : Runtime.
Variable env : Env.
Variable self : CPALMSDataCollector.



End LogFailure.


(** When the append of the handler fails too, the run ends with that
    exception and without any entry. *)
Lemma log_failure_fatal_example :
  fst (run_mathematics_3 locked_env)
    = Raise (Sqlite3Error (lit "database is locked"))
  /\ scraping_log (db (snd (run_mathematics_3 locked_env))) = [].
Proof. split; vm_compute; reflexivity. Qed.




(* ================================================================== *)
(** ** The API collector *)

Section ApiFacts.

Variable env : Env.
Variable self : CPALMSAPICollector.

(** Parsing leaves the state alone; it returns only when there is no
    item, for the first item already raises. *)
Lemma parse_case_competencies_run competencies st :
  exists r, parse_case_competencies competencies st = (r, st)
            /\ forall msg, r <> Raise (RequestException msg).
Proof.
  unfold parse_case_competencies.
  destruct (match CFItems competencies with Some l => l | None => [] end)
    as [|item rest]; simpl.
  - exists (Return []). split; [reflexivity | discriminate].
  - eexists. split; [reflexivity | discriminate].
Qed.

(** The loop over the documents: it prints nothing, and a request of it
    that fails is the last it sends and ends it with that exception. *)
Lemma fetch_documents_run docs :
  forall standards st,
  exists r st' sent,
    fetch_documents env self docs standards st = (r, st')
    /\ requests st' = requests st ++ sent
    /\ stdout st' = stdout st
    /\ forall i req msg,
         nth_error sent i = Some req ->
         http env (length (requests st) + i) req = HttpError msg ->
         r = Raise (RequestException msg) /\ S i = length sent.
Proof.
  induction docs as [|doc rest IH]; intros standards st; cbn [fetch_documents].
  - exists (Return standards), st, []. rewrite app_nil_r.
    split; [reflexivity|]. split; [reflexivity|]. split; [reflexivity|].
    intros [|i] req msg H; discriminate H.
  - destruct (contains (lit "Florida") (or_empty (doc_title doc))).
    2:{ apply IH. }
    destruct (doc_identifier doc) as [identifier|].
    2:{ eexists. exists st, []. rewrite app_nil_r. split; [reflexivity|].
        split; [reflexivity|]. split; [reflexivity|].
        intros [|i] req msg H; discriminate H. }
    unfold bind at 1, ret at 1. unfold bind at 1, session_get at 1.
    set (req0 := mkRequest (items_url self identifier) []).
    assert (Hone : forall (r0 : outcome (list Standard)) i req msg,
               nth_error [req0] i = Some req ->
               http env (length (requests st) + i) req = HttpError msg ->
               http env (length (requests st)) req0 = HttpError msg
               /\ (r0 = Raise (RequestException msg) ->
                   r0 = Raise (RequestException msg) /\ S i = length [req0])).
    { intros r0 [|[|i]] req msg Hi Hh; cbn [nth_error] in Hi; try discriminate Hi.
      injection Hi as <-. rewrite Nat.add_0_r in Hh. split; [exact Hh|].
      intros ->. now split. }
    destruct (http env (length (requests st)) req0) as [body|msg0] eqn:H.
    + set (st1 := mkState _ _ _ _ _ _).
      destruct (parse_case_competencies_run (as_json body) st1) as [r1 [Hp Hr1]].
      unfold bind at 1. rewrite Hp. destruct r1 as [parsed|e].
      * destruct (IH (standards ++ parsed) st1) as [r [st' [sent [Hrun [R [O N]]]]]].
        exists r, st', (req0 :: sent). split; [exact Hrun|].
        cbn [requests stdout st1] in R, O, N.
        split; [rewrite R, <- app_assoc; reflexivity|]. split; [exact O|].
        intros [|i] req msg Hi Hh; cbn [nth_error] in Hi.
        -- injection Hi as <-. rewrite Nat.add_0_r in Hh. congruence.
        -- rewrite length_app in N. cbn [length] in N |- *.
           destruct (N i req msg Hi) as [Hr Hl].
           { now replace (length (requests st) + 1 + i)
               with (length (requests st) + S i) by lia. }
           split; [exact Hr | now rewrite Hl].
      * exists (Raise e), st1, [req0]. split; [reflexivity|].
        split; [reflexivity|]. split; [reflexivity|].
        intros i req msg Hi Hh.
        destruct (Hone (Raise e) i req msg Hi Hh) as [Habs _]. discriminate Habs.
    + eexists. eexists. exists [req0]. split; [reflexivity|].
      split; [reflexivity|]. split; [reflexivity|].
      intros i req msg Hi Hh.
      destruct (Hone (Raise (RequestException msg0)) i req msg Hi Hh) as [Hm Hr].
      injection Hm as ->. now apply Hr.
Qed.

End ApiFacts.

Lemma get_standards_via_api_run (env : Env) (self : CPALMSAPICollector) (st : State) :
  exists r st' sent,
    get_standards_via_api env self st = (r, st')
    /\ (forall msg, r <> Raise (RequestException msg))
    /\ requests st' = requests st ++ sent
    /\ forall i req msg,
         nth_error sent i = Some req ->
         http env (length (requests st) + i) req = HttpError msg ->
         r = Return [] /\ S i = length sent
         /\ stdout st' = stdout st ++ [MsgApiError msg].
Proof.
  unfold get_standards_via_api, try_except.
  unfold bind at 1, session_get at 1.
  set (req0 := mkRequest (case_api_url self ++ lit "/CFDocuments") []).
  destruct (http env (length (requests st)) req0) as [body|msg0] eqn:H.
  - set (st1 := mkState _ _ _ _ _ _).
    match goal with |- context [fetch_documents env self ?docs ?acc st1] =>
      destruct (fetch_documents_run env self docs acc st1)
        as [r [st' [sent [Hrun [R [O N]]]]]]; rewrite Hrun end.
    cbn [requests stdout st1] in R, O, N.
    assert (Hshift : forall i req msg,
               nth_error (req0 :: sent) i = Some req ->
               http env (length (requests st) + i) req = HttpError msg ->
               r = Raise (RequestException msg) /\ S i = length (req0 :: sent)).
    { intros [|i] req msg Hi Hh; cbn [nth_error] in Hi.
      { injection Hi as <-. rewrite Nat.add_0_r in Hh. congruence. }
      rewrite length_app in N. cbn [length] in N |- *.
      destruct (N i req msg Hi) as [Hr Hl].
      { now replace (length (requests st) + 1 + i)
          with (length (requests st) + S i) by lia. }
      split; [exact Hr | now rewrite Hl]. }
    destruct r as [a|e].
    + exists (Return a), st', (req0 :: sent). split; [reflexivity|].
      split; [discriminate|]. split; [rewrite R, <- app_assoc; reflexivity|].
      intros i req msg Hi Hh. destruct (Hshift i req msg Hi Hh) as [Habs _].
      discriminate Habs.
    + destruct (is_request_exception e) eqn:Ee.
      * destruct e; try discriminate Ee.
        unfold bind, print, ret. cbn [exn_str].
        eexists. eexists. exists (req0 :: sent). split; [reflexivity|].
        split; [discriminate|].
        cbn [requests stdout]. split; [rewrite R, <- app_assoc; reflexivity|].
        intros i req msg' Hi Hh. destruct (Hshift i req msg' Hi Hh) as [Hm Hl].
        injection Hm as ->. rewrite O. now repeat split.
      * exists (Raise e), st', (req0 :: sent). split; [reflexivity|].
        split; [intros msg E; injection E as ->; discriminate Ee|].
        split; [rewrite R, <- app_assoc; reflexivity|].
        intros i req msg Hi Hh. destruct (Hshift i req msg Hi Hh) as [Habs _].
        injection Habs as ->. discriminate Ee.
  - cbn [is_request_exception]. unfold bind, print, ret. cbn [exn_str].
    eexists. eexists. exists [req0]. split; [reflexivity|].
    split; [discriminate|]. cbn [requests stdout]. split; [reflexivity|].
    intros [|[|i]] req msg Hi Hh; cbn [nth_error] in Hi; try discriminate Hi.
    injection Hi as <-. rewrite Nat.add_0_r in Hh.
    assert (msg0 = msg) by congruence. subst. now repeat split.
Qed.

(** C8, as the claim has it, fails: both documents match, the items of
    the first fail to load, and the items of the second are never
    requested: the failure has ended the whole collection, not one
    branch.  (When the first loads, the second is requested.) *)
Lemma api_item_failure_aborts_all_example :
  http api_env 1 (mkRequest (items_url (new_api_collector (lit "key")) (lit "d1")) [])
    = HttpError (lit "503 Server Error")
  /\ contains (lit "Florida") (lit "Florida Science") = true
  /\ fst (api_run api_env) = Return []
  /\ map req_url (requests (snd (api_run api_env)))
     = [lit "https://api.cpalms.org/case/v1p0/CFDocuments";
        lit "https://api.cpalms.org/case/v1p0/CFDocuments/d1/CFItems"]
  /\ map req_url (requests (snd (api_run api_ok_env)))
     = [lit "https://api.cpalms.org/case/v1p0/CFDocuments";
        lit "https://api.cpalms.org/case/v1p0/CFDocuments/d1/CFItems";
        lit "https://api.cpalms.org/case/v1p0/CFDocuments/d2/CFItems"].
Proof. repeat split; vm_compute; reflexivity. Qed.

(** C8, amended.  In API mode no request failure is raised to the
    caller, and a request that fails, be it for the list of documents or
    for the items of a matching document, ends the whole collection: it is
    the last request sent, its message is printed, and the empty list is
    returned. *)
Theorem api_request_failure_aborts_collection (env : Env)
    (self : CPALMSAPICollector) (st : State) :
  (forall msg, fst (get_standards_via_api env self st) <> Raise (RequestException msg))
  /\
  exists sent,
    requests (snd (get_standards_via_api env self st)) = requests st ++ sent
    /\ forall i req msg,
         nth_error sent i = Some req ->
         http env (length (requests st) + i) req = HttpError msg ->
         fst (get_standards_via_api env self st) = Return []
         /\ S i = length sent
         /\ stdout (snd (get_standards_via_api env self st))
            = stdout st ++ [MsgApiError msg].
Proof.
  destruct (get_standards_via_api_run env self st)
    as [r [st' [sent [Hrun [Hr [Hsent Hfail]]]]]].
  rewrite Hrun. cbn [fst snd]. split; [exact Hr|].
  exists sent. split; [exact Hsent | exact Hfail].
Qed.

Lemma api_request_failure_aborts_collection_witness :
  fst (api_run api_env) = Return []
  /\ stdout (snd (api_run api_env)) = [MsgApiError (lit "503 Server Error")].
Proof.
  destruct (proj2 (api_request_failure_aborts_collection api_env
                     (new_api_collector (lit "key")) initial_state))
    as [sent [Hsent Hfail]].
  assert (E : sent = skipn 0 (requests (snd (api_run api_env)))).
  { unfold api_run. rewrite Hsent. reflexivity. }
  assert (Hi : nth_error sent 1
               = Some (mkRequest (items_url (new_api_collector (lit "key"))
                                            (lit "d1")) [])).
  { rewrite E. vm_compute. reflexivity. }
  destruct (Hfail 1 _ (lit "503 Server Error") Hi eq_refl) as [Hr [_ Hout]].
  split; [exact Hr | exact Hout].
Defined.

(* ================================================================== *)
(** ** One entry per unit, whenever a run returns *)

Lemma bind_return_inv {A B} (m : M A) (k : A -> M B) st b st' :
  bind m k st = (Return b, st') ->
  exists a st1, m st = (Return a, st1) /\ k a st1 = (Return b, st').
Proof.
  unfold bind. destruct (m st) as [[a|e] st1]; [|discriminate].
  intros H. now exists a, st1.
Qed.

Section LogsOne.

Variable rt : Runtime.
Variable env : Env.
Variable self : CPALMSDataCollector.

Lemma logs_one_log subject grade status n notes :
  logs_one (subject, grade)
           (log_scraping_activity env subject grade status n notes).
Proof.
  intros st. rewrite log_scraping_activity_run.
  destruct (append_fault env (db_calls st)); cbn; [reflexivity|].
  eexists. split; reflexivity.
Qed.

Lemma logs_one_after {A} u (m : M A) (k : A -> M unit) :
  keeps same_log m -> (forall a, logs_one u (k a)) -> logs_one u (bind m k).
Proof.
  intros Hm Hk st. unfold bind. specialize (Hm st). unfold same_log in Hm.
  destruct (m st) as [[a|e] st1]; cbn [fst snd] in *; [|exact Hm].
  specialize (Hk a st1). destruct (k a st1) as [[[]|e] st2]; cbn [fst snd] in *.
  - destruct Hk as [entry [Hlog Hu]]. exists entry. now rewrite Hlog, Hm.
  - now rewrite Hk.
Qed.

Lemma logs_one_try u (body : M unit) class handler :
  logs_one u body -> (forall e, logs_one u (handler e)) ->
  logs_one u (try_except body class handler).
Proof.
  intros Hb Hh st. unfold try_except. specialize (Hb st).
  destruct (body st) as [[[]|e] st1]; cbn [fst snd] in *; [exact Hb|].
  destruct (class e); cbn [fst snd]; [|exact Hb].
  specialize (Hh e st1). destruct (handler e st1) as [[[]|e'] st2]; cbn [fst snd] in *.
  - destruct Hh as [entry [Hlog Hu]]. exists entry. now rewrite Hlog, Hb.
  - now rewrite Hh.
Qed.

(** Whatever happens to a unit, it ends normally with exactly one new
    entry, about itself, or it raises and has logged nothing. *)
Lemma logs_one_collect_unit subject grade :
  logs_one (subject, grade) (collect_unit rt env self subject grade).
Proof.
  unfold collect_unit.
  apply logs_one_after; [apply keeps_print, same_log_refl | intros _].
  apply logs_one_try.
  - unfold collect_unit_try.
    apply logs_one_after; [apply keeps_scrape, same_log_refl | intros [|s0 rest]].
    + apply logs_one_after; [apply keeps_print, same_log_refl | intros _].
      apply logs_one_log.
    + apply logs_one_after; [apply keeps_log_save | intros _].
      apply logs_one_after; [apply keeps_get, same_log_refl | intros total].
      apply logs_one_after; [apply keeps_set_total, same_log_refl | intros _].
      apply logs_one_after; [apply keeps_print, same_log_refl | intros _].
      apply logs_one_log.
  - intros e. unfold collect_unit_except.
    apply logs_one_after; [apply keeps_print, same_log_refl | intros _].
    apply logs_one_log.
Qed.

Lemma for_each_logs units :
  forall st st',
    for_each units (fun p => collect_unit rt env self (fst p) (snd p)) st
      = (Return tt, st') ->
    exists es, scraping_log (db st') = scraping_log (db st) ++ es
               /\ map log_unit es = units.
Proof.
  induction units as [|[subject grade] units IH]; intros st st' H.
  - injection H as <-. exists []. now rewrite app_nil_r.
  - cbn [for_each fst snd] in H. apply bind_return_inv in H.
    destruct H as [[] [st1 [Hunit Hrest]]].
    pose proof (logs_one_collect_unit subject grade st) as Hone.
    rewrite Hunit in Hone. cbn [fst snd] in Hone.
    destruct Hone as [e [Hlog Hu]].
    destruct (IH st1 st' Hrest) as [es [Hlogs Hus]].
    exists (e :: es). split.
    + rewrite Hlogs, Hlog, <- app_assoc. reflexivity.
    + cbn [map]. now rewrite Hu, Hus.
Qed.

Lemma setup_database_frame st :
  db (snd (setup_database env st)) = db st
  /\ requests (snd (setup_database env st)) = requests st.
Proof.
  unfold setup_database, bind, db_call, ret.
  destruct (db_fault env (db_calls st) SetupConnect); cbn; [now split|].
  destruct (db_fault env (S (db_calls st)) SetupCreateStandards); cbn; [now split|].
  destruct (db_fault env (S (S (db_calls st))) SetupCreateLog); cbn; [now split|].
  destruct (db_fault env (S (S (S (db_calls st)))) SetupCommit); cbn; now split.
Qed.

Lemma get_subjects_and_grades_returns st av st' :
  get_subjects_and_grades env self st = (Return av, st') ->
  av = available env self (length (requests st)) /\ db st' = db st.
Proof.
  unfold get_subjects_and_grades, available, try_except, bind, session_get, BeautifulSoup.
  destruct (http env (length (requests st)) (mkRequest (search_url self) []))
    as [body|msg].
  - destruct (as_html body); cbn; intros H; [|discriminate H].
    injection H as <- <-. now split.
  - cbn. intros H. injection H as <- <-. now split.
Qed.

(** A run that returns has appended exactly the entries of its units,
    one each, in the order of the loops. *)
Lemma collect_all_standards_returns_logs focus_subjects focus_grades st total st' :
  collect_all_standards rt env self focus_subjects focus_grades st
    = (Return total, st') ->
  exists es,
    scraping_log (db st') = scraping_log (db st) ++ es
    /\ map log_unit es
       = units_to_scrape env self (length (requests st)) focus_subjects focus_grades.
Proof.
  unfold collect_all_standards. intros H.
  apply bind_return_inv in H. destruct H as [[] [st1 [H1 H]]].
  apply bind_return_inv in H. destruct H as [[] [st2 [H2 H]]].
  apply bind_return_inv in H. destruct H as [[] [st3 [H3 H]]].
  apply bind_return_inv in H. destruct H as [av [st4 [H4 H]]].
  apply bind_return_inv in H. destruct H as [[] [st5 [H5 H]]].
  apply bind_return_inv in H. destruct H as [[] [st6 [H6 H]]].
  apply bind_return_inv in H. destruct H as [[] [st7 [H7 H]]].
  unfold bind, get, print, ret in H. injection H as _ <-.
  unfold print in H1, H3, H5. unfold set_total in H6.
  injection H1 as <-. injection H3 as <-. injection H5 as <-. injection H6 as <-.
  destruct (setup_database_frame
              (mkState (db st) (db_calls st) (requests st) (sleeps st)
                       (stdout st ++ [MsgSettingUp]) (total_collected st)))
    as [S1 S2].
  rewrite H2 in S1, S2. cbn [fst snd db requests] in S1, S2.
  apply get_subjects_and_grades_returns in H4. cbn [db requests] in H4.
  destruct H4 as [-> G]. rewrite S2 in *.
  unfold collect_units in H7. rewrite for_each_nested in H7.
  apply for_each_logs in H7. cbn [db] in H7 |- *.
  destruct H7 as [es [Hlog Hus]]. exists es. split.
  - rewrite Hlog, G, S1. reflexivity.
  - exact Hus.
Qed.

End LogsOne.

(** C2.  A run whose start-up succeeds and whose log can be written
    returns; and every run that returns has appended exactly one entry per
    unit of the Cartesian product of the subjects and grades given, in the
    order of the loops and whatever the outcome of the unit.  For every
    pair of the product the new entries about it are as many as its
    occurrences in the product: exactly one when no subject and no grade
    is given twice. *)
Theorem one_log_entry_per_unit (rt : Runtime) (env : Env)
    (self : CPALMSDataCollector) (subjects grades : list str) (st : State) :
  (setup_sound env -> log_sound env ->
   search_page_parses env self (length (requests st)) ->
   exists total st',
     collect_all_standards rt env self (Some subjects) (Some grades) st
       = (Return total, st'))
  /\
  (forall total st',
     collect_all_standards rt env self (Some subjects) (Some grades) st
       = (Return total, st') ->
     exists es,
       scraping_log (db st') = scraping_log (db st) ++ es
       /\ (subjects <> [] -> grades <> [] ->
           map log_unit es = list_prod subjects grades)
       /\ (forall p, In p (list_prod subjects grades) ->
             count_occ unit_eq_dec (map log_unit es) p
             = count_occ unit_eq_dec (list_prod subjects grades) p)
       /\ (NoDup subjects -> NoDup grades ->
           forall p, In p (list_prod subjects grades) ->
             count_occ unit_eq_dec (map log_unit es) p = 1)).
Proof.
  split.
  - intros Hsetup Hlog Hparse.
    destruct (collect_all_standards_logs rt env self (Some subjects) (Some grades)
                st Hsetup Hlog Hparse)
      as [total [st' [es [Hrun _]]]].
    now exists total, st'.
  - intros total st' Hrun.
    destruct (collect_all_standards_returns_logs rt env self _ _ _ _ _ Hrun)
      as [es [L1 L2]].
    exists es. split; [exact L1|]. unfold units_to_scrape in L2.
    assert (Hmap : subjects <> [] -> grades <> [] ->
                   map log_unit es = list_prod subjects grades).
    { intros Hs Hg. now rewrite !py_or_given in L2. }
    assert (Hne : forall p, In p (list_prod subjects grades) ->
                            subjects <> [] /\ grades <> []).
    { intros [a b] Hp. apply in_prod_iff in Hp. destruct Hp as [Ha Hb].
      split; intros ->; contradiction. }
    split; [exact Hmap|]. split.
    + intros p Hp. destruct (Hne p Hp) as [Hs Hg]. now rewrite Hmap.
    + intros Hs Hg p Hp. destruct (Hne p Hp) as [Hs' Hg']. rewrite Hmap by assumption.
      apply NoDup_count_occ'; [now apply NoDup_list_prod | exact Hp].
Qed.

Lemma one_log_entry_per_unit_witness :
  exists total st' es,
    collect_all_standards ascii_runtime quiet_env (new_collector None)
      (Some [lit "Mathematics"]) (Some [lit "3"; lit "4"]) initial_state
      = (Return total, st')
    /\ scraping_log (db st') = scraping_log (db initial_state) ++ es
    /\ map log_unit es
       = [(lit "Mathematics", lit "3"); (lit "Mathematics", lit "4")].
Proof.
  destruct (one_log_entry_per_unit ascii_runtime quiet_env (new_collector None)
              [lit "Mathematics"] [lit "3"; lit "4"] initial_state)
    as [Hreturns Hentries].
  destruct (Hreturns (proj1 quiet_env_sound) (proj1 (proj2 quiet_env_sound))
                     (proj2 (proj2 quiet_env_sound)))
    as [total [st' Hrun]].
  destruct (Hentries total st' Hrun) as [es [Hlog [Hmap _]]].
  exists total, st', es. split; [exact Hrun|]. split; [exact Hlog|].
  apply Hmap; intros E; discriminate E.
Defined.

(* ================================================================== *)
(** * Further properties of the code *)

(** ** Keywords are whole lower-case words *)

Section KeywordFacts.

Variable rt : Runtime.

Lemma is_alpha_word c : is_alpha c = true -> is_word rt c = true.
Proof.
  unfold is_word, is_alpha, is_lower, is_upper. intros H.
  assert (Hc : (c <? 128)%N = true).
  { apply N.ltb_lt. apply orb_prop in H.
    destruct H as [H|H]; apply andb_prop in H; destruct H as [_ H];
      apply N.leb_le in H; lia. }
  rewrite Hc. unfold is_alpha, is_lower, is_upper. now rewrite H.
Qed.

Lemma last_opt_app prev (a b : str) :
  last_opt prev (a ++ b) = last_opt (last_opt prev a) b.
Proof.
  unfold last_opt. rewrite rev_app_distr.
  destruct (rev b) as [|c l]; [now rewrite app_nil_l | reflexivity].
Qed.

Lemma last_opt_In prev (s : str) :
  s <> [] -> exists c, last_opt prev s = Some c /\ In c s.
Proof.
  intros Hs. unfold last_opt. destruct (rev s) as [|c l] eqn:E.
  - apply (f_equal (@rev N)) in E. rewrite rev_involutive in E. contradiction.
  - exists c. split; [reflexivity|]. apply in_rev. rewrite E. now left.
Qed.

Lemma match_end_boundary (k : nat) (prev : option N) (s tok rest : str) :
  match_end rt k prev s = Some (tok, rest) ->
  word_boundary rt (last_opt prev tok) (hd_error rest) = true.
Proof.
  induction k as [|k IH]; simpl; [discriminate|].
  destruct k as [|[|k]]; try discriminate.
  change (Nat.ltb (S (S (S k))) 3) with false. cbv iota.
  intros H.
  match type of H with (if ?b then _ else _) = _ => destruct b eqn:B end.
  - injection H as <- <-. exact B.
  - now apply IH.
Qed.

(** A match stands between two characters that are no word characters
    (or at an end of the text). *)
Lemma match_at_bounded (prev : option N) (s tok rest : str) :
  match_at rt prev s = Some (tok, rest) ->
  is_word_opt rt prev = false /\ is_word_opt rt (hd_error rest) = false.
Proof.
  intros H. destruct (match_at_some rt prev s tok rest H) as [Hs [Hall Hlen]].
  assert (Hne : tok <> []) by (intros ->; simpl in Hlen; lia).
  unfold match_at in H. destruct (word_boundary rt prev (hd_error s)) eqn:B;
    [|discriminate].
  apply match_end_boundary in H.
  rewrite Forall_forall in Hall. split.
  - destruct tok as [|c tok]; [contradiction|]. rewrite Hs in B.
    unfold word_boundary in B. cbn [app hd_error is_word_opt] in B.
    rewrite (is_alpha_word c) in B by (apply Hall; now left).
    now destruct (is_word_opt rt prev).
  - destruct (last_opt_In prev tok Hne) as [c [Hc Hin]]. rewrite Hc in H.
    unfold word_boundary in H. cbn [is_word_opt] in H.
    rewrite (is_alpha_word c (Hall c Hin)) in H.
    now destruct (is_word_opt rt (hd_error rest)).
Qed.

Lemma findall_from_bounded (fuel : nat) :
  forall prev s w, In w (findall_from rt fuel prev s) ->
    exists pre post, s = pre ++ w ++ post
      /\ is_word_opt rt (last_opt prev pre) = false
      /\ is_word_opt rt (hd_error post) = false.
Proof.
  induction fuel as [|fuel IH]; intros prev s w; simpl; [contradiction|].
  destruct s as [|c s]; [contradiction|].
  destruct (match_at rt prev (c :: s)) as [[tok s']|] eqn:E.
  - destruct (match_at_some rt _ _ _ _ E) as [Hs _].
    destruct (match_at_bounded _ _ _ _ E) as [Hp Hn].
    intros [<- | Hin].
    + exists [], s'. now repeat split.
    + destruct (IH _ _ _ Hin) as [pre [post [Hs' [Hp' Hn']]]].
      exists (tok ++ pre), post. rewrite Hs, Hs', <- app_assoc.
      split; [reflexivity|]. now rewrite last_opt_app.
  - intros Hin. destruct (IH _ _ _ Hin) as [pre [post [Hs' [Hp' Hn']]]].
    exists (c :: pre), post. rewrite Hs'. split; [reflexivity|].
    split; [|exact Hn'].
    change (c :: pre) with ([c] ++ pre). now rewrite last_opt_app.
Qed.

Lemma lower_from_ascii (s : str) :
  ascii_text s ->
  forall before,
    lower_from rt before s = map (fun c => if is_upper c then (c + 32)%N else c) s.
Proof.
  induction 1 as [|c s Hc _ IH]; intros before; simpl; [reflexivity|].
  unfold lower_char. apply N.ltb_lt in Hc. rewrite Hc. simpl. now rewrite IH.
Qed.

Lemma lower_ascii_no_upper (s : str) :
  ascii_text s -> Forall (fun c => is_upper c = false) (lower rt s).
Proof.
  intros H. unfold lower. rewrite lower_from_ascii by exact H.
  apply Forall_forall. intros c Hc. apply in_map_iff in Hc.
  destruct Hc as [c0 [<- _]]. unfold is_upper.
  destruct ((65 <=? c0)%N && (c0 <=? 90)%N) eqn:E.
  - apply andb_prop in E. destruct E as [E1 E2].
    apply N.leb_le in E1, E2.
    assert (E3 : (c0 + 32 <=? 90)%N = false) by (apply N.leb_gt; lia).
    rewrite E3. apply andb_false_r.
  - exact E.
Qed.

End KeywordFacts.

(** X1.  Every keyword is a whole word of the lower-cased text: the
    character before it and the character after it, where there is one,
    is no letter, digit or underscore.  So the letters of "abc1" or
    "foo_bar" never make a keyword. *)
Theorem keywords_are_whole_words (rt : Runtime) (text w : str) :
  set_list_ok rt ->
  In w (extract_keywords rt text) ->
  exists pre post,
    lower rt text = pre ++ w ++ post
    /\ is_word_opt rt (last_opt None pre) = false
    /\ is_word_opt rt (hd_error post) = false.
Proof.
  intros Hset H. unfold extract_keywords in H.
  apply In_firstn, Hset, filter_In in H. destruct H as [H _].
  now apply findall_from_bounded in H.
Qed.

Lemma keywords_are_whole_words_witness :
  exists pre post,
    lower ascii_runtime (lit "abc1 Quick foo_bar") = pre ++ lit "quick" ++ post
    /\ is_word_opt ascii_runtime (last_opt None pre) = false
    /\ is_word_opt ascii_runtime (hd_error post) = false.
Proof.
  apply (keywords_are_whole_words ascii_runtime (lit "abc1 Quick foo_bar")
           (lit "quick") ascii_runtime_sets).
  apply str_in_In. vm_compute. reflexivity.
Defined.

(** X2.  On a text of ASCII characters every keyword is made of the
    lower-case letters a to z. *)
Theorem keywords_are_lower_case (rt : Runtime) (text w : str) :
  set_list_ok rt -> ascii_text text ->
  In w (extract_keywords rt text) ->
  Forall (fun c => is_lower c = true) w.
Proof.
  intros Hset Hascii H. unfold extract_keywords in H.
  apply In_firstn, Hset, filter_In in H. destruct H as [H _].
  apply findall_from_tokens in H. destruct H as [[pre [post Hs]] [Hall _]].
  pose proof (lower_ascii_no_upper rt text Hascii) as Hup.
  rewrite Hs in Hup. apply Forall_app in Hup. destruct Hup as [_ Hup].
  apply Forall_app in Hup. destruct Hup as [Hup _].
  rewrite Forall_forall in *. intros c Hc.
  specialize (Hall c Hc). specialize (Hup c Hc). cbv beta in Hup.
  unfold is_alpha in Hall. rewrite Hup in Hall. now rewrite orb_false_r in Hall.
Qed.

Lemma keywords_are_lower_case_witness :
  Forall (fun c => is_lower c = true) (lit "quick").
Proof.
  apply (keywords_are_lower_case ascii_runtime (lit "abc1 Quick foo_bar")
           (lit "quick") ascii_runtime_sets).
  - unfold ascii_text. apply Forall_forall. intros c Hc.
    apply N.ltb_lt.
    assert (E : forallb (fun c => (c <? 128)%N) (lit "abc1 Quick foo_bar") = true)
      by (vm_compute; reflexivity).
    rewrite forallb_forall in E. now apply E.
  - apply str_in_In. vm_compute. reflexivity.
Defined.

(* ================================================================== *)
(** ** Records of the scraper *)

Section RecordFacts.

Variable rt : Runtime.

Lemma lstrip_head (s : str) : is_space_opt rt (hd_error (lstrip rt s)) = false.
Proof.
  induction s as [|c s IH]; simpl; [reflexivity|].
  destruct (is_space rt c) eqn:E; [exact IH | simpl; exact E].
Qed.

Lemma lstrip_suffix (s : str) : exists p, s = p ++ lstrip rt s.
Proof.
  induction s as [|c s IH]; simpl; [now exists []|].
  destruct (is_space rt c).
  - destruct IH as [p IH]. exists (c :: p). simpl. now rewrite <- IH.
  - now exists [].
Qed.

Lemma hd_error_rev_suffix (p b : str) :
  b <> [] -> hd_error (rev (p ++ b)) = hd_error (rev b).
Proof.
  intros Hb. rewrite rev_app_distr. destruct (rev b) as [|c l] eqn:E.
  - apply (f_equal (@rev N)) in E. rewrite rev_involutive in E. contradiction.
  - reflexivity.
Qed.

(** What [strip] returns has no white space at either end. *)
Lemma strip_trimmed (s : str) : trimmed rt (strip rt s).
Proof.
  unfold trimmed, strip. rewrite rev_involutive. split; [|apply lstrip_head].
  destruct (lstrip rt (rev (lstrip rt s))) as [|c b] eqn:E; [reflexivity|].
  destruct (lstrip_suffix (rev (lstrip rt s))) as [p Hp]. rewrite E in Hp.
  rewrite <- (hd_error_rev_suffix p (c :: b)) by discriminate.
  rewrite <- Hp, rev_involutive. apply lstrip_head.
Qed.

Variable self : CPALMSDataCollector.

(** The record of a valid element, field by field. *)
Lemma extract_standard_data_record element (s g : str) st :
  valid rt self element = true ->
  exists d,
    extract_standard_data rt self element s g st = (Return (Some d), st)
    /\ subject d = s /\ grade d = g
    /\ standard_id d = strip rt (or_empty (find_standard_id element))
    /\ title d = strip rt (or_empty (find_title element))
    /\ description d = strip rt (or_empty (find_description element))
    /\ keywords d
       = json_dumps (extract_keywords rt (or_empty (find_description element)))
    /\ (url d = None <-> find_a element = None).
Proof.
  unfold valid, complete, link_ok, extract_standard_data, try_except, bind.
  destruct (find_standard_id element), (find_title element),
    (find_description element); try discriminate.
  destruct (find_a element) as [a|]; simpl.
  - destruct (href a) as [h|]; [|discriminate].
    destruct (urljoin rt (base_url self) h); [|discriminate].
    intros _. eexists. split; [reflexivity|]. simpl.
    repeat split; discriminate.
  - intros _. eexists. split; [reflexivity|]. simpl. repeat split.
Qed.

End RecordFacts.

(** X3.  [extract_standard_data] never raises and touches nothing but
    the output.  It returns a record exactly for the elements that have
    the three texts and a usable link (none, or one with an [href] that
    joins with the base URL), and then prints nothing; the record carries
    the subject and grade asked for, its identifier, title and description
    have no white space at either end, and it has a URL exactly when the
    element has a link. *)
Theorem extract_standard_data_result (rt : Runtime) (self : CPALMSDataCollector)
    (element : Element) (s g : str) (st : State) :
  exists r st',
    extract_standard_data rt self element s g st = (Return r, st')
    /\ quiet st st'
    /\ ((exists d, r = Some d) <-> valid rt self element = true)
    /\ forall d, r = Some d ->
         st' = st
         /\ subject d = s /\ grade d = g
         /\ trimmed rt (standard_id d) /\ trimmed rt (title d)
         /\ trimmed rt (description d)
         /\ (url d = None <-> find_a element = None).
Proof.
  destruct (valid rt self element) eqn:V.
  - destruct (extract_standard_data_record rt self element s g st V)
      as [d [Hrun [Hs [Hg [Hid [Ht [Hd [_ Hu]]]]]]]].
    exists (Some d), st. split; [exact Hrun|]. split; [apply quiet_refl|].
    split; [split; [reflexivity | intros _; now exists d]|].
    intros d' E. injection E as <-.
    rewrite Hid, Ht, Hd. repeat split; try apply strip_trimmed; try assumption;
      apply Hu.
  - destruct (extract_standard_data_invalid rt self element s g st V)
      as [st' [Hrun Hq]].
    exists None, st'. split; [exact Hrun|]. split; [exact Hq|].
    split; [split; [intros [d E]; discriminate E | discriminate]|].
    intros d E. discriminate E.
Qed.

Lemma extract_standard_data_result_witness :
  exists d,
    extract_standard_data ascii_runtime (new_collector None) good_element
      (lit "Mathematics") (lit "3") initial_state = (Return (Some d), initial_state)
    /\ subject d = lit "Mathematics" /\ url d = None.
Proof.
  destruct (extract_standard_data_result ascii_runtime (new_collector None)
              good_element (lit "Mathematics") (lit "3") initial_state)
    as [r [st' [Hrun [_ [Hiff Hrec]]]]].
  destruct (proj2 Hiff eq_refl) as [d ->].
  destruct (Hrec d eq_refl) as [-> [Hs [_ [_ [_ [_ Hu]]]]]].
  exists d. split; [exact Hrun|]. split; [exact Hs | now apply Hu].
Defined.

Section FetchFacts.

Variable rt : Runtime.
Variable env : Env.
Variable self : CPALMSDataCollector.

(** The records of a page: one per valid element, in the order of the
    page, each with the subject and grade of the unit. *)
Lemma scrape_elements_records elements (s g : str) :
  forall standards st,
  exists new st',
    scrape_elements rt self elements s g standards st
      = (Return (standards ++ new), st')
    /\ map standard_id new
       = map (fun e => strip rt (or_empty (find_standard_id e)))
             (filter (valid rt self) elements)
    /\ Forall (fun d => subject d = s /\ grade d = g) new.
Proof.
  induction elements as [|element rest IH]; intros standards st; simpl.
  - exists [], st. rewrite app_nil_r. repeat split. constructor.
  - destruct (valid rt self element) eqn:V.
    + destruct (extract_standard_data_record rt self element s g st V)
        as [d [Hd [Hs [Hg [Hid _]]]]].
      erewrite bind_return.
      2:{ apply try_return. erewrite bind_return by exact Hd. reflexivity. }
      destruct (IH (standards ++ [d]) st) as [new [st' [Hrun [Hids Hall]]]].
      exists (d :: new), st'. rewrite Hrun, <- app_assoc.
      split; [reflexivity|]. split.
      * simpl. now rewrite Hid, Hids.
      * constructor; [now split | exact Hall].
    + destruct (extract_standard_data_invalid rt self element s g st V)
        as [st1 [Hd _]].
      erewrite bind_return.
      2:{ apply try_return. erewrite bind_return by exact Hd. reflexivity. }
      destruct (IH standards st1) as [new [st' [Hrun [Hids Hall]]]].
      exists new, st'. rewrite Hrun. now repeat split.
Qed.

End FetchFacts.

(** X4.  A fetch sends exactly one request, makes no database call and
    never raises a request exception (a page the parser rejects is the
    only way it raises).  When the request fails it returns no record;
    when the page is parsed it returns one record per valid element, in
    the order of the page, identified by the stripped identifier text
    and carrying the subject and grade of the unit. *)
Theorem fetch_returns_page_records (rt : Runtime) (env : Env)
    (self : CPALMSDataCollector) (s g : str) (st : State) :
  exists r st',
    scrape_standards_by_subject_grade rt env self s g st = (r, st')
    /\ requests st' = requests st ++ [unit_request self s g]
    /\ db st' = db st /\ db_calls st' = db_calls st
    /\ match http env (length (requests st)) (unit_request self s g) with
       | HttpError _ => r = Return []
       | HttpOk body =>
           match as_html body with
           | Rejected msg => r = Raise (ParserRejectedMarkup msg)
           | Soup items =>
               exists standards,
                 r = Return standards
                 /\ map standard_id standards
                    = map (fun e => strip rt (or_empty (find_standard_id e)))
                          (filter (valid rt self) items)
                 /\ Forall (fun d => subject d = s /\ grade d = g) standards
           end
       end.
Proof.
  destruct (http env (length (requests st)) (unit_request self s g))
    as [body|msg] eqn:H.
  2:{ rewrite (scrape_transport_error rt env self s g st msg H).
      do 2 eexists. split; [reflexivity|]. now repeat split. }
  destruct (as_html body) as [items|msg] eqn:Hb.
  2:{ rewrite (scrape_rejected rt env self s g st body msg H Hb).
      do 2 eexists. split; [reflexivity|]. now repeat split. }
  unfold scrape_standards_by_subject_grade, try_except, bind, session_get, BeautifulSoup.
  fold (unit_request self s g). rewrite H, Hb. unfold ret at 1.
  match goal with |- context [scrape_elements _ _ _ _ _ _ ?s0] =>
    destruct (scrape_elements_records rt self items s g [] s0)
      as [new [st1 [Hrun [Hids Hall]]]];
    destruct (scrape_elements_returns rt self items s g [] s0)
      as [new' [st1' [Hrun' [Hq _]]]] end.
  rewrite Hrun in Hrun'. injection Hrun' as _ <-.
  rewrite Hrun. cbn [app sleep ret]. do 2 eexists. split; [reflexivity|].
  destruct Hq as [Q1 [Q2 [Q3 _]]].
  cbn [db db_calls requests] in *.
  split; [exact Q3|]. split; [exact Q1|]. split; [exact Q2|].
  exists new. now repeat split.
Qed.

(* ================================================================== *)
(** ** What every run keeps of the store *)

(** A relation that the two SQL statements respect is respected by a
    whole run, whatever fails in it. *)
Section StatementInvariant.

Variable R : Database -> Database -> Prop.
Hypothesis R_refl : forall d, R d d.
Hypothesis R_trans : forall d1 d2 d3, R d1 d2 -> R d2 d3 -> R d1 d3.
Hypothesis R_upsert : forall now standard d, R d (insert_or_replace now standard d).
Hypothesis R_insert_log : forall now subject grade status n notes d,
  R d (insert_log now subject grade status n notes d).

Variable rt : Runtime.
Variable env : Env.

Lemma upsert_all_respects standards :
  forall work st,
  exists work' st',
    upsert_all env standards work st = (Return work', st')
    /\ db st' = db st /\ R work work'.
Proof.
  induction standards as [|s0 rest IH]; intros work st; cbn [upsert_all].
  - exists work, st. now repeat split.
  - unfold bind at 1, try_except, bind at 1, db_call.
    destruct (db_fault env (db_calls st) SaveUpsert) as [msg|];
      cbn [ret print bind fst snd is_exception exn_str
           db db_calls requests sleeps stdout total_collected];
      match goal with |- context [upsert_all env rest ?wk ?s] =>
        destruct (IH wk s) as [work' [st' [Hrun [Hdb HR]]]] end;
      exists work', st'; rewrite Hrun; (split; [reflexivity|]);
      (split; [exact Hdb|]).
    + exact HR.
    + eapply R_trans; [apply R_upsert | exact HR].
Qed.

Lemma save_respects standards : keeps R (save_standards_to_db env standards).
Proof.
  intros st. destruct standards as [|s0 rest]; [apply R_refl|].
  unfold save_standards_to_db. unfold bind at 1, db_call at 1.
  destruct (db_fault env (db_calls st) SaveConnect) as [msg|]; [apply R_refl|].
  unfold bind at 1, get. unfold bind at 1.
  match goal with |- context [upsert_all env ?l ?wk ?s] =>
    destruct (upsert_all_respects l wk s) as [work' [st1 [Hrun [Hdb HR]]]] end.
  rewrite Hrun. unfold bind, db_call, set_db.
  destruct (db_fault env (db_calls st1) SaveCommit) as [msg|]; cbn [snd db] in *.
  - rewrite Hdb. apply R_refl.
  - exact HR.
Qed.

Lemma log_respects subject grade status n notes :
  keeps R (log_scraping_activity env subject grade status n notes).
Proof.
  intros st. rewrite log_scraping_activity_run.
  destruct (append_fault env (db_calls st)); cbn [snd db];
    [apply R_refl | apply R_insert_log].
Qed.

Lemma run_respects self focus_subjects focus_grades st :
  R (db st)
    (db (snd (collect_all_standards rt env self focus_subjects focus_grades st))).
Proof.
  apply (keeps_collect_all_standards R R_refl R_trans rt env
           save_respects log_respects).
Qed.

End StatementInvariant.

Lemma insert_or_replace_unique now standard d :
  unique_keys d -> unique_keys (insert_or_replace now standard d).
Proof.
  intros H sid. destruct (list_eq_dec N.eq_dec sid (standard_id standard)) as [->|Hne].
  - rewrite insert_or_replace_key. simpl. lia.
  - rewrite insert_or_replace_others by exact Hne. apply H.
Qed.

(** Deleting rows keeps the values of a column among the old ones, and
    keeps them distinct when they were. *)
Lemma in_map_filter {A B} (column : A -> B) (keep : A -> bool) (rows : list A)
    (v : B) :
  In v (map column (filter keep rows)) -> In v (map column rows).
Proof.
  rewrite !in_map_iff. intros [x [E Hx]]. apply filter_In in Hx.
  exists x. tauto.
Qed.

Lemma NoDup_map_filter {A B} (column : A -> B) (keep : A -> bool) (rows : list A) :
  NoDup (map column rows) -> NoDup (map column (filter keep rows)).
Proof.
  induction rows as [|x rows IH]; simpl; [trivial|].
  intros H. apply NoDup_cons_iff in H. destruct H as [Hx H].
  destruct (keep x); [|now apply IH].
  simpl. constructor; [|now apply IH].
  intros Hin. apply Hx. eapply in_map_filter, Hin.
Qed.

Lemma max_row_id_ge_map rows id :
  In id (map row_id rows) -> (id <= max_row_id rows)%Z.
Proof.
  rewrite in_map_iff. intros [row [<- H]]. now apply max_row_id_ge.
Qed.

Lemma insert_or_replace_unique_ids now standard d :
  unique_ids d -> unique_ids (insert_or_replace now standard d).
Proof.
  unfold unique_ids, insert_or_replace. cbn [standards]. intros H.
  rewrite map_app. cbn [map row_id]. apply NoDup_app.
  - now apply NoDup_map_filter.
  - constructor; [intros [] | constructor].
  - intros id Hin [<-|[]]. apply in_map_filter, max_row_id_ge_map in Hin. lia.
Qed.

(** X5.  A run never breaks the two constraints of the table
    [standards], whatever fails in it: when no key has two rows before it,
    none has after it, and when no id is used twice before it, none is
    after it. *)
Theorem run_keeps_constraints (rt : Runtime) (env : Env)
    (self : CPALMSDataCollector) (focus_subjects focus_grades : option (list str))
    (st : State) :
  (unique_keys (db st) ->
   unique_keys
     (db (snd (collect_all_standards rt env self focus_subjects focus_grades st))))
  /\
  (unique_ids (db st) ->
   unique_ids
     (db (snd (collect_all_standards rt env self focus_subjects focus_grades st)))).
Proof.
  split.
  - apply (run_respects (fun d d' => unique_keys d -> unique_keys d')).
    + auto.
    + auto.
    + intros now standard d. apply insert_or_replace_unique.
    + intros now subject grade status n notes d H. exact H.
  - apply (run_respects (fun d d' => unique_ids d -> unique_ids d')).
    + auto.
    + auto.
    + intros now standard d. apply insert_or_replace_unique_ids.
    + intros now subject grade status n notes d H. exact H.
Qed.

Lemma run_keeps_constraints_witness :
  unique_keys (db (snd (run_mathematics_3 two_item_env))).
Proof.
  apply (proj1 (run_keeps_constraints ascii_runtime two_item_env
                  (new_collector None) (Some [lit "Mathematics"])
                  (Some [lit "3"]) initial_state)).
  intros sid. simpl. lia.
Defined.

(** X6.  A run never takes a standard out of the store and never touches
    an entry of the log, whatever fails in it: every key that has a row
    before the run has one after it, and the log after the run is the log
    before it with entries added at its end. *)
Theorem run_never_deletes (rt : Runtime) (env : Env)
    (self : CPALMSDataCollector) (focus_subjects focus_grades : option (list str))
    (st : State) :
  keys_kept (db st)
    (db (snd (collect_all_standards rt env self focus_subjects focus_grades st)))
  /\
  log_extended (db st)
    (db (snd (collect_all_standards rt env self focus_subjects focus_grades st))).
Proof.
  split.
  - apply (run_respects keys_kept).
    + intros d sid H. exact H.
    + intros d1 d2 d3 H12 H23 sid H. apply H23, H12, H.
    + intros now standard d sid. apply insert_or_replace_keeps_key.
    + intros now subject grade status n notes d sid H. exact H.
  - apply (run_respects log_extended).
    + intros d. exists []. now rewrite app_nil_r.
    + intros d1 d2 d3 [es1 H1] [es2 H2]. exists (es1 ++ es2).
      now rewrite H2, H1, app_assoc.
    + intros now standard d. exists []. simpl. now rewrite app_nil_r.
    + intros now subject grade status n notes d. eexists. reflexivity.
Qed.

Lemma run_never_deletes_witness :
  rows_with_key (lit "MA.3.NSO.1.1")
    (db (snd (collect_all_standards ascii_runtime two_item_env (new_collector None)
                (Some [lit "Mathematics"]) (Some [lit "3"])
                (mkState curated_db 0 [] [] [] 0)))) <> [].
Proof.
  apply (proj1 (run_never_deletes ascii_runtime two_item_env (new_collector None)
                  (Some [lit "Mathematics"]) (Some [lit "3"])
                  (mkState curated_db 0 [] [] [] 0))).
  intros E. vm_compute in E. discriminate E.
Defined.

(* ================================================================== *)
(** ** Saving a batch *)

Section SaveFacts.

Variable env : Env.

Lemma upsert_all_others sid standards :
  ~ In sid (map standard_id standards) ->
  forall work st work' st',
    upsert_all env standards work st = (Return work', st') ->
    rows_with_key sid work' = rows_with_key sid work.
Proof.
  induction standards as [|s0 rest IH]; intros Hnot work st work' st';
    cbn [upsert_all].
  - intros H. now injection H as <- _.
  - cbn [map] in Hnot.
    assert (Hne : sid <> standard_id s0) by (intros ->; apply Hnot; now left).
    assert (Hrest : ~ In sid (map standard_id rest))
      by (intros Hin; apply Hnot; now right).
    unfold bind at 1, try_except, bind at 1, db_call.
    destruct (db_fault env (db_calls st) SaveUpsert) as [msg|];
      cbn [ret print bind fst snd is_exception exn_str
           db db_calls requests sleeps stdout total_collected];
      intros H; rewrite (IH Hrest _ _ _ _ H); [reflexivity|].
    now apply insert_or_replace_others.
Qed.

(** The database after a save is the database before it, or what the
    loop of upserts has made of it. *)
Lemma save_db_cases standards st :
  exists r st',
    save_standards_to_db env standards st = (r, st')
    /\ (db st' = db st
        \/ exists st1 st2,
             upsert_all env standards (db st) st1 = (Return (db st'), st2)).
Proof.
  destruct standards as [|s0 rest].
  { exists (Return tt), st. split; [reflexivity | now left]. }
  unfold save_standards_to_db. unfold bind at 1, db_call at 1.
  destruct (db_fault env (db_calls st) SaveConnect) as [msg|].
  { do 2 eexists. split; [reflexivity | now left]. }
  unfold bind at 1, get. unfold bind at 1.
  match goal with |- context [upsert_all env ?l ?wk ?s] =>
    destruct (upsert_all_returns env l wk s)
      as [work' [st1 [Hrun [_ [_ [_ [Hdb _]]]]]]] end.
  rewrite Hrun. unfold bind, db_call, set_db.
  destruct (db_fault env (db_calls st1) SaveCommit) as [msg|].
  - do 2 eexists. split; [reflexivity|]. left. exact Hdb.
  - do 2 eexists. split; [reflexivity|]. right. cbn [db].
    do 2 eexists. exact Hrun.
Qed.

(** A batch whose connect or commit fails. *)
Lemma save_fails standards st msg :
  standards <> [] ->
  db_fault env (db_calls st) SaveConnect = Some msg
  \/ (db_fault env (db_calls st) SaveConnect = None
      /\ db_fault env (S (db_calls st) + length standards) SaveCommit = Some msg) ->
  exists st',
    save_standards_to_db env standards st = (Raise (Sqlite3Error msg), st')
    /\ db st' = db st.
Proof.
  intros Hne Hfail. destruct standards as [|s0 rest]; [congruence|].
  unfold save_standards_to_db. unfold bind at 1, db_call at 1.
  destruct Hfail as [Hc|[Hc Hm]]; rewrite Hc.
  { eexists. split; reflexivity. }
  unfold bind at 1, get. unfold bind at 1.
  match goal with |- context [upsert_all env ?l ?wk ?s] =>
    destruct (upsert_all_returns env l wk s)
      as [work' [st1 [Hrun [_ [_ [_ [Hdb [Hcalls _]]]]]]]] end.
  rewrite Hrun. unfold bind, db_call, set_db.
  cbn [db db_calls] in Hcalls, Hdb. rewrite Hcalls, Hm.
  eexists. split; [reflexivity | exact Hdb].
Qed.

End SaveFacts.

(** X7.  Saving is all or nothing and stays with its keys.  An empty
    batch does nothing at all, not even connect.  When the connect or
    the commit of a batch fails, the failure is raised and the database
    is exactly as before, whatever the upserts in between did.  And
    however a save ends, the rows under a key that no record of the batch
    has are the rows that were there. *)
Theorem save_is_atomic_and_local (env : Env) (standards : list Standard)
    (st : State) :
  (standards = [] -> save_standards_to_db env standards st = (Return tt, st))
  /\
  (forall msg,
     standards <> [] ->
     db_fault env (db_calls st) SaveConnect = Some msg
     \/ (db_fault env (db_calls st) SaveConnect = None
         /\ db_fault env (S (db_calls st) + length standards) SaveCommit = Some msg) ->
     fst (save_standards_to_db env standards st) = Raise (Sqlite3Error msg)
     /\ db (snd (save_standards_to_db env standards st)) = db st)
  /\
  (forall sid,
     ~ In sid (map standard_id standards) ->
     rows_with_key sid (db (snd (save_standards_to_db env standards st)))
     = rows_with_key sid (db st)).
Proof.
  split; [|split].
  - intros ->. reflexivity.
  - intros msg Hne Hfail.
    destruct (save_fails env standards st msg Hne Hfail) as [st' [Hrun Hdb]].
    rewrite Hrun. now split.
  - intros sid Hnot.
    destruct (save_db_cases env standards st) as [r [st' [Hrun Hcases]]].
    rewrite Hrun. cbn [snd].
    destruct Hcases as [->|[st1 [st2 Hup]]]; [reflexivity|].
    exact (upsert_all_others env sid standards Hnot _ _ _ _ Hup).
Qed.

Lemma save_is_atomic_and_local_witness :
  db (snd (save_standards_to_db commit_fails_env [first_record; second_record]
             (mkState curated_db 0 [] [] [] 0)))
  = curated_db.
Proof.
  refine (proj2 (proj1 (proj2 (save_is_atomic_and_local commit_fails_env
                                 [first_record; second_record]
                                 (mkState curated_db 0 [] [] [] 0)))
                       (lit "disk I/O error") _ _)).
  - intros E. discriminate E.
  - right. split; reflexivity.
Defined.

(* ================================================================== *)
(** ** Whole runs: the total, the delays, the start-up *)

Section TotalFacts.

Variable rt : Runtime.
Variable env : Env.
Variable self : CPALMSDataCollector.

(** With a working log, the running total grows by what the entry of
    the unit counts. *)
Lemma collect_unit_counts subject grade st :
  log_sound env ->
  exists st' e,
    collect_unit rt env self subject grade st = (Return tt, st')
    /\ scraping_log (db st') = scraping_log (db st) ++ [e]
    /\ total_collected st' = total_collected st + log_records_collected e.
Proof.
  intros Hlog. unfold collect_unit.
  unfold bind at 1, print at 1.
  set (st0 := mkState _ _ _ _ _ _).
  destruct (scrape_frame rt env self subject grade st0)
    as [r [st1 [Hrun [D1 [_ [_ D5]]]]]].
  cbn [db total_collected st0] in D1, D5.
  destruct r as [[|s0 rest]|e0].
  - erewrite try_return.
    2:{ unfold collect_unit_try. erewrite bind_return by exact Hrun.
        unfold bind at 1, print at 1. apply log_scraping_activity_ok, Hlog. }
    do 2 eexists. split; [reflexivity|].
    cbn [db scraping_log insert_log total_collected log_records_collected].
    rewrite D1, D5. split; [reflexivity | cbn [log_records_collected]; lia].
  - destruct (save_standards_to_db_frame env (s0 :: rest) st1)
      as [r [st2 [Hsave [S1 [_ [_ [_ [S5 _]]]]]]]].
    destruct r as [[]|e].
    + erewrite try_return.
      2:{ unfold collect_unit_try. erewrite bind_return by exact Hrun.
          cbv beta iota. erewrite bind_return by exact Hsave.
          unfold bind at 1, get at 1. unfold bind at 1, set_total at 1.
          unfold bind at 1, print at 1. apply log_scraping_activity_ok, Hlog. }
      do 2 eexists. split; [reflexivity|].
      cbn [db scraping_log insert_log total_collected log_records_collected].
      rewrite S1, S5, D1, D5. split; [reflexivity | cbn [log_records_collected]; lia].
    + erewrite try_caught; [| | reflexivity].
      2:{ unfold collect_unit_try. erewrite bind_return by exact Hrun.
          cbv beta iota. erewrite bind_raise by exact Hsave. reflexivity. }
      unfold collect_unit_except. unfold bind at 1, print at 1.
      rewrite log_scraping_activity_ok by exact Hlog.
      do 2 eexists. split; [reflexivity|].
      cbn [db scraping_log insert_log total_collected log_records_collected].
      rewrite S1, S5, D1, D5. split; [reflexivity | cbn [log_records_collected]; lia].
  - erewrite try_caught; [| | reflexivity].
    2:{ unfold collect_unit_try. erewrite bind_raise by exact Hrun. reflexivity. }
    unfold collect_unit_except. unfold bind at 1, print at 1.
    rewrite log_scraping_activity_ok by exact Hlog.
    do 2 eexists. split; [reflexivity|].
    cbn [db scraping_log insert_log total_collected log_records_collected].
    rewrite D1, D5. split; [reflexivity | cbn [log_records_collected]; lia].
Qed.

Lemma collect_loop_counts units :
  log_sound env ->
  forall st,
  exists st' es,
    for_each units (fun p => collect_unit rt env self (fst p) (snd p)) st
      = (Return tt, st')
    /\ scraping_log (db st') = scraping_log (db st) ++ es
    /\ total_collected st'
       = total_collected st + list_sum (map log_records_collected es).
Proof.
  intros Hlog. induction units as [|[subject grade] units IH]; intros st.
  - exists st, []. cbn. rewrite app_nil_r. repeat split. lia.
  - destruct (collect_unit_counts subject grade st Hlog)
      as [st1 [e [Hrun [L1 T1]]]].
    destruct (IH st1) as [st' [es [Hloop [L2 T2]]]].
    exists st', (e :: es). cbn [for_each fst snd].
    erewrite bind_return by exact Hrun. split; [exact Hloop|]. split.
    + rewrite L2, L1, <- app_assoc. reflexivity.
    + cbn [map list_sum fold_right]. rewrite T2, T1.
      unfold list_sum. lia.
Qed.

End TotalFacts.

(** X8.  A run whose start-up succeeds and whose log can be written
    returns the sum of the record counts of the entries it has appended,
    whatever the running total was before: units that found nothing or
    failed count 0. *)
Theorem total_is_sum_of_logged_counts (rt : Runtime) (env : Env)
    (self : CPALMSDataCollector) (focus_subjects focus_grades : option (list str))
    (st : State) :
  setup_sound env -> log_sound env ->
  search_page_parses env self (length (requests st)) ->
  exists total st' es,
    collect_all_standards rt env self focus_subjects focus_grades st
      = (Return total, st')
    /\ scraping_log (db st') = scraping_log (db st) ++ es
    /\ total = list_sum (map log_records_collected es).
Proof.
  intros Hsetup Hlog Hparse. unfold collect_all_standards.
  unfold bind at 1, print at 1.
  erewrite bind_return by (apply setup_database_ok; exact Hsetup).
  unfold bind at 1, print at 1.
  cbn [db db_calls requests sleeps stdout total_collected].
  match goal with |- context [bind (get_subjects_and_grades env self) _ ?s] =>
    destruct (get_subjects_and_grades_ok env self s Hparse)
      as [st1 [Hget [G1 _]]] end.
  erewrite bind_return by exact Hget.
  cbn [db db_calls requests sleeps stdout total_collected] in *.
  unfold bind at 1, print at 1. unfold bind at 1, set_total at 1.
  unfold collect_units.
  match goal with |- context [for_each ?xs (fun s => for_each ?ys _)] =>
    set (subjects := xs); set (grades := ys) end.
  match goal with |- context [bind (for_each subjects _) _ ?s] => set (st2 := s) end.
  destruct (collect_loop_counts rt env self (list_prod subjects grades) Hlog st2)
    as [st' [es [Hloop [L T]]]].
  rewrite <- (for_each_nested subjects grades
                (fun subject grade => collect_unit rt env self subject grade))
    in Hloop.
  erewrite bind_return by exact Hloop.
  unfold bind, get, print, ret. do 3 eexists. split; [reflexivity|].
  subst st2. cbn [db total_collected] in L, T. rewrite G1 in L.
  split; [exact L | exact T].
Qed.

Lemma total_is_sum_of_logged_counts_witness :
  exists total st' es,
    run_mathematics_3 two_item_env = (Return total, st')
    /\ scraping_log (db st') = scraping_log (db initial_state) ++ es
    /\ total = list_sum (map log_records_collected es).
Proof.
  assert (H : setup_sound two_item_env /\ log_sound two_item_env
              /\ search_page_parses two_item_env (new_collector None) 0).
  { split; [intros n op _; reflexivity|]. split; [intros n op _; reflexivity|].
    intros body E. injection E as <-. now eexists. }
  exact (total_is_sum_of_logged_counts ascii_runtime two_item_env
           (new_collector None) (Some [lit "Mathematics"]) (Some [lit "3"])
           initial_state (proj1 H) (proj1 (proj2 H)) (proj2 (proj2 H))).
Defined.

Lemma delays_for_all env self units :
  forall n,
    Forall (fun d => d = request_delay self) (delays_for env self n units)
    /\ length (delays_for env self n units) <= length units.
Proof.
  induction units as [|u units IH]; intros n; cbn [delays_for length].
  - split; [constructor | lia].
  - destruct (IH (S n)) as [Hall Hlen]. unfold unit_delays.
    destruct (http env n (unit_request self (fst u) (snd u))) as [body|msg].
    + destruct (as_html body); cbn [app length].
      * split; [now constructor | lia].
      * split; [exact Hall | lia].
    + cbn [app]. split; [exact Hall | lia].
Qed.

(** X9.  In a run whose start-up succeeds and whose log can be written,
    the delays are exactly one per unit whose page was fetched and parsed,
    in the order of the units, and none for a unit whose request failed or
    whose page the parser rejected; every delay lasts [request_delay], and
    there are never more delays than units. *)
Theorem delays_follow_fetched_pages (rt : Runtime) (env : Env)
    (self : CPALMSDataCollector) (focus_subjects focus_grades : option (list str))
    (st : State) :
  setup_sound env -> log_sound env ->
  search_page_parses env self (length (requests st)) ->
  exists ds,
    sleeps (snd (collect_all_standards rt env self focus_subjects focus_grades st))
      = sleeps st ++ ds
    /\ ds = delays_for env self (S (length (requests st)))
              (units_to_scrape env self (length (requests st))
                               focus_subjects focus_grades)
    /\ Forall (fun d => d = request_delay self) ds
    /\ length ds
       <= length (units_to_scrape env self (length (requests st))
                                  focus_subjects focus_grades).
Proof.
  intros Hsetup Hlog Hparse.
  destruct (collect_all_standards_logs rt env self focus_subjects focus_grades
              st Hsetup Hlog Hparse)
    as [total [st' [es [Hrun [_ [_ [Hsleeps _]]]]]]].
  rewrite Hrun. cbn [snd]. eexists. split; [exact Hsleeps|].
  split; [reflexivity | apply delays_for_all].
Qed.

Lemma delays_follow_fetched_pages_witness :
  exists ds,
    sleeps (snd (run_mathematics_3 failing_env)) = sleeps initial_state ++ ds
    /\ length ds <= 1.
Proof.
  destruct (delays_follow_fetched_pages ascii_runtime failing_env
              (new_collector None) (Some [lit "Mathematics"]) (Some [lit "3"])
              initial_state (proj1 failing_env_sound)
              (proj1 (proj2 failing_env_sound)) (proj2 (proj2 failing_env_sound)))
    as [ds [Hs [_ [_ Hlen]]]].
  exists ds. split; [exact Hs | exact Hlen].
Defined.

Section StartUpFacts.

Variable rt : Runtime.
Variable env : Env.
Variable self : CPALMSDataCollector.

Lemma setup_database_fails st msg :
  setup_fault env (db_calls st) = Some msg ->
  exists st',
    setup_database env st = (Raise (Sqlite3Error msg), st')
    /\ db st' = db st /\ requests st' = requests st.
Proof.
  unfold setup_fault, setup_database, bind, db_call, ret.
  cbn [db db_calls requests sleeps stdout total_collected].
  destruct (db_fault env (db_calls st) SetupConnect) as [m|].
  { intros E. injection E as ->. eexists. split; [reflexivity | now split]. }
  cbn [db db_calls requests sleeps stdout total_collected].
  destruct (db_fault env (S (db_calls st)) SetupCreateStandards) as [m|].
  { intros E. injection E as ->. eexists. split; [reflexivity | now split]. }
  cbn [db db_calls requests sleeps stdout total_collected].
  destruct (db_fault env (S (S (db_calls st))) SetupCreateLog) as [m|].
  { intros E. injection E as ->. eexists. split; [reflexivity | now split]. }
  cbn [db db_calls requests sleeps stdout total_collected].
  intros ->. eexists. split; [reflexivity | now split].
Qed.

End StartUpFacts.

(** X10.  How a run starts.  When [setup_database] fails, the run raises
    that failure before it has sent any request.  When the database is set
    up and the parser rejects the search page, the run raises the parser's
    exception and nothing is logged.  When the request for the search page
    fails, nothing is raised: the failure is printed, and a run without
    focus lists then has no unit, logs nothing and returns 0. *)
Theorem start_up_failures (rt : Runtime) (env : Env)
    (self : CPALMSDataCollector) (st : State) :
  (forall focus_subjects focus_grades msg,
     setup_fault env (db_calls st) = Some msg ->
     exists st',
       collect_all_standards rt env self focus_subjects focus_grades st
         = (Raise (Sqlite3Error msg), st')
       /\ db st' = db st /\ requests st' = requests st)
  /\
  (forall focus_subjects focus_grades body msg,
     setup_sound env ->
     http env (length (requests st)) (search_request self) = HttpOk body ->
     as_html body = Rejected msg ->
     exists st',
       collect_all_standards rt env self focus_subjects focus_grades st
         = (Raise (ParserRejectedMarkup msg), st')
       /\ db st' = db st /\ requests st' = requests st ++ [search_request self])
  /\
  (forall msg,
     setup_sound env ->
     http env (length (requests st)) (search_request self) = HttpError msg ->
     exists st',
       collect_all_standards rt env self None None st = (Return 0, st')
       /\ db st' = db st /\ requests st' = requests st ++ [search_request self]
       /\ In (MsgSubjectsError msg) (stdout st')).
Proof.
  split; [|split].
  - intros focus_subjects focus_grades msg Hfault. unfold collect_all_standards.
    unfold bind at 1, print at 1.
    match goal with |- context [bind (setup_database env) _ ?s] =>
      destruct (setup_database_fails env s msg Hfault) as [st' [Hrun [Hdb Hreq]]] end.
    erewrite bind_raise by exact Hrun. exists st'. now repeat split.
  - intros focus_subjects focus_grades body msg Hsetup H Hb.
    unfold collect_all_standards. unfold bind at 1, print at 1.
    erewrite bind_return by (apply setup_database_ok; exact Hsetup).
    unfold bind at 1, print at 1.
    unfold bind at 1, get_subjects_and_grades, try_except, bind at 1.
    unfold session_get, BeautifulSoup, bind.
    cbn [db db_calls requests sleeps stdout total_collected].
    fold (search_request self). rewrite H, Hb. cbn.
    eexists. split; [reflexivity | now split].
  - intros msg Hsetup H.
    unfold collect_all_standards. unfold bind at 1, print at 1.
    erewrite bind_return by (apply setup_database_ok; exact Hsetup).
    unfold bind at 1, print at 1.
    unfold bind at 1, get_subjects_and_grades, try_except, bind at 1.
    unfold session_get.
    cbn [db db_calls requests sleeps stdout total_collected].
    fold (search_request self). rewrite H. cbn.
    eexists. split; [reflexivity|]. split; [reflexivity|]. split; [reflexivity|].
    cbn [stdout]. rewrite !in_app_iff. cbn [In]. tauto.
Qed.

Lemma start_up_failures_witness :
  exists st',
    collect_all_standards ascii_runtime rejecting_env (new_collector None)
      None None initial_state
    = (Raise (ParserRejectedMarkup (lit "expected name token")), st')
    /\ db st' = db initial_state.
Proof.
  destruct (proj1 (proj2 (start_up_failures ascii_runtime rejecting_env
                            (new_collector None) initial_state))
                  None None _ (lit "expected name token")
                  (fun n op _ => eq_refl) eq_refl eq_refl)
    as [st' [Hrun [Hdb _]]].
  exists st'. split; [exact Hrun | exact Hdb].
Defined.

(** X11.  An empty focus list counts as none given: when the search page
    loads, a run called with no subjects or with the empty list of
    subjects, and likewise for grades, goes through all 12 known subjects
    and all 13 known grades, and so (start-up and log working) appends 156
    entries, subjects outermost. *)
Theorem empty_focus_list_means_all (rt : Runtime) (env : Env)
    (self : CPALMSDataCollector) (focus_subjects focus_grades : option (list str))
    (st : State) (body : Body) :
  focus_subjects = None \/ focus_subjects = Some [] ->
  focus_grades = None \/ focus_grades = Some [] ->
  setup_sound env -> log_sound env ->
  search_page_parses env self (length (requests st)) ->
  http env (length (requests st)) (search_request self) = HttpOk body ->
  exists total st' es,
    collect_all_standards rt env self focus_subjects focus_grades st
      = (Return total, st')
    /\ scraping_log (db st') = scraping_log (db st) ++ es
    /\ map log_unit es = list_prod known_subjects known_grades
    /\ length es = 156.
Proof.
  intros Hs Hg Hsetup Hlog Hparse H.
  destruct (collect_all_standards_logs rt env self focus_subjects focus_grades
              st Hsetup Hlog Hparse)
    as [total [st' [es [Hrun [L1 [L2 _]]]]]].
  exists total, st', es. split; [exact Hrun|]. split; [exact L1|].
  apply entries_for_units in L2.
  assert (Hunits : units_to_scrape env self (length (requests st))
                     focus_subjects focus_grades
                   = list_prod known_subjects known_grades).
  { unfold units_to_scrape, available. fold (search_request self). rewrite H.
    destruct Hs as [-> | ->], Hg as [-> | ->]; reflexivity. }
  rewrite Hunits in L2. split; [exact L2|].
  rewrite <- (length_map log_unit), L2, length_prod. reflexivity.
Qed.

Lemma empty_focus_list_means_all_witness :
  exists total st' es,
    collect_all_standards ascii_runtime quiet_env (new_collector None)
      (Some []) None initial_state = (Return total, st')
    /\ scraping_log (db st') = scraping_log (db initial_state) ++ es
    /\ length es = 156.
Proof.
  destruct (empty_focus_list_means_all ascii_runtime quiet_env (new_collector None)
              (Some []) None initial_state empty_page
              (or_intror eq_refl) (or_introl eq_refl)
              (proj1 quiet_env_sound) (proj1 (proj2 quiet_env_sound))
              (proj2 (proj2 quiet_env_sound)) eq_refl)
    as [total [st' [es [Hrun [Hlog [_ Hlen]]]]]].
  exists total, st', es. split; [exact Hrun|]. split; [exact Hlog | exact Hlen].
Defined.

(* ================================================================== *)
(** ** What the API collector does and never does *)

Lemma is_prefix_spec (p s : str) :
  is_prefix p s = true <-> exists post, s = p ++ post.
Proof.
  revert s. induction p as [|a p IH]; intros s; simpl.
  - split; [intros _; now exists s | reflexivity].
  - destruct s as [|b s].
    + split; [discriminate | intros [post E]; discriminate E].
    + rewrite andb_true_iff, N.eqb_eq, IH. split.
      * intros [-> [post ->]]. now exists post.
      * intros [post E]. injection E as -> ->. split; [reflexivity | now exists post].
Qed.

(** [p in s] holds exactly when [p] occurs in [s]. *)
Lemma contains_spec (p s : str) :
  contains p s = true <-> exists pre post, s = pre ++ p ++ post.
Proof.
  induction s as [|b s IH]; simpl.
  - rewrite orb_false_r, is_prefix_spec. split.
    + intros [post E]. now exists [], post.
    + intros [pre [post E]]. destruct pre; [now exists post|discriminate E].
  - rewrite orb_true_iff, is_prefix_spec, IH. split.
    + intros [[post E]|[pre [post E]]].
      * now exists [], post.
      * exists (b :: pre), post. simpl. now rewrite E.
    + intros [[|c pre] [post E]].
      * left. now exists post.
      * right. injection E as -> E. now exists pre, post.
Qed.

Section ApiMore.

Variable env : Env.
Variable self : CPALMSAPICollector.

Lemma parse_case_competencies_returns competencies st parsed st' :
  parse_case_competencies competencies st = (Return parsed, st') ->
  parsed = [].
Proof.
  unfold parse_case_competencies.
  destruct (match CFItems competencies with Some l => l | None => [] end)
    as [|item rest]; simpl; intros H; [now injection H as <- _ | discriminate H].
Qed.

Lemma parse_case_competencies_item competencies item rest st :
  CFItems competencies = Some (item :: rest) ->
  parse_case_competencies competencies st
  = (Raise (AttributeError
       (lit "'CPALMSAPICollector' object has no attribute 'extract_keywords'")),
     st).
Proof. unfold parse_case_competencies. now intros ->. Qed.

(** The loop over the documents never adds a record. *)
Lemma fetch_documents_returns docs :
  forall standards st r st',
    fetch_documents env self docs standards st = (Return r, st') ->
    r = standards.
Proof.
  induction docs as [|doc rest IH]; intros standards st r st';
    cbn [fetch_documents].
  - intros H. now injection H as <- _.
  - destruct (contains (lit "Florida") (or_empty (doc_title doc))); [|apply IH].
    intros H. apply bind_return_inv in H. destruct H as [i [st1 [_ H]]].
    apply bind_return_inv in H. destruct H as [body [st2 [_ H]]].
    apply bind_return_inv in H. destruct H as [parsed [st3 [Hp H]]].
    apply parse_case_competencies_returns in Hp. subst parsed.
    rewrite app_nil_r in H. exact (IH _ _ _ _ H).
Qed.

(** It asks only for the items of documents that match. *)
Lemma fetch_documents_requests docs :
  forall standards st,
  exists sent,
    requests (snd (fetch_documents env self docs standards st))
      = requests st ++ sent
    /\ Forall (fun req =>
                 exists doc i, In doc docs /\ matches_florida doc = true
                               /\ doc_identifier doc = Some i
                               /\ req = mkRequest (items_url self i) [])
              sent.
Proof.
  induction docs as [|doc rest IH]; intros standards st; cbn [fetch_documents].
  - exists []. rewrite app_nil_r. split; [reflexivity | constructor].
  - assert (Hweak : forall sent,
              Forall (fun req =>
                 exists doc0 i, In doc0 rest /\ matches_florida doc0 = true
                                /\ doc_identifier doc0 = Some i
                                /\ req = mkRequest (items_url self i) []) sent ->
              Forall (fun req =>
                 exists doc0 i, In doc0 (doc :: rest) /\ matches_florida doc0 = true
                                /\ doc_identifier doc0 = Some i
                                /\ req = mkRequest (items_url self i) []) sent).
    { intros sent. apply Forall_impl. intros req [doc0 [i [Hin H]]].
      exists doc0, i. split; [now right | exact H]. }
    destruct (contains (lit "Florida") (or_empty (doc_title doc))) eqn:M.
    2:{ destruct (IH standards st) as [sent [Hreq Hall]].
        exists sent. split; [exact Hreq | now apply Hweak]. }
    destruct (doc_identifier doc) as [identifier|] eqn:I.
    2:{ exists []. cbn. rewrite app_nil_r. split; [reflexivity | constructor]. }
    unfold bind at 1, ret at 1. unfold bind at 1, session_get at 1.
    set (req0 := mkRequest (items_url self identifier) []).
    assert (Hreq0 : exists doc0 i, In doc0 (doc :: rest) /\ matches_florida doc0 = true
                      /\ doc_identifier doc0 = Some i
                      /\ req0 = mkRequest (items_url self i) []).
    { exists doc, identifier. split; [now left|]. now repeat split. }
    destruct (http env (length (requests st)) req0) as [body|msg].
    + set (st1 := mkState _ _ _ _ _ _).
      destruct (parse_case_competencies_run (as_json body) st1) as [r1 [Hp _]].
      unfold bind at 1. rewrite Hp. destruct r1 as [parsed|e].
      * destruct (IH (standards ++ parsed) st1) as [sent [Hreq Hall]].
        exists (req0 :: sent). cbn [requests st1] in Hreq.
        split; [rewrite Hreq, <- app_assoc; reflexivity|].
        constructor; [exact Hreq0 | now apply Hweak].
      * exists [req0]. split; [reflexivity|]. constructor; [exact Hreq0 | constructor].
    + exists [req0]. split; [reflexivity|]. constructor; [exact Hreq0 | constructor].
Qed.

End ApiMore.

(** X12.  [get_standards_via_api] never returns a record: whenever it
    returns, it returns the empty list.  (A list of items that is not
    empty makes [parse_case_competencies] raise, because the class has no
    [extract_keywords].) *)
Theorem api_never_returns_a_record (env : Env) (self : CPALMSAPICollector)
    (st : State) (standards : list Standard) (st' : State) :
  get_standards_via_api env self st = (Return standards, st') ->
  standards = [].
Proof.
  unfold get_standards_via_api, try_except.
  destruct (bind (session_get env _) _ st) as [[r|e] st1] eqn:E.
  - intros H. injection H as <- _.
    apply bind_return_inv in E. destruct E as [body [st2 [_ E]]].
    exact (fetch_documents_returns env self _ _ _ _ _ E).
  - destruct (is_request_exception e); [|discriminate].
    unfold bind, print, ret. intros H. now injection H as <- _.
Qed.

Lemma api_never_returns_a_record_witness :
  exists standards st',
    api_run api_ok_env = (Return standards, st') /\ standards = [].
Proof.
  assert (E : api_run api_ok_env = (Return [], snd (api_run api_ok_env)))
    by (vm_compute; reflexivity).
  exists [], (snd (api_run api_ok_env)). split; [exact E|].
  exact (api_never_returns_a_record api_ok_env (new_api_collector (lit "key"))
           initial_state [] _ E).
Defined.

(** X13.  Apart from the request for the list of documents, the API
    collector asks only for the items of documents of that list whose
    title has 'Florida' in it, letter for letter, and that have an
    identifier. *)
Theorem api_requests_only_matching_documents (env : Env)
    (self : CPALMSAPICollector) (st : State) :
  exists sent,
    requests (snd (get_standards_via_api env self st))
      = requests st ++ documents_request self :: sent
    /\ forall body req,
         http env (length (requests st)) (documents_request self) = HttpOk body ->
         In req sent ->
         exists doc i pre post,
           In doc (documents_of body)
           /\ doc_title doc = Some (pre ++ lit "Florida" ++ post)
           /\ doc_identifier doc = Some i
           /\ req = mkRequest (items_url self i) [].
Proof.
  unfold get_standards_via_api, try_except.
  unfold bind at 1, session_get at 1. fold (documents_request self).
  destruct (http env (length (requests st)) (documents_request self))
    as [body0|msg0].
  - set (st1 := mkState _ _ _ _ _ _).
    match goal with |- context [fetch_documents env self ?docs ?acc st1] =>
      destruct (fetch_documents_requests env self docs acc st1)
        as [sent [Hreq Hall]];
      destruct (fetch_documents env self docs acc st1) as [[r|e] st2] end;
      cbn [snd requests st1] in Hreq.
    + exists sent. split; [cbn [snd]; rewrite Hreq, <- app_assoc; reflexivity|].
      intros body req E Hin. injection E as <-.
      rewrite Forall_forall in Hall.
      destruct (Hall req Hin) as [doc [i [Hdoc [Hm [Hi Hr]]]]].
      unfold matches_florida in Hm. apply contains_spec in Hm.
      destruct Hm as [pre [post Hm]].
      destruct (doc_title doc) as [t|] eqn:T.
      * exists doc, i, pre, post. cbn [or_empty] in Hm. subst t. now repeat split.
      * cbn [or_empty] in Hm. destruct pre; discriminate Hm.
    + exists sent. split.
      { destruct (is_request_exception e); cbn;
          rewrite Hreq, <- app_assoc; reflexivity. }
      intros body req E Hin. injection E as <-.
      rewrite Forall_forall in Hall.
      destruct (Hall req Hin) as [doc [i [Hdoc [Hm [Hi Hr]]]]].
      unfold matches_florida in Hm. apply contains_spec in Hm.
      destruct Hm as [pre [post Hm]].
      destruct (doc_title doc) as [t|] eqn:T.
      * exists doc, i, pre, post. cbn [or_empty] in Hm. subst t. now repeat split.
      * cbn [or_empty] in Hm. destruct pre; discriminate Hm.
  - exists []. split; [reflexivity|]. intros body req E. discriminate E.
Qed.

Lemma api_requests_only_matching_documents_witness :
  exists doc,
    In doc (documents_of (mkBody (Soup []) florida_documents))
    /\ doc_identifier doc = Some (lit "d1").
Proof.
  destruct (api_requests_only_matching_documents api_ok_env
              (new_api_collector (lit "key")) initial_state)
    as [sent [Hreq Hsent]].
  set (r1 := mkRequest (items_url (new_api_collector (lit "key")) (lit "d1")) []).
  set (r2 := mkRequest (items_url (new_api_collector (lit "key")) (lit "d2")) []).
  assert (E : requests (snd (api_run api_ok_env))
              = [documents_request (new_api_collector (lit "key")); r1; r2])
    by (vm_compute; reflexivity).
  unfold api_run in E. rewrite Hreq in E.
  cbn [requests initial_state app] in E. injection E as E.
  destruct (Hsent (mkBody (Soup []) florida_documents) r1 eq_refl)
    as [doc [i [pre [post [Hin [_ [Hi Hr]]]]]]].
  { rewrite E. now left. }
  exists doc. split; [exact Hin|].
  assert (Ei : i = lit "d1").
  { unfold r1, items_url in Hr. injection Hr as Hr.
    change (lit "d1" ++ lit "/CFItems" = i ++ lit "/CFItems") in Hr.
    apply app_inv_tail in Hr. now symmetry. }
  now rewrite Hi, Ei.
Defined.

Section ApiErrors.

Variable env : Env.
Variable self : CPALMSAPICollector.

Lemma fetch_documents_skip skipped :
  Forall (fun d => matches_florida d = false) skipped ->
  forall docs standards st,
    fetch_documents env self (skipped ++ docs) standards st
    = fetch_documents env self docs standards st.
Proof.
  induction 1 as [|d skipped Hd _ IH]; intros docs standards st; [reflexivity|].
  cbn [app fetch_documents]. unfold matches_florida in Hd. rewrite Hd. apply IH.
Qed.

End ApiErrors.

(** X14.  Exceptions that are no request exceptions leave
    [get_standards_via_api]: when the first document that matches has no
    identifier, the caller gets a [KeyError]; when its items load and
    there is at least one, the caller gets the [AttributeError] of
    [parse_case_competencies]. *)
Theorem api_other_errors_escape (env : Env) (self : CPALMSAPICollector)
    (st : State) (body : Body) (skipped : list CFDocument) (doc : CFDocument)
    (rest : list CFDocument) :
  http env (length (requests st)) (documents_request self) = HttpOk body ->
  documents_of body = skipped ++ doc :: rest ->
  Forall (fun d => matches_florida d = false) skipped ->
  matches_florida doc = true ->
  (doc_identifier doc = None ->
   fst (get_standards_via_api env self st) = Raise (KeyError (lit "'identifier'")))
  /\
  (forall i body1 item items,
     doc_identifier doc = Some i ->
     http env (S (length (requests st))) (mkRequest (items_url self i) [])
       = HttpOk body1 ->
     CFItems (as_json body1) = Some (item :: items) ->
     fst (get_standards_via_api env self st)
     = Raise (AttributeError
         (lit "'CPALMSAPICollector' object has no attribute 'extract_keywords'"))).
Proof.
  intros H Hdocs Hskip Hm.
  assert (Hstart : forall r st',
            fetch_documents env self (doc :: rest) []
              (mkState (db st) (db_calls st)
                       (requests st ++ [documents_request self]) (sleeps st)
                       (stdout st) (total_collected st)) = (Raise r, st') ->
            is_request_exception r = false ->
            fst (get_standards_via_api env self st) = Raise r).
  { intros r st' Hrun Hr.
    unfold get_standards_via_api, try_except.
    unfold bind at 1, session_get at 1. fold (documents_request self).
    rewrite H. fold (documents_of body). rewrite Hdocs.
    rewrite fetch_documents_skip by exact Hskip.
    rewrite Hrun, Hr. reflexivity. }
  unfold matches_florida in Hm. split.
  - intros Hi. eapply Hstart; [|reflexivity].
    cbn [fetch_documents]. rewrite Hm, Hi. unfold bind, raise. reflexivity.
  - intros i body1 item items Hi H1 Hitems. eapply Hstart; [|reflexivity].
    cbn [fetch_documents]. rewrite Hm, Hi.
    unfold bind at 1, ret at 1. unfold bind at 1, session_get at 1.
    cbn [requests]. rewrite length_app. cbn [length].
    replace (length (requests st) + 1) with (S (length (requests st))) by lia.
    rewrite H1. unfold bind at 1.
    erewrite parse_case_competencies_item by exact Hitems. reflexivity.
Qed.

Lemma api_other_errors_escape_witness :
  fst (api_run api_item_env)
  = Raise (AttributeError
      (lit "'CPALMSAPICollector' object has no attribute 'extract_keywords'")).
Proof.
  refine (proj2 (api_other_errors_escape api_item_env (new_api_collector (lit "key"))
                   initial_state (mkBody (Soup []) florida_documents) []
                   (mkCFDocument (Some (lit "Florida Mathematics")) (Some (lit "d1")))
                   [mkCFDocument (Some (lit "Florida Science")) (Some (lit "d2"))]
                   eq_refl eq_refl (Forall_nil _) eq_refl)
                (lit "d1") _ _ _ eq_refl eq_refl eq_refl).
Defined.

(** X15.  The subject of a CASE item is the title of its document up to
    the first space: it holds no space, the title starts with it, and what
    follows in the title, if anything, starts with a space; an item
    without a document title has the empty subject.  The grade of an item
    is its first education level, and empty when it has none. *)
Theorem case_subject_and_grade (item : CFItem) :
  (Forall (fun c => c <> 32%N) (extract_subject item)
   /\ exists rest,
        match CFDocumentURI_title item with
        | Some (Some t) => t
        | _ => []
        end = extract_subject item ++ rest
        /\ (rest = [] \/ hd_error rest = Some 32%N))
  /\
  (forall level levels,
     educationLevel item = Some (level :: levels) -> extract_grade item = level)
  /\
  (educationLevel item = None \/ educationLevel item = Some [] ->
   extract_grade item = []).
Proof.
  split; [|split].
  - unfold extract_subject.
    set (t := match CFDocumentURI_title item with Some t0 => or_empty t0 | None => [] end).
    assert (Et : match CFDocumentURI_title item with
                 | Some (Some t0) => t0
                 | _ => []
                 end = t).
    { unfold t. destruct (CFDocumentURI_title item) as [[t0|]|]; reflexivity. }
    rewrite Et. clearbody t. clear Et. split.
    + pose proof (take_while_all (fun c => negb (c =? 32)%N) t) as H.
      eapply Forall_impl; [|exact H]. cbv beta. intros c Hc E. subst c.
      discriminate Hc.
    + induction t as [|c t IH]; cbn [take_while].
      * exists []. split; [reflexivity | now left].
      * destruct (c =? 32)%N eqn:E; cbn [negb].
        -- exists (c :: t). split; [reflexivity|]. right.
           apply N.eqb_eq in E. now subst c.
        -- destruct IH as [rest [Hr Hs]]. exists rest.
           split; [cbn [app]; now rewrite <- Hr | exact Hs].
  - intros level levels H. unfold extract_grade. now rewrite H.
  - intros [H|H]; unfold extract_grade; now rewrite H.
Qed.

Lemma case_subject_and_grade_witness :
  extract_grade (mkCFItem None None None (Some (Some (lit "Mathematics Florida")))
                          (Some [lit "03"; lit "04"])) = lit "03".
Proof.
  exact (proj1 (proj2 (case_subject_and_grade
                         (mkCFItem None None None
                                   (Some (Some (lit "Mathematics Florida")))
                                   (Some [lit "03"; lit "04"]))))
               (lit "03") [lit "04"] eq_refl).
Defined.

(* ================================================================== *)
(** ** What the log says about a unit, and what a batch leaves *)

(** X16.  In a run whose start-up succeeds and whose log can be written,
    the entry of a unit tells how its fetch went: "error" with the
    parser's message and 0 records when the parser rejected the page,
    "no_data" with 0 records when the page has no valid element, and,
    when saving works, "success" with the number of valid elements of the
    page and an empty note otherwise. *)
Theorem log_entry_tells_the_outcome (rt : Runtime) (env : Env)
    (self : CPALMSDataCollector) (focus_subjects focus_grades : option (list str))
    (st : State) :
  setup_sound env -> log_sound env ->
  search_page_parses env self (length (requests st)) ->
  exists total st' es,
    collect_all_standards rt env self focus_subjects focus_grades st
      = (Return total, st')
    /\ scraping_log (db st') = scraping_log (db st) ++ es
    /\ forall i s g body,
         nth_error (units_to_scrape env self (length (requests st))
                                    focus_subjects focus_grades) i = Some (s, g) ->
         http env (S (length (requests st)) + i) (unit_request self s g)
           = HttpOk body ->
         exists e,
           nth_error es i = Some e
           /\ match as_html body with
              | Rejected msg =>
                  log_status e = lit "error" /\ log_records_collected e = 0
                  /\ log_notes e = msg
              | Soup items =>
                  match filter (valid rt self) items with
                  | [] =>
                      log_status e = lit "no_data" /\ log_records_collected e = 0
                  | found =>
                      save_sound env ->
                      log_status e = lit "success"
                      /\ log_records_collected e = length found
                      /\ log_notes e = []
                  end
              end.
Proof.
  intros Hsetup Hlog Hparse.
  destruct (collect_all_standards_logs rt env self focus_subjects focus_grades
              st Hsetup Hlog Hparse)
    as [total [st' [es [Hrun [L1 [L2 _]]]]]].
  exists total, st', es. split; [exact Hrun|]. split; [exact L1|].
  intros i s g body Hi Hhttp.
  destruct (entries_for_nth _ _ _ _ _ _ _ _ L2 Hi) as [e [He [_ Hentry]]].
  exists e. split; [exact He|]. cbn [fst snd] in Hentry. rewrite Hhttp in Hentry.
  destruct (as_html body) as [items|msg]; [|exact Hentry].
  destruct (filter (valid rt self) items) as [|v found]; [tauto|].
  intros Hsave. destruct Hentry as [H|[_ [_ [k [op [Hop Hfault]]]]]]; [exact H|].
  rewrite (Hsave k op Hop) in Hfault. discriminate Hfault.
Qed.

Lemma log_entry_tells_the_outcome_witness :
  exists e,
    nth_error (scraping_log (db (snd (run_mathematics_3 two_item_env)))) 0 = Some e
    /\ log_status e = lit "success" /\ log_records_collected e = 1.
Proof.
  assert (H : setup_sound two_item_env /\ log_sound two_item_env
              /\ search_page_parses two_item_env (new_collector None) 0
              /\ save_sound two_item_env).
  { split; [intros n op _; reflexivity|]. split; [intros n op _; reflexivity|].
    split; [|intros n op _; reflexivity].
    intros body E. injection E as <-. now eexists. }
  destruct H as [H1 [H2 [H3 H4]]].
  destruct (log_entry_tells_the_outcome ascii_runtime two_item_env
              (new_collector None) (Some [lit "Mathematics"]) (Some [lit "3"])
              initial_state H1 H2 H3)
    as [total [st' [es [Hrun [Hlog Hentry]]]]].
  destruct (Hentry 0 (lit "Mathematics") (lit "3") _ eq_refl eq_refl)
    as [e [He Hout]].
  exists e. unfold run_mathematics_3. rewrite Hrun. cbn [snd]. rewrite Hlog.
  split; [exact He|].
  destruct (Hout H4) as [Hs [Hn _]]. split; [exact Hs | exact Hn].
Defined.

Section BatchFacts.

Variable env : Env.

Lemma upsert_all_app l1 l2 :
  forall work st,
    upsert_all env (l1 ++ l2) work st
    = bind (upsert_all env l1 work) (fun w => upsert_all env l2 w) st.
Proof.
  induction l1 as [|s0 l1 IH]; intros work st; cbn [app upsert_all].
  - reflexivity.
  - set (t := try_except _ _ _). unfold bind.
    destruct (t st) as [[w|e] st1]; [|reflexivity].
    rewrite IH. reflexivity.
Qed.

(** In a batch whose calls all succeed, the last record with a key is
    the row under that key. *)
Lemma upsert_all_last_of_key pre standard post :
  (forall n, db_fault env n SaveUpsert = None) ->
  ~ In (standard_id standard) (map standard_id post) ->
  forall work st,
  exists work' st' id now,
    upsert_all env (pre ++ standard :: post) work st = (Return work', st')
    /\ rows_with_key (standard_id standard) work' =
       [mkStandardRow id
          (Some (standard_id standard)) (Some (lit "FL"))
          (Some (subject standard)) (Some (grade standard)) None None
          (Some (title standard)) (Some (description standard)) None
          (Some (keywords standard)) (url standard) (Some now)].
Proof.
  intros Hok Hnot work st.
  change (pre ++ standard :: post) with (pre ++ [standard] ++ post).
  rewrite app_assoc, upsert_all_app.
  destruct (upsert_all_last env pre Hok standard work st)
    as [w1 [st1 [id [now [Hrun [Hrows _]]]]]].
  erewrite bind_return by exact Hrun.
  destruct (upsert_all_returns env post w1 st1) as [w2 [st2 [Hrun2 _]]].
  exists w2, st2, id, now. split; [exact Hrun2|].
  rewrite (upsert_all_others env _ post Hnot _ _ _ _ Hrun2). exact Hrows.
Qed.

End BatchFacts.

(** X17.  Within one batch the last write wins as well: when the
    database calls of a save succeed, each key of the batch has exactly
    one row afterwards, and that row holds the values of the last record
    of the batch with that key, with NULL or the default in the columns
    the statement does not name. *)
Theorem batch_last_write_wins (env : Env) (pre : list Standard)
    (standard : Standard) (post : list Standard) (st : State) :
  save_sound env ->
  ~ In (standard_id standard) (map standard_id post) ->
  exists st' row,
    save_standards_to_db env (pre ++ standard :: post) st = (Return tt, st')
    /\ rows_with_key (standard_id standard) (db st') = [row]
    /\ row_subject row = Some (subject standard)
    /\ row_grade row = Some (grade standard)
    /\ row_title row = Some (title standard)
    /\ row_description row = Some (description standard)
    /\ row_keywords row = Some (keywords standard)
    /\ row_url row = url standard
    /\ row_state row = Some (lit "FL")
    /\ row_domain row = None /\ row_cluster row = None
    /\ row_clarifications row = None.
Proof.
  intros Hok Hnot. unfold save_standards_to_db.
  destruct (pre ++ standard :: post) as [|s0 rest] eqn:E.
  { now destruct pre. }
  rewrite <- E. clear E s0 rest.
  unfold bind at 1, db_call at 1. rewrite (Hok _ SaveConnect eq_refl).
  unfold bind at 1, get. unfold bind at 1.
  match goal with |- context [upsert_all env _ ?wk ?s] =>
    destruct (upsert_all_last_of_key env pre standard post
                (fun n => Hok n SaveUpsert eq_refl) Hnot wk s)
      as [w [st1 [id [now [Hrun Hrows]]]]] end.
  rewrite Hrun. unfold bind, db_call, set_db. rewrite (Hok _ SaveCommit eq_refl).
  do 2 eexists. split; [reflexivity|]. cbn [db]. split; [exact Hrows|].
  repeat split.
Qed.

Lemma batch_last_write_wins_witness :
  exists st' row,
    save_standards_to_db quiet_env [first_record; second_record; first_record]
      (mkState curated_db 0 [] [] [] 0) = (Return tt, st')
    /\ rows_with_key (lit "MA.3.NSO.1.1") (db st') = [row]
    /\ row_title row = Some (lit "old title").
Proof.
  destruct (batch_last_write_wins quiet_env [first_record; second_record]
              first_record [] (mkState curated_db 0 [] [] [] 0)
              quiet_env_save_sound (fun H => H))
    as [st' [row [Hrun [Hrows [_ [_ [Ht _]]]]]]].
  exists st', row. split; [exact Hrun|]. split; [exact Hrows | exact Ht].
Defined.

(* ================================================================== *)
(** ** The requests of a run *)

Lemma sends_ret {A} (a : A) : sends [] (ret a).
Proof. intros st. cbn. now rewrite app_nil_r. Qed.

Lemma sends_print m : sends [] (print m).
Proof. intros st. cbn. now rewrite app_nil_r. Qed.

Lemma sends_get {A} (f : State -> A) : sends [] (get f).
Proof. intros st. cbn. now rewrite app_nil_r. Qed.

Lemma sends_set_total n : sends [] (set_total n).
Proof. intros st. cbn. now rewrite app_nil_r. Qed.

(** A step followed by steps that send nothing sends what the step
    sends, whether it raises or not. *)
Lemma sends_bind {A B} rs (m : M A) (k : A -> M B) :
  sends rs m -> (forall a, sends [] (k a)) -> sends rs (bind m k).
Proof.
  intros Hm Hk st. unfold bind. specialize (Hm st).
  destruct (m st) as [[a|e] st1]; cbn [snd] in *; [|exact Hm].
  now rewrite (Hk a st1), app_nil_r.
Qed.

(** A step that always returns and sends nothing does not change what
    follows it. *)
Lemma sends_after {A B} rs (m : M A) (k : A -> M B) :
  sends [] m -> (forall st, exists a st', m st = (Return a, st')) ->
  (forall a, sends rs (k a)) -> sends rs (bind m k).
Proof.
  intros Hm Hret Hk st. unfold bind. specialize (Hm st).
  destruct (Hret st) as [a [st1 E]]. rewrite E in *. cbn [snd] in Hm.
  now rewrite (Hk a st1), Hm, app_nil_r.
Qed.

Lemma sends_try {A} rs (body : M A) class handler :
  sends rs body -> (forall e, sends [] (handler e)) ->
  sends rs (try_except body class handler).
Proof.
  intros Hb Hh st. unfold try_except. specialize (Hb st).
  destruct (body st) as [[a|e] st1]; cbn [snd] in *; [exact Hb|].
  destruct (class e); [|exact Hb].
  now rewrite (Hh e st1), app_nil_r.
Qed.

Section Requests.

Variable rt : Runtime.
Variable env : Env.
Variable self : CPALMSDataCollector.

Lemma sends_save standards : sends [] (save_standards_to_db env standards).
Proof.
  intros st.
  destruct (save_standards_to_db_frame env standards st)
    as [r [st' [Hrun [_ [_ [H _]]]]]].
  rewrite Hrun. cbn [snd]. now rewrite app_nil_r.
Qed.

Lemma sends_log subject grade status n notes :
  sends [] (log_scraping_activity env subject grade status n notes).
Proof.
  intros st. rewrite app_nil_r.
  destruct (log_scraping_activity_cases env subject grade status n notes st)
    as [[now [st' [Hrun [_ [H _]]]]]|[msg [k [op [st' [Hrun [_ [_ [_ [H _]]]]]]]]]];
    rewrite Hrun; exact H.
Qed.

Lemma sends_setup : sends [] (setup_database env).
Proof. intros st. rewrite app_nil_r. apply setup_database_frame. Qed.

Lemma sends_scrape subject grade :
  sends [unit_request self subject grade]
        (scrape_standards_by_subject_grade rt env self subject grade).
Proof.
  intros st.
  destruct (scrape_frame rt env self subject grade st)
    as [r [st' [Hrun [_ [_ [H _]]]]]].
  rewrite Hrun. exact H.
Qed.

(** One pass of the inner loop sends the request of its unit and no
    other, whatever fails. *)
Lemma sends_collect_unit subject grade :
  sends [unit_request self subject grade] (collect_unit rt env self subject grade).
Proof.
  unfold collect_unit.
  apply sends_after; [apply sends_print | intros st; now do 2 eexists |].
  intros _. apply sends_try.
  - unfold collect_unit_try. apply sends_bind; [apply sends_scrape|].
    intros [|s0 rest].
    + apply sends_bind; [apply sends_print | intros _; apply sends_log].
    + apply sends_bind; [apply sends_save|]. intros _.
      apply sends_bind; [apply sends_get|]. intros total.
      apply sends_bind; [apply sends_set_total|]. intros _.
      apply sends_bind; [apply sends_print | intros _; apply sends_log].
  - intros e. unfold collect_unit_except.
    apply sends_bind; [apply sends_print | intros _; apply sends_log].
Qed.

Lemma sends_get_subjects_and_grades :
  sends [search_request self] (get_subjects_and_grades env self).
Proof.
  unfold get_subjects_and_grades. apply sends_try.
  - apply sends_bind.
    + intros st. unfold session_get, search_request.
      now destruct (http env _ _).
    + intros body. apply sends_bind; [|intros _; apply sends_ret].
      intros st. unfold BeautifulSoup. rewrite app_nil_r.
      now destruct (as_html body).
  - intros e. apply sends_bind; [apply sends_print | intros _; apply sends_ret].
Qed.

(** A loop whose passes send one request each has sent the requests of
    the passes it started, in order; all of them when it returns. *)
Lemma for_each_sends {X} (body : X -> M unit) (req : X -> Request) :
  (forall x, sends [req x] (body x)) ->
  forall l st,
  exists k,
    k <= length l
    /\ requests (snd (for_each l body st)) = requests st ++ map req (firstn k l)
    /\ (forall st', for_each l body st = (Return tt, st') -> k = length l).
Proof.
  intros Hbody. induction l as [|x rest IH]; intros st; cbn [for_each].
  - exists 0. cbn. rewrite app_nil_r. now repeat split.
  - unfold bind. specialize (Hbody x st).
    destruct (body x st) as [[[]|e] st1]; cbn [snd] in Hbody.
    + destruct (IH st1) as [k [Hk [Hreq Hret]]].
      exists (S k). cbn [length firstn map]. split; [lia|]. split.
      * rewrite Hreq, Hbody, <- app_assoc. reflexivity.
      * intros st' H. now rewrite (Hret st' H).
    + exists 1. cbn [length firstn map snd]. split; [lia|].
      split; [now destruct rest | intros st' H; discriminate H].
Qed.

End Requests.

(** X18.  Whatever fails, a run sends no request but the planned ones, in
    their order and each at most once: first the search page, then the
    request of each unit in the order of the loops.  A run that returns
    has sent all of them. *)
Theorem requests_follow_the_plan (rt : Runtime) (env : Env)
    (self : CPALMSDataCollector) (focus_subjects focus_grades : option (list str))
    (st : State) :
  let run := collect_all_standards rt env self focus_subjects focus_grades st in
  let plan := planned_requests env self (length (requests st))
                               focus_subjects focus_grades in
  exists k,
    requests (snd run) = requests st ++ firstn k plan
    /\ (forall total, fst run = Return total -> k = length plan).
Proof.
  cbv zeta.
  destruct (collect_all_standards rt env self focus_subjects focus_grades st)
    as [r st'] eqn:Hrun.
  cbn [fst snd]. revert Hrun. unfold collect_all_standards.
  unfold bind at 1, print at 1. set (st0 := mkState _ _ _ _ _ _).
  unfold bind at 1.
  pose proof (sends_setup env st0) as Hsetup.
  destruct (setup_database env st0) as [[[]|e] st1]; cbn [snd] in Hsetup;
    rewrite app_nil_r in Hsetup; cbn [st0 requests] in Hsetup.
  2:{ intros H. injection H as <- <-. exists 0. cbn [firstn].
      rewrite app_nil_r.
      split; [exact Hsetup | intros total H; discriminate H]. }
  unfold bind at 1, print at 1. set (st2 := mkState _ _ _ _ _ _).
  assert (R2 : requests st2 = requests st) by exact Hsetup.
  unfold bind at 1.
  pose proof (sends_get_subjects_and_grades env self st2) as Hget.
  destruct (get_subjects_and_grades env self st2) as [[av|e] st3] eqn:Eget;
    cbn [snd] in Hget; rewrite R2 in Hget.
  2:{ intros H. injection H as <- <-. exists 1. unfold planned_requests.
      cbn [firstn].
      split; [exact Hget | intros total H; discriminate H]. }
  apply get_subjects_and_grades_returns in Eget. destruct Eget as [-> _].
  rewrite R2. unfold bind at 1, print at 1. set (st4 := mkState _ _ _ _ _ _).
  unfold bind at 1, set_total at 1. set (st5 := mkState _ _ _ _ _ _).
  assert (R5 : requests st5 = requests st ++ [search_request self]) by exact Hget.
  unfold collect_units. unfold bind at 1. rewrite for_each_nested.
  destruct (for_each_sends (fun p => collect_unit rt env self (fst p) (snd p))
              (fun p => unit_request self (fst p) (snd p))
              (fun p => sends_collect_unit rt env self (fst p) (snd p))
              (units_to_scrape env self (length (requests st))
                               focus_subjects focus_grades) st5)
    as [k [Hk [Hreq Hret]]].
  unfold units_to_scrape in Hreq, Hret, Hk.
  destruct (for_each _ _ st5) as [[[]|e] st6]; cbn [snd] in Hreq.
  - unfold bind, get, print, ret. intros H. injection H as <- <-.
    exists (S k). cbn [requests].
    unfold planned_requests, units_to_scrape. cbn [firstn length].
    rewrite Hreq, R5, <- app_assoc, firstn_map. split; [reflexivity|].
    intros _ _. rewrite (Hret st6 eq_refl), length_map. reflexivity.
  - intros H. injection H as <- <-.
    exists (S k). unfold planned_requests, units_to_scrape.
    cbn [firstn]. rewrite Hreq, R5, <- app_assoc, firstn_map.
    split; [reflexivity | intros total H; discriminate H].
Qed.

(* ================================================================== *)
(** ** The columns the upsert does not name *)

Lemma reset_or_old_refl d : reset_or_old d d.
Proof. intros row H. now left. Qed.

Lemma reset_or_old_trans d1 d2 d3 :
  reset_or_old d1 d2 -> reset_or_old d2 d3 -> reset_or_old d1 d3.
Proof.
  intros H12 H23 row H. destruct (H23 row H) as [H2|Hr]; [now apply H12 | now right].
Qed.

Lemma reset_or_old_upsert now standard d :
  reset_or_old d (insert_or_replace now standard d).
Proof.
  intros row. unfold insert_or_replace. cbn [standards].
  rewrite in_app_iff, filter_In.
  intros [[H _]|[<-|[]]]; [now left | right; repeat split].
Qed.

Lemma reset_or_old_insert_log now subject grade status n notes d :
  reset_or_old d (insert_log now subject grade status n notes d).
Proof. intros row H. now left. Qed.

Lemma top_id_grows_refl d : top_id_grows d d.
Proof. unfold top_id_grows. lia. Qed.

Lemma top_id_grows_trans d1 d2 d3 :
  top_id_grows d1 d2 -> top_id_grows d2 d3 -> top_id_grows d1 d3.
Proof. unfold top_id_grows. lia. Qed.

Lemma top_id_grows_upsert now standard d :
  top_id_grows d (insert_or_replace now standard d).
Proof.
  unfold top_id_grows, top_id, insert_or_replace. cbn [standards standards_seq]. lia.
Qed.

Lemma top_id_grows_insert_log now subject grade status n notes d :
  top_id_grows d (insert_log now subject grade status n notes d).
Proof. unfold top_id_grows, top_id, insert_log. cbn [standards standards_seq]. lia. Qed.

Lemma row_below_top d row : In row (standards d) -> (row_id row <= top_id d)%Z.
Proof. intros H. apply max_row_id_ge in H. unfold top_id. lia. Qed.

Lemma stays_replaced_refl sid m d : stays_replaced sid m d d.
Proof. intros H. exact H. Qed.

Lemma stays_replaced_trans sid m d1 d2 d3 :
  stays_replaced sid m d1 d2 -> stays_replaced sid m d2 d3 ->
  stays_replaced sid m d1 d3.
Proof. intros H12 H23 H. apply H23, H12, H. Qed.

(** A later upsert leaves the row alone or puts a reset row with a
    higher id in its place. *)
Lemma stays_replaced_upsert sid m now standard d :
  stays_replaced sid m d (insert_or_replace now standard d).
Proof.
  intros [row [Hrows [Hreset Hid]]].
  destruct (list_eq_dec N.eq_dec sid (standard_id standard)) as [->|Hne].
  - eexists. split; [apply insert_or_replace_key|].
    split; [repeat split|]. cbn [row_id].
    assert (Hin : In row (standards d)).
    { apply (rows_with_key_In (standard_id standard) d row).
      rewrite Hrows. now left. }
    apply row_below_top in Hin. unfold top_id in Hin. lia.
  - exists row. rewrite insert_or_replace_others by exact Hne.
    split; [exact Hrows|]. split; [exact Hreset | exact Hid].
Qed.

Lemma stays_replaced_insert_log sid m now subject grade status n notes d :
  stays_replaced sid m d (insert_log now subject grade status n notes d).
Proof. intros H. exact H. Qed.

(** The last record of a batch that has a given key. *)
Lemma last_with_key sid (batch : list Standard) :
  In sid (map standard_id batch) ->
  exists pre standard post,
    batch = pre ++ standard :: post
    /\ standard_id standard = sid
    /\ ~ In sid (map standard_id post).
Proof.
  induction batch as [|s0 rest IH]; cbn [map]; [intros []|].
  destruct (in_dec (list_eq_dec N.eq_dec) sid (map standard_id rest)) as [Hin|Hnot].
  - intros _. destruct (IH Hin) as [pre [standard [post [-> [Hk Hp]]]]].
    exists (s0 :: pre), standard, post. now repeat split.
  - intros [Hk|Hin]; [|contradiction].
    exists [], s0, rest. now repeat split.
Qed.

Section ReplacementFacts.

Variable rt : Runtime.
Variable env : Env.
Variable self : CPALMSDataCollector.

(** A save whose calls succeed: under the key of a record that no later
    record of the batch has, it leaves the row of that record, written
    by the call that comes after the connect and the upserts of the
    records before it, with an id above every id given out before. *)
Lemma save_replaces batch pre standard post st :
  save_sound env ->
  batch = pre ++ standard :: post ->
  ~ In (standard_id standard) (map standard_id post) ->
  exists st' id,
    save_standards_to_db env batch st = (Return tt, st')
    /\ rows_with_key (standard_id standard) (db st') =
       [mkStandardRow id
          (Some (standard_id standard)) (Some (lit "FL"))
          (Some (subject standard)) (Some (grade standard)) None None
          (Some (title standard)) (Some (description standard)) None
          (Some (keywords standard)) (url standard)
          (Some (current_timestamp env (S (db_calls st) + length pre)))]
    /\ (top_id (db st) < id)%Z.
Proof.
  intros Hok -> Hnot. unfold save_standards_to_db.
  destruct (pre ++ standard :: post) as [|s0 rest] eqn:E.
  { now destruct pre. }
  rewrite <- E. clear E s0 rest.
  unfold bind at 1, db_call at 1. rewrite (Hok _ SaveConnect eq_refl).
  unfold bind at 1, get. unfold bind at 1.
  set (st0 := mkState _ _ _ _ _ _).
  rewrite upsert_all_app.
  destruct (upsert_all_returns env pre (db st) st0)
    as [w1 [st1 [Hpre [_ [_ [_ [_ [Hcalls _]]]]]]]].
  destruct (upsert_all_respects top_id_grows top_id_grows_refl top_id_grows_trans
              top_id_grows_upsert env pre (db st) st0)
    as [w1' [st1' [Hpre' [_ Htop]]]].
  rewrite Hpre in Hpre'. injection Hpre' as <- <-.
  erewrite bind_return by exact Hpre.
  cbn [upsert_all]. unfold bind at 1, try_except, bind at 1, db_call.
  rewrite (Hok _ SaveUpsert eq_refl). cbn [ret].
  match goal with |- context [upsert_all env post ?wk ?s] =>
    destruct (upsert_all_returns env post wk s) as [w3 [st3 [Hpost _]]];
    pose proof (upsert_all_others env _ post Hnot _ _ _ _ Hpost) as Hrows end.
  rewrite Hpost. unfold bind, db_call, set_db. rewrite (Hok _ SaveCommit eq_refl).
  do 2 eexists. split; [reflexivity|]. cbn [db].
  rewrite Hrows, insert_or_replace_key, Hcalls. cbn [st0 db_calls].
  split; [reflexivity|]. unfold top_id_grows in Htop. fold (top_id w1). lia.
Qed.

(** A page that is parsed gives the records of its valid elements, under
    their stripped identifiers. *)
Lemma scrape_parsed_ids (s g : str) st body items :
  http env (length (requests st)) (unit_request self s g) = HttpOk body ->
  as_html body = Soup items ->
  exists batch st',
    scrape_standards_by_subject_grade rt env self s g st = (Return batch, st')
    /\ db st' = db st
    /\ map standard_id batch
       = map (fun e => strip rt (or_empty (find_standard_id e)))
             (filter (valid rt self) items).
Proof.
  intros H Hb.
  unfold scrape_standards_by_subject_grade, try_except, bind, session_get, BeautifulSoup.
  fold (unit_request self s g). rewrite H, Hb. unfold ret at 1.
  match goal with |- context [scrape_elements _ _ _ _ _ _ ?s0] =>
    destruct (scrape_elements_records rt self items s g [] s0)
      as [new [st1 [Hrun [Hids _]]]];
    destruct (scrape_elements_returns rt self items s g [] s0)
      as [new' [st1' [Hrun' [Hq _]]]] end.
  rewrite Hrun in Hrun'. injection Hrun' as _ <-.
  rewrite Hrun. cbn [app sleep ret]. do 2 eexists. split; [reflexivity|].
  destruct Hq as [Q1 _]. cbn [db] in *. split; [exact Q1 | exact Hids].
Qed.

(** A unit whose page shows a valid element leaves, when saving and
    logging work, one reset row under the identifier of that element. *)
Lemma collect_unit_replaces (s g : str) st body items element :
  log_sound env -> save_sound env ->
  http env (length (requests st)) (unit_request self s g) = HttpOk body ->
  as_html body = Soup items ->
  In element items -> valid rt self element = true ->
  exists st',
    collect_unit rt env self s g st = (Return tt, st')
    /\ replaced_above (strip rt (or_empty (find_standard_id element)))
                      (top_id (db st)) (db st').
Proof.
  intros Hlog Hsave H Hb Hin Hvalid. unfold collect_unit.
  unfold bind at 1, print at 1. set (st0 := mkState _ _ _ _ _ _).
  destruct (scrape_parsed_ids s g st0 body items H Hb)
    as [batch [st1 [Hrun [D1 Hids]]]].
  cbn [st0 db] in D1.
  set (sid := strip rt (or_empty (find_standard_id element))).
  assert (Hsid : In sid (map standard_id batch)).
  { rewrite Hids.
    apply (in_map (fun e => strip rt (or_empty (find_standard_id e)))).
    apply filter_In. now split. }
  destruct (last_with_key sid batch Hsid) as [pre [standard [post [E [Hk Hp]]]]].
  rewrite <- Hk in Hp.
  destruct (save_replaces batch pre standard post st1 Hsave E Hp)
    as [st2 [id [Hsaved [Hrows Hid]]]].
  rewrite Hk, D1 in *.
  destruct batch as [|s0 rest]; [now destruct pre|].
  erewrite try_return.
  2:{ unfold collect_unit_try. erewrite bind_return by exact Hrun.
      cbv beta iota. erewrite bind_return by exact Hsaved.
      unfold bind at 1, get at 1. unfold bind at 1, set_total at 1.
      unfold bind at 1, print at 1. apply log_scraping_activity_ok, Hlog. }
  eexists. split; [reflexivity|].
  eexists. cbn [db]. unfold rows_with_key in *. cbn [insert_log standards].
  split; [exact Hrows|]. split; [repeat split | exact Hid].
Qed.

(** The same for a whole run: the row is there when the run returns,
    whatever the later units do. *)
Lemma run_replaces focus_subjects focus_grades st i (s g : str) body items element :
  setup_sound env -> log_sound env -> save_sound env ->
  search_page_parses env self (length (requests st)) ->
  nth_error (units_to_scrape env self (length (requests st))
                             focus_subjects focus_grades) i = Some (s, g) ->
  http env (S (length (requests st)) + i) (unit_request self s g) = HttpOk body ->
  as_html body = Soup items ->
  In element items -> valid rt self element = true ->
  exists total st',
    collect_all_standards rt env self focus_subjects focus_grades st
      = (Return total, st')
    /\ replaced_above (strip rt (or_empty (find_standard_id element)))
                      (top_id (db st)) (db st').
Proof.
  intros Hsetup Hlog Hsave Hparse Hi H Hb Hin Hvalid.
  unfold collect_all_standards.
  unfold bind at 1, print at 1.
  erewrite bind_return by (apply setup_database_ok; exact Hsetup).
  unfold bind at 1, print at 1.
  cbn [db db_calls requests sleeps stdout total_collected].
  match goal with |- context [bind (get_subjects_and_grades env self) _ ?s0] =>
    destruct (get_subjects_and_grades_ok env self s0 Hparse)
      as [st1 [Hget [G1 [_ G3]]]] end.
  erewrite bind_return by exact Hget.
  cbn [db db_calls requests sleeps stdout total_collected] in *.
  unfold bind at 1, print at 1. unfold bind at 1, set_total at 1.
  unfold collect_units. unfold bind at 1. rewrite for_each_nested.
  fold (units_to_scrape env self (length (requests st)) focus_subjects focus_grades).
  destruct (nth_error_split _ _ Hi) as [before [after [Hunits Hlen]]].
  rewrite Hunits, for_each_app.
  set (body_of := fun p : str * str => collect_unit rt env self (fst p) (snd p)).
  set (st2 := mkState _ _ _ _ _ _).
  assert (K : forall R : Database -> Database -> Prop,
            (forall d, R d d) -> (forall d1 d2 d3, R d1 d2 -> R d2 d3 -> R d1 d3) ->
            (forall now standard d, R d (insert_or_replace now standard d)) ->
            (forall now subject grade status n notes d,
               R d (insert_log now subject grade status n notes d)) ->
            forall units, keeps R (for_each units body_of)).
  { intros R R1 R2 R3 R4 units. apply (keeps_for_each R R1 R2). intros [s' g'].
    apply (keeps_collect_unit R R1 R2 rt env
             (save_respects R R1 R2 R3 env)
             (log_respects R R1 R4 env)). }
  destruct (collect_loop_logs rt env self before Hlog st2)
    as [st3 [es [Hloop [_ [_ [Hreq _]]]]]].
  fold body_of in Hloop.
  pose proof (K top_id_grows top_id_grows_refl top_id_grows_trans
                top_id_grows_upsert top_id_grows_insert_log before st2) as Htop.
  rewrite Hloop in Htop. cbn [snd st2 db] in Htop. rewrite G1 in Htop.
  erewrite bind_return by exact Hloop.
  cbn [for_each]. 
  assert (Hn : length (requests st3) = S (length (requests st)) + i).
  { rewrite Hreq. cbn [st2 requests]. rewrite G3, !length_app, length_map.
    cbn [length]. lia. }
  rewrite <- Hn in H.
  destruct (collect_unit_replaces s g st3 body items element Hlog Hsave H Hb Hin Hvalid)
    as [st4 [Hunit Hrep]].
  change (body_of (s, g)) with (collect_unit rt env self s g).
  erewrite bind_return by exact Hunit.
  destruct (collect_loop_logs rt env self after Hlog st4)
    as [st5 [es' [Hloop' _]]].
  fold body_of in Hloop'.
  set (sid := strip rt (or_empty (find_standard_id element))) in *.
  pose proof (K (stays_replaced sid (top_id (db st)))
                (stays_replaced_refl sid _) (stays_replaced_trans sid _)
                (stays_replaced_upsert sid _) (stays_replaced_insert_log sid _)
                after st4) as Hstay.
  rewrite Hloop' in Hstay. cbn [snd] in Hstay.
  rewrite Hloop'. unfold bind, get, print, ret. do 2 eexists.
  split; [reflexivity|]. cbn [db]. apply Hstay.
  destruct Hrep as [row [Hrows [Hreset Hid]]].
  exists row. split; [exact Hrows|]. split; [exact Hreset|].
  unfold top_id_grows in Htop. lia.
Qed.

End ReplacementFacts.

(** The row that was under the key is gone with its values. *)
Lemma replaced_row_gone sid d old row :
  rows_with_key sid d = [row] ->
  row_standard_id old = Some sid ->
  (row_id old < row_id row)%Z ->
  ~ In old (standards d).
Proof.
  intros Hrows Hkey Hid Hold.
  assert (Hin : In old (rows_with_key sid d)).
  { apply rows_with_key_In. split; [exact Hold|].
    unfold has_key. rewrite Hkey. apply str_eqb_refl. }
  rewrite Hrows in Hin. destruct Hin as [E|[]]. subst. lia.
Qed.

(** C10.  Every record in a store the program has built has state 'FL'
    and NULL in [domain], [cluster] and [clarifications]; and on any
    store, whatever a run meets, every row it leaves was there before or
    is such a row.  The upsert names seven columns, so replacing resets
    the others.  A save whose calls succeed leaves, under the key of a
    record of its batch (the last with that key), exactly one row: it
    has the record's values in the seven columns, the defaults 'FL' and
    the time of the statement in [state] and [created_at], NULL in
    [domain], [cluster] and [clarifications] and a new id, and the row
    that was under the key is gone, whatever it held.  The same holds of
    a run that returns, for the identifier of every valid element of a
    page it fetched, when set-up, saving and the log work. *)
Theorem replacement_resets_unlisted_columns :
  (forall st, program_store st -> Forall reset_row (standards (db st)))
  /\
  (forall rt env self focus_subjects focus_grades st,
     reset_or_old (db st)
       (db (snd (collect_all_standards rt env self focus_subjects focus_grades st))))
  /\
  (forall env pre standard post st old,
     save_sound env ->
     ~ In (standard_id standard) (map standard_id post) ->
     In old (standards (db st)) ->
     row_standard_id old = Some (standard_id standard) ->
     exists st' row,
       save_standards_to_db env (pre ++ standard :: post) st = (Return tt, st')
       /\ rows_with_key (standard_id standard) (db st') = [row]
       /\ row_state row = Some (lit "FL")
       /\ row_domain row = None /\ row_cluster row = None
       /\ row_clarifications row = None
       /\ row_created_at row
          = Some (current_timestamp env (S (db_calls st) + length pre))
       /\ row_subject row = Some (subject standard)
       /\ row_grade row = Some (grade standard)
       /\ row_title row = Some (title standard)
       /\ row_description row = Some (description standard)
       /\ row_keywords row = Some (keywords standard)
       /\ row_url row = url standard
       /\ (row_id old < row_id row)%Z
       /\ ~ In old (standards (db st')))
  /\
  (forall rt env self focus_subjects focus_grades st i s g body items element old,
     setup_sound env -> log_sound env -> save_sound env ->
     search_page_parses env self (length (requests st)) ->
     nth_error (units_to_scrape env self (length (requests st))
                                focus_subjects focus_grades) i = Some (s, g) ->
     http env (S (length (requests st)) + i) (unit_request self s g) = HttpOk body ->
     as_html body = Soup items ->
     In element items -> valid rt self element = true ->
     In old (standards (db st)) ->
     row_standard_id old = Some (strip rt (or_empty (find_standard_id element))) ->
     exists total st' row,
       collect_all_standards rt env self focus_subjects focus_grades st
         = (Return total, st')
       /\ rows_with_key (strip rt (or_empty (find_standard_id element))) (db st')
          = [row]
       /\ row_state row = Some (lit "FL")
       /\ row_domain row = None /\ row_cluster row = None
       /\ row_clarifications row = None
       /\ (row_id old < row_id row)%Z
       /\ ~ In old (standards (db st'))).
Proof.
  assert (Hrun : forall rt env self focus_subjects focus_grades st,
            reset_or_old (db st)
              (db (snd (collect_all_standards rt env self
                          focus_subjects focus_grades st)))).
  { intros rt env self focus_subjects focus_grades st.
    apply (run_respects reset_or_old reset_or_old_refl reset_or_old_trans
             reset_or_old_upsert reset_or_old_insert_log). }
  split; [|split; [exact Hrun|split]].
  - intros st Hst. apply Forall_forall.
    induction Hst as [st Hnew|rt env self fs fg st _ IH|env batch st _ IH];
      intros row Hrow.
    + rewrite Hnew in Hrow. destruct Hrow.
    + destruct (Hrun rt env self fs fg st row Hrow) as [Hold|Hr];
        [now apply IH | exact Hr].
    + destruct (save_respects reset_or_old reset_or_old_refl reset_or_old_trans
                  reset_or_old_upsert env batch st row Hrow) as [Hold|Hr];
        [now apply IH | exact Hr].
  - intros env pre standard post st old Hsave Hnot Hold Hkey.
    destruct (save_replaces env _ pre standard post st Hsave eq_refl Hnot)
      as [st' [id [Hsaved [Hrows Hid]]]].
    exists st'. eexists. split; [exact Hsaved|]. split; [exact Hrows|].
    cbn [row_state row_domain row_cluster row_clarifications row_created_at
         row_subject row_grade row_title row_description row_keywords row_url
         row_id].
    do 11 (split; [reflexivity|]).
    pose proof (row_below_top _ _ Hold) as Hle.
    split; [lia|].
    eapply replaced_row_gone; [exact Hrows | exact Hkey | cbn [row_id]; lia].
  - intros rt env self fs fg st i s g body items element old
           Hsetup Hlog Hsave Hparse Hi H Hb Hin Hvalid Hold Hkey.
    destruct (run_replaces rt env self fs fg st i s g body items element
                Hsetup Hlog Hsave Hparse Hi H Hb Hin Hvalid)
      as [total [st' [Hrun' [row [Hrows [[R1 [R2 [R3 R4]]] Hid]]]]]].
    pose proof (row_below_top _ _ Hold) as Hle.
    exists total, st', row. split; [exact Hrun'|]. split; [exact Hrows|].
    split; [exact R1|]. split; [exact R2|]. split; [exact R3|]. split; [exact R4|].
    split; [lia|].
    eapply replaced_row_gone; [exact Hrows | exact Hkey | lia].
Qed.

Lemma replacement_resets_unlisted_columns_witness :
  row_state curated_row = Some (lit "TX")
  /\ row_domain curated_row = Some (lit "Number Sense")
  /\ (exists total st' row,
        collect_all_standards ascii_runtime two_item_env (new_collector None)
          (Some [lit "Mathematics"]) (Some [lit "3"]) curated_state
          = (Return total, st')
        /\ rows_with_key (lit "MA.3.NSO.1.1") (db st') = [row]
        /\ row_state row = Some (lit "FL") /\ row_domain row = None
        /\ ~ In curated_row (standards (db st')))
  /\ (exists st' row,
        save_standards_to_db quiet_env [first_record; second_record] curated_state
          = (Return tt, st')
        /\ rows_with_key (lit "MA.3.NSO.1.1") (db st') = [row]
        /\ row_state row = Some (lit "FL") /\ row_domain row = None
        /\ row_created_at row = Some 2%Z)
  /\ Forall reset_row (standards (db (snd (run_mathematics_3 two_item_env)))).
Proof.
  split; [reflexivity|]. split; [reflexivity|].
  destruct replacement_resets_unlisted_columns as [Hbuilt [_ [Hsave Hrun]]].
  split; [|split].
  - assert (Hid : strip ascii_runtime (or_empty (find_standard_id good_element))
                  = lit "MA.3.NSO.1.1") by (vm_compute; reflexivity).
    destruct (Hrun ascii_runtime two_item_env (new_collector None)
                (Some [lit "Mathematics"]) (Some [lit "3"]) curated_state
                0 (lit "Mathematics") (lit "3") _ _ good_element curated_row
                (fun n op _ => eq_refl) (fun n op _ => eq_refl)
                (fun n op _ => eq_refl)
                (fun body E => ex_intro _ _ (f_equal as_html (eq_sym (f_equal
                   (fun r => match r with HttpOk b => b | _ => body end) E))))
                eq_refl eq_refl eq_refl (or_introl eq_refl) eq_refl
                (or_introl eq_refl) (f_equal Some (eq_sym Hid)))
      as [total [st' [row [Hr [Hrows [Hst [Hd [_ [_ [_ Hgone]]]]]]]]]].
    rewrite Hid in Hrows.
    exists total, st', row. now repeat split.
  - destruct (Hsave quiet_env [first_record] second_record [] curated_state
                curated_row quiet_env_save_sound (fun H => H)
                (or_introl eq_refl) eq_refl)
      as [st' [row [Hr [Hrows [Hst [Hd [_ [_ [Hat _]]]]]]]]].
    exists st', row. split; [exact Hr|]. split; [exact Hrows|].
    split; [exact Hst|]. split; [exact Hd | exact Hat].
  - apply Hbuilt. unfold run_mathematics_3. apply store_run, store_new. reflexivity.
Defined.


(** Why the first part speaks of stores the program has built: a row put
    into the table by other means, under a key that no page shows, is
    not the program's to reset, and a run leaves it as it is. *)
Example foreign_row_is_left_alone :
  let run := collect_all_standards ascii_runtime two_item_env (new_collector None)
               (Some [lit "Mathematics"]) (Some [lit "3"]) foreign_state in
  fst run = Return 1
  /\ rows_with_key (lit "TX.3.1") (db (snd run)) = [foreign_row]
  /\ row_state foreign_row = Some (lit "TX").
Proof. vm_compute. repeat split. Qed.
